(** * weiroll planner: visibility analysis, slot allocation and command encoding

    A shallow embedding of [weiroll/client.py] (class [WeirollPlanner] and the
    value/call model around it) and the properties of its planning pipeline.

    Modelling conventions.
    - Python objects that are compared by identity ([FunctionCall],
      [WeirollPlanner]) carry a natural number standing for the object: a call
      has a [call_id], a planner is an index into a heap of planners.
    - [Command] is a namedtuple [(call, type)]: it is hashed and compared by
      value, that is by the identity of its call and by its type.  This is the
      [CommandKey] under which every dict and set of the planner files it.
    - [bytes]/[HexBytes] are lists of byte values (integers in 0..255).
    - dicts are association lists in insertion order (Python dicts iterate in
      insertion order and [plan] relies on it); sets are lists read through
      membership only.
    - the two mutable default arguments of [_preplan] ([seen] and [planners])
      are objects created once, when the function is defined: they are the
      [Globals] threaded through successive calls of [plan].
    - what the libraries under the encoder raise is an error of the model:
      [HexBytes] of a negative integer, and the [bytes32[]] encoding of a word
      of more than 32 bytes. *)

From Stdlib Require Import List ZArith Ascii String Bool Arith Lia.
Import ListNotations.

(** ** Values, calls and commands *)

Definition bytes := list Z.

Inductive CommandType := CALL | RAWCALL | SUBPLAN.

Definition CommandType_eqb (a b : CommandType) : bool :=
  match a, b with
  | CALL, CALL | RAWCALL, RAWCALL | SUBPLAN, SUBPLAN => true
  | _, _ => false
  end.

(** What a [Command] namedtuple is compared by: its call object and its type. *)
Definition CommandKey := (nat * CommandType)%type.

Definition key_eqb (a b : CommandKey) : bool :=
  Nat.eqb (fst a) (fst b) && CommandType_eqb (snd a) (snd b).

Definition bytes_eqb (a b : bytes) : bool :=
  if list_eq_dec Z.eq_dec a b then true else false.

(** The argument variants: the namedtuples [Value], [LiteralValue],
    [ReturnValue] and the classes [StateValue] and [SubplanValue].  A
    [ReturnValue] refers to its producing command, a [SubplanValue] to a
    planner object. *)
Inductive Arg :=
| Value (param : string)
| LiteralValue (param : string) (value : bytes)
| ReturnValue (param : string) (command : CommandKey)
| StateValue
| SubplanValue (planner : nat).

Definition arg_param (a : Arg) : string :=
  match a with
  | Value p | LiteralValue p _ | ReturnValue p _ => p
  | StateValue | SubplanValue _ => "bytes[]"%string
  end.

Definition isSubplanValue (a : Arg) : bool :=
  match a with SubplanValue _ => true | _ => false end.

Definition isStateValue (a : Arg) : bool :=
  match a with StateValue => true | _ => false end.

Record FunctionFragment := {
  name : string;
  signature : bytes;          (* the 4-byte selector *)
  inputs : list string;
  outputs : list string
}.

Record FunctionCall := {
  call_id : nat;              (* identity of the FunctionCall object *)
  address : bytes;            (* call.contract.address *)
  flags : Z;
  fragment : FunctionFragment;
  args : list Arg;
  callvalue : option (string * bytes)
}.

Record Command := { call : FunctionCall; type : CommandType }.

Definition key (c : Command) : CommandKey := (call_id (call c), type c).

(** [CommandFlags] *)
Definition DELEGATECALL : Z := 0x00.
Definition FLAG_CALL : Z := 0x01.
Definition STATICCALL : Z := 0x02.
Definition CALL_WITH_VALUE : Z := 0x03.
Definition CALLTYPE_MASK : Z := 0x03.
Definition EXTENDED_COMMAND : Z := 0x40.
Definition TUPLE_RETURN : Z := 0x80.

(** ** Errors and results *)

Inductive Error :=
| PlannerContainsItself          (* A planner cannot contain itself *)
| CallWithValueNeedsValue        (* Call with value must have a value parameter *)
| ReturnNotVisible               (* Return value from '..' is not visible here *)
| UnknownArgumentType            (* Unknown function argument type *)
| ReplaceStateAndUse             (* Return value of .. cannot be used to replace state and
                                    in another function *)
| OnlySubplansTakeSubplanValue   (* Only subplans can have arguments of type SubplanValue *)
| OnePlannerArgument             (* Subplans can only take one planner argument *)
| OneStateArgument               (* Subplans can only take one state argument *)
| MustTakePlannerAndState        (* Subplans must take planner and state arguments *)
| MustReturnBytesArray           (* Subplans must return a bytes[] replacement state or nothing *)
| KeyError                       (* a dict lookup of a missing key *)
| StopIteration                  (* next() on an exhausted generator *)
| NegativeInteger                (* ValueError of hexbytes: Cannot convert negative
                                    integer .. to bytes *)
| ValueOutOfBounds.              (* eth_abi: a bytes32 value of more than 32 bytes *)

Inductive res (A : Type) :=
| Ok (a : A)
| Err (e : Error)
| OutOfFuel.
Arguments Ok {A} a.
Arguments Err {A} e.
Arguments OutOfFuel {A}.

(** An error ends the computation. *)
Definition bind {A B} (r : res A) (f : A -> res B) : res B :=
  match r with
  | Ok a => f a
  | Err e => Err e
  | OutOfFuel => OutOfFuel
  end.

(** ** Dicts and sets *)

Section Dict.
Context {K V : Type}.
Variable eqb : K -> K -> bool.

Fixpoint dict_get (d : list (K * V)) (k : K) : option V :=
  match d with
  | [] => None
  | (k', v) :: r => if eqb k k' then Some v else dict_get r k
  end.

(** [d[k] = v]: an existing key keeps its place, a new one goes last. *)
Fixpoint dict_set (d : list (K * V)) (k : K) (v : V) : list (K * V) :=
  match d with
  | [] => [(k, v)]
  | (k', v') :: r => if eqb k k' then (k', v) :: r else (k', v') :: dict_set r k v
  end.

Definition dict_mem (d : list (K * V)) (k : K) : bool :=
  match dict_get d k with Some _ => true | None => false end.
End Dict.

Definition set_mem {K} (eqb : K -> K -> bool) (k : K) (s : list K) : bool :=
  existsb (eqb k) s.

(** ** The planner heap *)

(** A planner object is its list of commands; planners are referred to by
    their index in the heap.  An index outside the heap reads as a planner
    without commands. *)
Definition Heap := list (list Command).

Definition commands (h : Heap) (self : nat) : list Command := nth self h [].

(** ** [_preplan]: the visibility walk *)

Record PreState := {
  commandVisibility : list (CommandKey * CommandKey);
  literalVisibility : list (bytes * CommandKey);
  seen : list CommandKey;
  planners : list nat
}.

Definition set_seen (s : list CommandKey) (st : PreState) : PreState :=
  {| commandVisibility := commandVisibility st;
     literalVisibility := literalVisibility st;
     seen := s; planners := planners st |}.

(** The arguments a command reads: the call value first when the call type is
    CALL_WITH_VALUE. *)
Definition inargs (command : Command) : res (list Arg) :=
  if (Z.land (flags (call command)) CALLTYPE_MASK =? CALL_WITH_VALUE)%Z then
    match callvalue (call command) with
    | None => Err CallWithValueNeedsValue
    | Some (p, v) => Ok (LiteralValue p v :: args (call command))
    end
  else Ok (args (call command)).

Section PreplanLoop.
(** [arg.planner._preplan(commandVisibility, literalVisibility, subplanSeen, planners)] *)
Variable rec : nat -> PreState -> res unit * PreState.

Fixpoint preplan_args (command : Command) (l : list Arg) (st : PreState)
  : res unit * PreState :=
  match l with
  | [] => (Ok tt, st)
  | arg :: rest =>
    match arg with
    | ReturnValue _ c =>
      if set_mem key_eqb c (seen st) then
        preplan_args command rest
          {| commandVisibility := dict_set key_eqb (commandVisibility st) c (key command);
             literalVisibility := literalVisibility st;
             seen := seen st; planners := planners st |}
      else (Err ReturnNotVisible, st)
    | LiteralValue _ v =>
      preplan_args command rest
        {| commandVisibility := commandVisibility st;
           literalVisibility := dict_set bytes_eqb (literalVisibility st) v (key command);
           seen := seen st; planners := planners st |}
    | SubplanValue q =>
      let '(r, st') := rec q st in
      (* a read-only subplan walks a copy of [seen]: ours is left as it was *)
      let st'' :=
        match outputs (fragment (call command)) with
        | [] => set_seen (seen st) st'
        | _ :: _ => st'
        end in
      match r with
      | Ok _ => preplan_args command rest st''
      | Err e => (Err e, st'')
      | OutOfFuel => (OutOfFuel, st'')
      end
    | StateValue => preplan_args command rest st
    | Value _ => (Err UnknownArgumentType, st)
    end
  end.

Definition preplan_command (command : Command) (st : PreState)
  : res unit * PreState :=
  match inargs command with
  | Ok l =>
    match preplan_args command l st with
    | (Ok _, st') => (Ok tt, set_seen (key command :: seen st') st')
    | other => other
    end
  | Err e => (Err e, st)
  | OutOfFuel => (OutOfFuel, st)
  end.

Fixpoint preplan_commands (l : list Command) (st : PreState)
  : res unit * PreState :=
  match l with
  | [] => (Ok tt, st)
  | command :: rest =>
    match preplan_command command st with
    | (Ok _, st') => preplan_commands rest st'
    | other => other
    end
  end.
End PreplanLoop.

Fixpoint preplan (fuel : nat) (h : Heap) (self : nat) (st : PreState)
  : res unit * PreState :=
  match fuel with
  | O => (OutOfFuel, st)
  | S fuel' =>
    if set_mem Nat.eqb self (planners st) then (Err PlannerContainsItself, st)
    else
      preplan_commands (preplan fuel' h) (commands h self)
        {| commandVisibility := commandVisibility st;
           literalVisibility := literalVisibility st;
           seen := seen st; planners := self :: planners st |}
  end.

(** ** [_buildCommandArgs] and [_buildCommands]: slot allocation and encoding *)

(** [PlannerState]; [commandVisibility] is only read here. *)
Record PlannerState := {
  returnSlotMap : list (CommandKey * Z);
  literalSlotMap : list (bytes * Z);
  freeSlots : list Z;
  stateExpirations : list (CommandKey * list Z);
  ps_commandVisibility : list (CommandKey * CommandKey);
  state : list bytes
}.

(** [stateExpirations] is a [defaultdict(list)]. *)
Definition expirations (d : list (CommandKey * list Z)) (k : CommandKey) : list Z :=
  match dict_get key_eqb d k with Some l => l | None => [] end.

Definition expirations_append (d : list (CommandKey * list Z)) (k : CommandKey) (slot : Z) :=
  dict_set key_eqb d k (expirations d k ++ [slot]).

Definition padArray (a : list Z) (length : nat) (padValue : Z) : list Z :=
  a ++ repeat padValue (length - List.length a).

(** The bytes of a non-negative integer: big-endian, as short as they can
    be, one byte at least. *)
Fixpoint be_bytes (fuel : nat) (n : Z) (acc : bytes) : bytes :=
  match fuel with
  | O => n :: acc
  | S f => if (n <? 256)%Z then n :: acc
           else be_bytes f (n / 256)%Z ((n mod 256)%Z :: acc)
  end.

(** [HexBytes(n)] for an integer: hexbytes refuses a negative one. *)
Definition HexBytes_int (n : Z) : res bytes :=
  if (n <? 0)%Z then Err NegativeInteger
  else Ok (be_bytes (Z.to_nat (Z.log2 n)) n []).

(** [hexConcat] of a list of integers. *)
Fixpoint hexConcat_ints (l : list Z) : res bytes :=
  match l with
  | [] => Ok []
  | n :: r =>
    bind (HexBytes_int n) (fun b =>
    bind (hexConcat_ints r) (fun bs => Ok (b ++ bs)))
  end.

(** [l.pop()] *)
Definition pop (l : list Z) : option (Z * list Z) :=
  match rev l with
  | [] => None
  | x :: r => Some (x, rev r)
  end.

Definition len {A} (l : list A) : Z := Z.of_nat (List.length l).

(** A value that the ABI library takes as a [bytes32]: it pads a shorter one
    and raises [ValueOutOfBounds] on a longer one. *)
Definition fits_bytes32 (w : bytes) : bool := (List.length w <=? 32)%nat.

Section Encoder.
(** The two primitives of the ABI library the encoder calls:
    [isDynamicType(param)] and [eth_abi_encode_single("bytes32[]", words)], the
    latter on words that all fit a [bytes32]. *)
Variable isDynamicType : string -> bool.
Variable encode_bytes32_array : list bytes -> bytes.

Fixpoint buildCommandArgs_loop (l : list Arg)
    (rsm : list (CommandKey * Z)) (lsm : list (bytes * Z)) (st : list bytes)
  : res (list Z) :=
  match l with
  | [] => Ok []
  | arg :: rest =>
    let slot :=
      match arg with
      | ReturnValue _ c =>
        match dict_get key_eqb rsm c with Some s => Ok s | None => Err KeyError end
      | LiteralValue _ v =>
        match dict_get bytes_eqb lsm v with Some s => Ok s | None => Err KeyError end
      | StateValue => Ok 0xFE%Z
      | SubplanValue _ => Ok (len st - 1)%Z
      | Value _ => Err UnknownArgumentType
      end in
    match slot with
    | Ok s =>
      let s' := if isDynamicType (arg_param arg) then Z.lor s 0x80 else s in
      match buildCommandArgs_loop rest rsm lsm st with
      | Ok r => Ok (s' :: r)
      | other => other
      end
    | Err e => Err e
    | OutOfFuel => OutOfFuel
    end
  end.

Definition buildCommandArgs (command : Command)
    (rsm : list (CommandKey * Z)) (lsm : list (bytes * Z)) (st : list bytes)
  : res (list Z) :=
  match inargs command with
  | Ok l => buildCommandArgs_loop l rsm lsm st
  | Err e => Err e
  | OutOfFuel => OutOfFuel
  end.

Definition is_state_replacing (t : CommandType) : bool :=
  match t with RAWCALL | SUBPLAN => true | CALL => false end.

(** The return slot of a command, and the planner state after allocating it. *)
Definition return_slot (command : Command) (ps : PlannerState)
  : res (Z * PlannerState) :=
  match dict_get key_eqb (ps_commandVisibility ps) (key command) with
  | Some expiryCommand =>
    if is_state_replacing (type command) then Err ReplaceStateAndUse
    else
      let '(ret, free) :=
        match pop (freeSlots ps) with
        | Some (s, r) => (s, r)
        | None => (len (state ps), freeSlots ps)
        end in
      let st := if (ret =? len (state ps))%Z then state ps ++ [[]] else state ps in
      let dyn :=
        match outputs (fragment (call command)) with
        | o :: _ => isDynamicType o
        | [] => false
        end
        || negb (Z.land (flags (call command)) TUPLE_RETURN =? 0)%Z in
      Ok (if dyn then Z.lor ret 0x80 else ret,
          {| returnSlotMap := dict_set key_eqb (returnSlotMap ps) (key command) ret;
             literalSlotMap := literalSlotMap ps;
             freeSlots := free;
             stateExpirations := expirations_append (stateExpirations ps) expiryCommand ret;
             ps_commandVisibility := ps_commandVisibility ps;
             state := st |})
  | None =>
    Ok (if is_state_replacing (type command)
           && (List.length (outputs (fragment (call command))) =? 1)%nat
        then 0xFE%Z else 0xFF%Z, ps)
  end.

(** [hexConcat(signature, flags, args, ret, address)]: one word. *)
Definition hexConcat_word (command : Command) (flags' : Z) (slots : list Z) (ret : Z)
  : res bytes :=
  bind (HexBytes_int flags') (fun f =>
  bind (hexConcat_ints slots) (fun a =>
  bind (HexBytes_int ret) (fun r =>
  Ok (signature (fragment (call command)) ++ f ++ a ++ r ++ address (call command))))).

(** The words a command is encoded to. *)
Definition encode_command (command : Command) (flags' : Z) (cargs : list Z) (ret : Z)
  : res (list bytes) :=
  if (Z.land flags' EXTENDED_COMMAND =? EXTENDED_COMMAND)%Z then
    bind (hexConcat_word command flags' (repeat 0xFF%Z 6) ret) (fun header =>
    bind (hexConcat_ints (padArray cargs 32 0xFF%Z)) (fun continuation =>
    Ok [header; continuation]))
  else
    bind (hexConcat_word command flags' (padArray cargs 6 0xFF%Z) ret) (fun word =>
    Ok [word]).

(** One turn of the loop of [_buildCommands], after the subplan (if any) has
    been built and stored. *)
Definition buildCommand (command : Command) (ps : PlannerState)
  : res (list bytes * PlannerState) :=
  match buildCommandArgs command (returnSlotMap ps) (literalSlotMap ps) (state ps) with
  | Ok cargs =>
    let flags' :=
      if (6 <? List.length cargs)%nat
      then Z.lor (flags (call command)) EXTENDED_COMMAND
      else flags (call command) in
    let ps1 :=
      {| returnSlotMap := returnSlotMap ps;
         literalSlotMap := literalSlotMap ps;
         freeSlots := freeSlots ps ++ expirations (stateExpirations ps) (key command);
         stateExpirations := stateExpirations ps;
         ps_commandVisibility := ps_commandVisibility ps;
         state := state ps |} in
    match return_slot command ps1 with
    | Ok (ret, ps2) =>
      bind (encode_command command flags' cargs ret) (fun words => Ok (words, ps2))
    | Err e => Err e
    | OutOfFuel => OutOfFuel
    end
  | Err e => Err e
  | OutOfFuel => OutOfFuel
  end.

(** [next(arg for arg in command.call.args if isinstance(arg, SubplanValue)).planner] *)
Fixpoint find_subplan (l : list Arg) : option nat :=
  match l with
  | [] => None
  | SubplanValue q :: _ => Some q
  | _ :: r => find_subplan r
  end.

Section BuildLoop.
(** [subplanner._buildCommands(ps)] *)
Variable rec : nat -> PlannerState -> res (list bytes * PlannerState).

Definition build_subplan (command : Command) (ps : PlannerState)
  : res PlannerState :=
  match type command with
  | SUBPLAN =>
    match find_subplan (args (call command)) with
    | None => Err StopIteration
    | Some subplanner =>
      match rec subplanner ps with
      | Ok (subcommands, ps') =>
        if forallb fits_bytes32 subcommands then
          Ok {| returnSlotMap := returnSlotMap ps';
                literalSlotMap := literalSlotMap ps';
                freeSlots := freeSlots ps' ++ [len (state ps')];
                stateExpirations := stateExpirations ps';
                ps_commandVisibility := ps_commandVisibility ps';
                state := state ps' ++ [skipn 32 (encode_bytes32_array subcommands)] |}
        else Err ValueOutOfBounds
      | Err e => Err e
      | OutOfFuel => OutOfFuel
      end
    end
  | _ => Ok ps
  end.

Fixpoint buildCommands_loop (l : list Command) (encodedCommands : list bytes)
    (ps : PlannerState) : res (list bytes * PlannerState) :=
  match l with
  | [] => Ok (encodedCommands, ps)
  | command :: rest =>
    match build_subplan command ps with
    | Ok ps1 =>
      match buildCommand command ps1 with
      | Ok (words, ps2) => buildCommands_loop rest (encodedCommands ++ words) ps2
      | other => other
      end
    | Err e => Err e
    | OutOfFuel => OutOfFuel
    end
  end.
End BuildLoop.

Fixpoint buildCommands (fuel : nat) (h : Heap) (self : nat) (ps : PlannerState)
  : res (list bytes * PlannerState) :=
  match fuel with
  | O => OutOfFuel
  | S fuel' => buildCommands_loop (buildCommands fuel' h) (commands h self) [] ps
  end.
End Encoder.

(** ** [plan] *)

(** The default arguments [seen] and [planners] of [_preplan]: two sets made
    once and handed to every call that does not pass its own, which is what
    [plan] does. *)
Record Globals := {
  default_seen : list CommandKey;
  default_planners : list nat
}.

Definition fresh_globals : Globals :=
  {| default_seen := []; default_planners := [] |}.

(** One turn of the loop of [plan] over [literalVisibility.items()], on
    [(state, literalSlotMap, stateExpirations)]. *)
Definition prepopulate_step
    (acc : list bytes * list (bytes * Z) * list (CommandKey * list Z))
    (item : bytes * CommandKey) :=
  let '(st, lsm, exps) := acc in
  let '(literal, lastCommand) := item in
  let slot := len st in
  (st ++ [literal], dict_set bytes_eqb lsm literal slot,
   expirations_append exps lastCommand slot).

Definition prepopulate (lv : list (bytes * CommandKey))
  : list bytes * list (bytes * Z) * list (CommandKey * list Z) :=
  fold_left prepopulate_step lv ([], [], []).

Section Plan.
Variable isDynamicType : string -> bool.
Variable encode_bytes32_array : list bytes -> bytes.

(** Both recursions get as much fuel as there are planner objects, plus
    one: [plan_terminates] shows that they never use it up. *)
Definition plan (h : Heap) (self : nat) (g : Globals)
  : res (list bytes * list bytes) * Globals :=
  let '(r, st) :=
    preplan (S (List.length h)) h self
      {| commandVisibility := []; literalVisibility := [];
         seen := default_seen g; planners := default_planners g |} in
  let g' := {| default_seen := seen st; default_planners := planners st |} in
  match r with
  | Ok _ =>
    let '(st0, lsm, exps) := prepopulate (literalVisibility st) in
    let ps :=
      {| returnSlotMap := []; literalSlotMap := lsm; freeSlots := [];
         stateExpirations := exps;
         ps_commandVisibility := commandVisibility st;
         state := st0 |} in
    match buildCommands isDynamicType encode_bytes32_array
            (S (List.length h)) h self ps with
    | Ok (encodedCommands, ps') => (Ok (encodedCommands, state ps'), g')
    | Err e => (Err e, g')
    | OutOfFuel => (OutOfFuel, g')
    end
  | Err e => (Err e, g')
  | OutOfFuel => (OutOfFuel, g')
  end.
End Plan.

(** ** Building a planner: [add] and [addSubplan] *)

(** [self.commands.append(command)] on the planner object [self]. *)
Fixpoint heap_append (h : Heap) (self : nat) (c : Command) : Heap :=
  match h, self with
  | [], _ => []
  | p :: r, O => (p ++ [c]) :: r
  | p :: r, S n => p :: heap_append r n c
  end.

Definition add (h : Heap) (self : nat) (call : FunctionCall)
  : res (option Arg) * Heap :=
  let command := {| call := call; type := CALL |} in
  let h' := heap_append h self command in
  if existsb isSubplanValue (args call) then (Err OnlySubplansTakeSubplanValue, h')
  else if negb (Z.land (flags call) TUPLE_RETURN =? 0)%Z then
    (Ok (Some (ReturnValue "bytes" (key command))), h')
  else
    match outputs (fragment call) with
    | [o] => (Ok (Some (ReturnValue o (key command))), h')
    | _ => (Ok None, h')
    end.

(** The loop of [addSubplan] over the arguments, with its two flags. *)
Fixpoint addSubplan_scan (l : list Arg) (hasSubplan hasState : bool)
  : res (bool * bool) :=
  match l with
  | [] => Ok (hasSubplan, hasState)
  | SubplanValue _ :: r =>
    if hasSubplan then Err OnePlannerArgument else addSubplan_scan r true hasState
  | StateValue :: r =>
    if hasState then Err OneStateArgument else addSubplan_scan r hasSubplan true
  | _ :: r => addSubplan_scan r hasSubplan hasState
  end.

Definition addSubplan (h : Heap) (self : nat) (call : FunctionCall)
  : res unit * Heap :=
  match addSubplan_scan (args call) false false with
  | Ok (hasSubplan, hasState) =>
    if negb hasSubplan || negb hasState then (Err MustTakePlannerAndState, h)
    else
      match outputs (fragment call) with
      | [o] =>
        if String.eqb o "bytes[]" then
          (Ok tt, heap_append h self {| call := call; type := SUBPLAN |})
        else (Err MustReturnBytesArray, h)
      | _ => (Ok tt, heap_append h self {| call := call; type := SUBPLAN |})
      end
  | Err e => (Err e, h)
  | OutOfFuel => (OutOfFuel, h)
  end.

(** ** Making calls: the modifiers of [FunctionCall], [replaceState],
    [simple_type_strings], [simple_args], [encodeArg], [encode_args] and
    [buildCall] *)

(** What these functions raise. *)
Inductive CallError :=
| OnlyCallSendsValue             (* ValueError: Only CALL operations can send value *)
| OnlyCallMadeStatic             (* ValueError: Only CALL operations can be made static *)
| ReplacingMustReturnBytesArray  (* ValueError: Function replacing state must return a bytes[] *)
| ArgumentCount                  (* ValueError: Function .. has n arguments but m provided *)
| CannotPassValue                (* ValueError: Cannot pass value of type .. to input of type .. *)
| AssertionError                 (* a failed assert *)
| IndexError                     (* a list index out of range *)
| TypeError                      (* iteration over an object that is not iterable *)
| EncodingError.                 (* raised by the ABI library on a value it cannot encode *)

Inductive built (A : Type) :=
| Built (a : A)
| Raised (e : CallError).
Arguments Built {A} a.
Arguments Raised {A} e.

(** [self.flags & CommandFlags.CALLTYPE_MASK] *)
Definition calltype (c : FunctionCall) : Z := Z.land (flags c) CALLTYPE_MASK.

(** [(self.flags & ~CommandFlags.CALLTYPE_MASK) | t] *)
Definition with_calltype (c : FunctionCall) (t : Z) : Z :=
  Z.lor (Z.land (flags c) (Z.lnot CALLTYPE_MASK)) t.

(** [rawValue]; the new [FunctionCall] object is [new_id]. *)
Definition rawValue (self : FunctionCall) (new_id : nat) : FunctionCall :=
  {| call_id := new_id; address := address self;
     flags := Z.lor (flags self) TUPLE_RETURN;
     fragment := fragment self; args := args self; callvalue := callvalue self |}.

Definition staticcall (self : FunctionCall) (new_id : nat) : built FunctionCall :=
  if negb (calltype self =? FLAG_CALL)%Z then Raised OnlyCallMadeStatic
  else Built {| call_id := new_id; address := address self;
                flags := with_calltype self STATICCALL;
                fragment := fragment self; args := args self;
                callvalue := callvalue self |}.

(** [replaceState]: the test reads [outputs[0]] of a function without outputs. *)
Definition replaceState (h : Heap) (self : nat) (call : FunctionCall)
  : built unit * Heap :=
  match outputs (fragment call) with
  | [] => (Raised IndexError, h)
  | o :: r =>
    if negb (List.length (o :: r) =? 1)%nat || negb (String.eqb o "bytes[]") then
      (Raised ReplacingMustReturnBytesArray, h)
    else (Built tt, heap_append h self {| call := call; type := RAWCALL |})
  end.

(** *** Strings of types *)

(** [s.endswith(suffix)], [s.startswith(prefix)] and [s[1:-1]] *)
Definition endswith (s suffix : string) : bool :=
  (String.length suffix <=? String.length s)%nat
  && String.eqb (substring (String.length s - String.length suffix)
                           (String.length suffix) s) suffix.

Definition startswith (s p : string) : bool := String.prefix p s.

Definition strip_ends (s : string) : string := substring 1 (String.length s - 2) s.

(** [s.split(",")] *)
Fixpoint split_comma (s : string) : list string :=
  match s with
  | EmptyString => [EmptyString]
  | String c r =>
    if Ascii.eqb c ","%char then EmptyString :: split_comma r
    else match split_comma r with
         | x :: xs => String c x :: xs
         | [] => [String c EmptyString]
         end
  end.

(** The character classes [[a-z0-9]] and [[0-9]]. *)
Definition is_digit (c : Ascii.ascii) : bool :=
  (48 <=? Ascii.nat_of_ascii c)%nat && (Ascii.nat_of_ascii c <=? 57)%nat.

Definition is_lower_or_digit (c : Ascii.ascii) : bool :=
  ((97 <=? Ascii.nat_of_ascii c)%nat && (Ascii.nat_of_ascii c <=? 122)%nat)
  || is_digit c.

(** The longest prefix of characters of a class, and what follows it. *)
Fixpoint span (p : Ascii.ascii -> bool) (s : string) : string * string :=
  match s with
  | EmptyString => (EmptyString, EmptyString)
  | String c r =>
    if p c then let '(a, b) := span p r in (String c a, b) else (EmptyString, s)
  end.

(** [re.match(r"([a-z0-9]+)\[([0-9]+)\]", i)]: the two groups of a match at
    the start of [i].  Neither class holds the bracket that follows it, so a
    match takes the longest run of each. *)
Definition match_fixed_array (i : string) : option (string * string) :=
  let '(base, r1) := span is_lower_or_digit i in
  match base, r1 with
  | String _ _, String "["%char r2 =>
    let '(digits, r3) := span is_digit r2 in
    match digits, r3 with
    | String _ _, String "]"%char _ => Some (base, digits)
    | _, _ => None
    end
  | _, _ => None
  end.

(** [int(digits)] *)
Fixpoint int_of_digits (s : string) (acc : nat) : nat :=
  match s with
  | EmptyString => acc
  | String c r => int_of_digits r (10 * acc + (Ascii.nat_of_ascii c - 48))
  end.

Section MakeCall.
Variable isDynamicType : string -> bool.
(** Python values that are neither weiroll values nor planners. *)
Variable Raw : Type.
(** [eth_abi_encode_single(param, arg)], [None] when the library raises. *)
Variable eth_abi_encode_single : string -> Raw -> option bytes.

(** What is passed to a function of a [WeirollContract]. *)
Inductive PyArg :=
| PyValue (a : Arg)
| PyPlanner (planner : nat)
| PyRaw (v : Raw).

(** The elements of an argument that can be iterated over. *)
Variable py_iter : PyArg -> option (list PyArg).

Definition withValue (self : FunctionCall) (new_id : nat) (value : Raw)
  : built FunctionCall :=
  if negb (calltype self =? FLAG_CALL)%Z && negb (calltype self =? CALL_WITH_VALUE)%Z
  then Raised OnlyCallSendsValue
  else
    match eth_abi_encode_single "uint" value with
    | None => Raised EncodingError
    | Some v =>
      Built {| call_id := new_id; address := address self;
               flags := with_calltype self CALL_WITH_VALUE;
               fragment := fragment self; args := args self;
               callvalue := Some ("uint"%string, v) |}
    end.

(** One turn of the loop of [simple_type_strings]: what an input adds to
    [simple_inputs], and its size. *)
Definition simple_type_step (i : string) : built (list string * nat) :=
  if endswith i "]" && negb (endswith i "[]") then
    match match_fixed_array i with
    | None => Raised AssertionError
    | Some (base, digits) =>
      let size := int_of_digits digits 0 in Built (repeat base size, size)
    end
  else if startswith i "(" && endswith i ")" && negb (isDynamicType i) then
    let types := split_comma (strip_ends i) in Built (types, List.length types)
  else Built ([i], 1).

Fixpoint simple_type_loop (inputs : list string)
    (simple_inputs : list string) (simple_sizes : list nat)
  : built (list string * list nat) :=
  match inputs with
  | [] => Built (simple_inputs, simple_sizes)
  | i :: r =>
    match simple_type_step i with
    | Built (types, size) =>
      simple_type_loop r (simple_inputs ++ types) (simple_sizes ++ [size])
    | Raised e => Raised e
    end
  end.

Definition simple_type_strings (inputs : list string)
  : built (option (list string) * option (list nat)) :=
  match inputs with
  | [] => Built (None, None)
  | _ :: _ =>
    match simple_type_loop inputs [] [] with
    | Built (simple_inputs, simple_sizes) =>
      if forallb (Nat.eqb 1) simple_sizes then Built (Some simple_inputs, None)
      else Built (Some simple_inputs, Some simple_sizes)
    | Raised e => Raised e
    end
  end.

(** A [FunctionFragment] object with the two attributes that [__init__]
    computes from its inputs. *)
Record Fragment := {
  abi : FunctionFragment;
  simple_inputs : option (list string);
  simple_sizes : option (list nat)
}.

Definition FunctionFragment_init (f : FunctionFragment) : built Fragment :=
  match simple_type_strings (inputs f) with
  | Built (si, ss) => Built {| abi := f; simple_inputs := si; simple_sizes := ss |}
  | Raised e => Raised e
  end.

Fixpoint simple_args_loop (sizes : list nat) (i : nat) (args : list PyArg)
    (simplified : list PyArg) : built (list PyArg) :=
  match sizes with
  | [] => Built simplified
  | size :: r =>
    match nth_error args i with
    | None => Raised IndexError
    | Some a =>
      if (size =? 1)%nat then simple_args_loop r (S i) args (simplified ++ [a])
      else
        match py_iter a with
        | Some elements => simple_args_loop r (S i) args (simplified ++ elements)
        | None => Raised TypeError
        end
    end
  end.

Definition simple_args (sizes : option (list nat)) (args : list PyArg)
  : built (list PyArg) :=
  match sizes with
  | None | Some [] => Built args
  | Some sizes => simple_args_loop sizes 0 args []
  end.

Definition encodeArg (arg : PyArg) (param : string) : built Arg :=
  match arg with
  | PyValue a =>
    if negb (String.eqb (arg_param a) param) then Raised CannotPassValue else Built a
  | PyPlanner p => Built (SubplanValue p)
  | PyRaw v =>
    match eth_abi_encode_single param v with
    | Some b => Built (LiteralValue param b)
    | None => Raised EncodingError
    end
  end.

(** [[encodeArg(arg, self.simple_inputs[i]) for (i, arg) in enumerate(args)]] *)
Fixpoint encode_each (params : list string) (i : nat) (args : list PyArg)
  : built (list Arg) :=
  match args with
  | [] => Built []
  | arg :: rest =>
    match nth_error params i with
    | None => Raised IndexError
    | Some param =>
      match encodeArg arg param with
      | Built a =>
        match encode_each params (S i) rest with
        | Built l => Built (a :: l)
        | Raised e => Raised e
        end
      | Raised e => Raised e
      end
    end
  end.

Definition encode_args (self : Fragment) (args : list PyArg) : built (list Arg) :=
  if negb (List.length args =? List.length (inputs (abi self)))%nat
  then Raised ArgumentCount
  else
    match simple_args (simple_sizes self) args with
    | Built args' =>
      match simple_inputs self with
      | None => Raised AssertionError
      | Some params => encode_each params 0 args'
      end
    | Raised e => Raised e
    end.

(** A [WeirollContract]: the address of its contract and the flags its calls
    start with. *)
Record WeirollContract := { contract_address : bytes; commandFlags : Z }.

(** The function [_call] of [buildCall(contract, fragment)]; the new [FunctionCall] object is
    [new_id]. *)
Definition buildCall (contract : WeirollContract) (f : Fragment) (new_id : nat)
    (args : list PyArg) : built FunctionCall :=
  if negb (List.length args =? List.length (inputs (abi f)))%nat
  then Raised ArgumentCount
  else
    match encode_args f args with
    | Built encodedArgs =>
      Built {| call_id := new_id; address := contract_address contract;
               flags := commandFlags contract; fragment := abi f;
               args := encodedArgs; callvalue := None |}
    | Raised e => Raised e
    end.
End MakeCall.

Arguments PyValue {Raw} a.
Arguments PyPlanner {Raw} planner.
Arguments PyRaw {Raw} v.

(** * The vocabulary of the properties *)

(** How many [SubplanValue] and [StateValue] arguments a call has. *)
Definition count_subplan (l : list Arg) : nat := List.length (filter isSubplanValue l).

Definition count_state (l : list Arg) : nat := List.length (filter isStateValue l).

Definition is_err {A} (r : res A) : bool :=
  match r with Err _ => true | _ => false end.

Definition is_ok {A} (r : res A) : bool :=
  match r with Ok _ => true | _ => false end.

Definition subplan_command (call : FunctionCall) : Command :=
  {| call := call; type := SUBPLAN |}.

(** A value that [HexBytes] writes as one byte. *)
Definition is_byte (n : Z) : Prop := (0 <= n < 256)%Z.

(** The three words of the instruction format. *)
Definition standard_word (command : Command) (flags' : Z) (cargs : list Z) (ret : Z) : bytes :=
  signature (fragment (call command)) ++ [flags'] ++ padArray cargs 6 0xFF%Z
    ++ [ret] ++ address (call command).

Definition header_word (command : Command) (flags' : Z) (ret : Z) : bytes :=
  signature (fragment (call command)) ++ [flags'] ++ repeat 0xFF%Z 6
    ++ [ret] ++ address (call command).

Definition continuation_word (cargs : list Z) : bytes := padArray cargs 32 0xFF%Z.

(** The walk state with one component replaced; [plan_start]: the state
    [plan] starts the walk in; [enter]: [planners.add(self)]. *)
Definition set_commandVisibility (cv : list (CommandKey * CommandKey)) (st : PreState) :=
  {| commandVisibility := cv; literalVisibility := literalVisibility st;
     seen := seen st; planners := planners st |}.

Definition set_literalVisibility (lv : list (bytes * CommandKey)) (st : PreState) :=
  {| commandVisibility := commandVisibility st; literalVisibility := lv;
     seen := seen st; planners := planners st |}.

Definition plan_start (g : Globals) : PreState :=
  {| commandVisibility := []; literalVisibility := [];
     seen := default_seen g; planners := default_planners g |}.

(** The planner objects of the heap that the walk has not entered yet. *)
Definition unvisited (h : Heap) (ps : list nat) : nat :=
  List.length (filter (fun i => negb (set_mem Nat.eqb i ps)) (seq 0 (List.length h))).

(** [contains h p q]: some command of planner [p] has planner [q] as a
    [SubplanValue] argument. *)
Definition contains (h : Heap) (p q : nat) : Prop :=
  exists c, In c (commands h p) /\ In (SubplanValue q) (args (call c)).

(** [reaches h p q]: [p] contains [q], directly or through other planners. *)
Inductive reaches (h : Heap) : nat -> nat -> Prop :=
| reaches_one p q : contains h p q -> reaches h p q
| reaches_more p q r : contains h p q -> reaches h q r -> reaches h p r.

(** The three errors an argument list can raise by itself. *)
Definition raises_in_command (c : Command) (e : Error) : Prop :=
  (e = ReturnNotVisible /\ exists p k, In (ReturnValue p k) (args (call c))) \/
  (e = UnknownArgumentType /\ exists p, In (Value p) (args (call c))) \/
  (e = CallWithValueNeedsValue /\ callvalue (call c) = None).

Definition enter (self : nat) (st : PreState) : PreState :=
  {| commandVisibility := commandVisibility st;
     literalVisibility := literalVisibility st;
     seen := seen st; planners := self :: planners st |}.

(** [walked_under h p q]: the walk of planner [p] comes to planner [q]. *)
Inductive walked_under (h : Heap) : nat -> nat -> Prop :=
| walked_here p : walked_under h p p
| walked_below p q r : contains h p q -> walked_under h q r -> walked_under h p r.

(** Every literal slot map entry points at its literal in the state. *)
Definition slots_sound (st : list bytes) (lsm : list (bytes * Z)) : Prop :=
  (forall b s, dict_get bytes_eqb lsm b = Some s ->
     (0 <= s)%Z /\ nth_error st (Z.to_nat s) = Some b) /\
  (forall b, In b st -> dict_get bytes_eqb lsm b <> None).

(** The entries the encoder appends to the state: the empty placeholder of a
    return value, or, for a SUBPLAN command, a serialized subplan.
    [subplans]: the planners at hand hold some SUBPLAN command. *)
Definition appended_entry (encode_bytes32_array : list bytes -> bytes) (subplans : Prop)
    (e : bytes) : Prop :=
  e = [] \/ (subplans /\ exists words, e = skipn 32 (encode_bytes32_array words)).

(** The encoder does not touch the literal slots or the visibility map, and
    only appends to the state. *)
Definition extends (encode_bytes32_array : list bytes -> bytes) (subplans : Prop)
    (ps ps' : PlannerState) : Prop :=
  literalSlotMap ps' = literalSlotMap ps /\
  ps_commandVisibility ps' = ps_commandVisibility ps /\
  exists extra, state ps' = state ps ++ extra /\
                Forall (appended_entry encode_bytes32_array subplans) extra.

(** The literal slot map that [plan] builds and hands to the encoder. *)
Definition plan_literalSlotMap (h : Heap) (self : nat) (g : Globals) : list (bytes * Z) :=
  snd (fst (prepopulate
              (literalVisibility (snd (preplan (S (List.length h)) h self (plan_start g)))))).

Definition bytes_eq_dec : forall a b : bytes, {a = b} + {a <> b} := list_eq_dec Z.eq_dec.

(** Some planner of the heap holds a SUBPLAN command. *)
Definition has_subplans (h : Heap) : Prop :=
  exists p c, In c (commands h p) /\ type c = SUBPLAN.

(** [emits h p q]: the encoder, at a SUBPLAN command of planner [p], encodes
    planner [q]. *)
Definition emits (h : Heap) (p q : nat) : Prop :=
  exists c, In c (commands h p) /\ type c = SUBPLAN /\
            find_subplan (args (call c)) = Some q.

Inductive encoded_under (h : Heap) : nat -> nat -> Prop :=
| encoded_here p : encoded_under h p p
| encoded_below p q r : emits h p q -> encoded_under h q r -> encoded_under h p r.

(** A command on which the loop of the encoder cannot succeed, under the
    visibility map [cv]: its subplan is not encoded, or its own encoding
    fails. *)
Definition fails_at (isDynamicType : string -> bool)
    (encode_bytes32_array : list bytes -> bytes)
    (cv : list (CommandKey * CommandKey))
    (rec : nat -> PlannerState -> res (list bytes * PlannerState))
    (c : Command) : Prop :=
  forall ps ps1 w ps2,
    ps_commandVisibility ps = cv ->
    build_subplan encode_bytes32_array rec c ps = Ok ps1 ->
    buildCommand isDynamicType c ps1 = Ok (w, ps2) -> False.

(** The errors of the walk. *)
Definition walk_error (e : Error) : Prop :=
  e = PlannerContainsItself \/ e = ReturnNotVisible \/
  e = UnknownArgumentType \/ e = CallWithValueNeedsValue.

(** The command [k] can be referred to at the state [st] of the walk. *)
Definition visible (k : CommandKey) (st : PreState) : bool :=
  set_mem key_eqb k (seen st).

(** Arguments whose walk neither fails nor changes what is visible. *)
Definition plain (a : Arg) : bool :=
  match a with LiteralValue _ _ | StateValue => true | _ => false end.

(** The command is encoded in the extended form: it has more than six
    arguments, or its call carries the EXTENDED_COMMAND flag already. *)
Definition is_extended (c : Command) : bool :=
  match inargs c with
  | Ok l => (6 <? List.length l)%nat
            || (Z.land (flags (call c)) EXTENDED_COMMAND =? EXTENDED_COMMAND)%Z
  | _ => false
  end.

(** The encoded bytes of the literal arguments of a list, in order. *)
Fixpoint literal_bytes (l : list Arg) : list bytes :=
  match l with
  | [] => []
  | LiteralValue _ v :: r => v :: literal_bytes r
  | _ :: r => literal_bytes r
  end.

(** A list without its repetitions: every element where it first occurs. *)
Fixpoint first_occurrences_from (acc l : list bytes) : list bytes :=
  match l with
  | [] => acc
  | b :: r =>
    first_occurrences_from (if existsb (bytes_eqb b) acc then acc else acc ++ [b]) r
  end.

Definition first_occurrences (l : list bytes) : list bytes :=
  first_occurrences_from [] l.

(** Subplan arguments stand where [addSubplan] puts them: one in a SUBPLAN
    command, none in a command of another type. *)
Definition subplans_in_place (c : Command) : Prop :=
  count_subplan (args (call c)) = match type c with SUBPLAN => 1 | _ => 0 end.

(** The encoder state [ps] has a return slot for every command that is
    visible at the state [st] of the walk and has a consumer in [cv]. *)
Definition resolves (cv : list (CommandKey * CommandKey)) (lsm : list (bytes * Z))
    (st : PreState) (ps : PlannerState) : Prop :=
  ps_commandVisibility ps = cv /\ literalSlotMap ps = lsm /\
  forall k, In k (seen st) -> dict_get key_eqb cv k <> None ->
            dict_get key_eqb (returnSlotMap ps) k <> None.

(** The maps [cv] and [lsm] hold what the command passes. *)
Definition recorded (cv : list (CommandKey * CommandKey)) (lsm : list (bytes * Z))
    (c : Command) : Prop :=
  (forall p k, In (ReturnValue p k) (args (call c)) -> dict_get key_eqb cv k <> None) /\
  (forall l p b, inargs c = Ok l -> In (LiteralValue p b) l ->
                 dict_get bytes_eqb lsm b <> None).

(** [recorded] for every command the walk of planner [q] comes to. *)
Definition recorded_under (h : Heap) (cv : list (CommandKey * CommandKey))
    (lsm : list (bytes * Z)) (q : nat) : Prop :=
  forall r, walked_under h q r -> forall c, In c (commands h r) -> recorded cv lsm c.

(** An outcome other than a failed lookup: a result with the property [P],
    or an error that is neither a [KeyError] nor a [StopIteration]. *)
Definition no_lookup_error {A} (P : A -> Prop) (r : res A) : Prop :=
  match r with
  | Ok a => P a
  | Err e => e <> KeyError /\ e <> StopIteration
  | OutOfFuel => True
  end.

(** [s] is the index of one of [n] state entries, with or without the mark
    0x80 of a dynamic type. *)
Definition slot_in (n s : Z) : Prop :=
  exists slot, (0 <= slot < n)%Z /\ (s = slot \/ s = Z.lor slot 0x80).

(** An argument slot: the whole state (0xFE) or a state entry; a return
    slot: none (0xFF), the whole state, or a state entry. *)
Definition arg_slot_ok (n s : Z) : Prop := s = 0xFE%Z \/ slot_in n s.

Definition ret_slot_ok (n s : Z) : Prop := s = 0xFF%Z \/ s = 0xFE%Z \/ slot_in n s.

(** [words] encode the command [c] with slots that point into a state of
    [n] entries. *)
Definition slots_in_state (n : Z) (c : Command) (words : list bytes) : Prop :=
  exists flags' cargs ret,
    encode_command c flags' cargs ret = Ok words /\
    Forall (arg_slot_ok n) cargs /\ ret_slot_ok n ret.

(** Every slot the encoder keeps track of is the index of a state entry. *)
Definition slots_allocated (ps : PlannerState) : Prop :=
  (forall k s, dict_get key_eqb (returnSlotMap ps) k = Some s ->
     (0 <= s < len (state ps))%Z) /\
  (forall b s, dict_get bytes_eqb (literalSlotMap ps) b = Some s ->
     (0 <= s < len (state ps))%Z) /\
  (forall s, In s (freeSlots ps) -> (0 <= s < len (state ps))%Z) /\
  (forall k s, In s (expirations (stateExpirations ps) k) ->
     (0 <= s < len (state ps))%Z).

(** The planner state once the slots that expire at a command are free, and
    the flags a command with [n] argument slots is written with. *)
Definition with_expired (command : Command) (ps : PlannerState) : PlannerState :=
  {| returnSlotMap := returnSlotMap ps;
     literalSlotMap := literalSlotMap ps;
     freeSlots := freeSlots ps ++ expirations (stateExpirations ps) (key command);
     stateExpirations := stateExpirations ps;
     ps_commandVisibility := ps_commandVisibility ps;
     state := state ps |}.

Definition written_flags (command : Command) (n : nat) : Z :=
  if (6 <? n)%nat then Z.lor (flags (call command)) EXTENDED_COMMAND
  else flags (call command).

(** [at_command h fuel q st c s]: the walk of planner [q], begun in the
    state [st] with [fuel] levels of subplans below it, enters [q] and walks
    the commands before [c] without an error; it comes to [c] in the state
    [s]. *)
Definition at_command (h : Heap) (fuel q : nat) (st : PreState) (c : Command)
    (s : PreState) : Prop :=
  set_mem Nat.eqb q (planners st) = false /\
  exists l1 l2,
    commands h q = l1 ++ c :: l2 /\
    preplan_commands (preplan fuel h) l1 (enter q st) = (Ok tt, s).

(** [at_argument h fuel q st c a s]: it comes to [c], reads its arguments
    and walks those before [a] without an error; it comes to [a] in the
    state [s]. *)
Definition at_argument (h : Heap) (fuel q : nat) (st : PreState) (c : Command)
    (a : Arg) (s : PreState) : Prop :=
  exists s1 pre post,
    at_command h fuel q st c s1 /\
    inargs c = Ok (pre ++ a :: post) /\
    preplan_args (preplan fuel h) c pre s1 = (Ok tt, s).

(** [walk_raises h fuel q st e]: the walk of planner [q], begun in the state
    [st], raises [e].  It raises the cycle error when [q] is entered
    already; the error of a value call without value at the first such
    command it comes to; the error of a return value that is not visible, or
    of an argument of unknown type, at the first such argument it comes to;
    and what the walk of a subplan raises, at the first subplan argument
    whose walk fails. *)
Inductive walk_raises (h : Heap) : nat -> nat -> PreState -> Error -> Prop :=
| raises_cycle fuel q st :
    set_mem Nat.eqb q (planners st) = true ->
    walk_raises h (S fuel) q st PlannerContainsItself
| raises_no_value fuel q st c s :
    at_command h fuel q st c s ->
    inargs c = Err CallWithValueNeedsValue ->
    walk_raises h (S fuel) q st CallWithValueNeedsValue
| raises_not_visible fuel q st c p k s :
    at_argument h fuel q st c (ReturnValue p k) s ->
    visible k s = false ->
    walk_raises h (S fuel) q st ReturnNotVisible
| raises_unknown fuel q st c p s :
    at_argument h fuel q st c (Value p) s ->
    walk_raises h (S fuel) q st UnknownArgumentType
| raises_below fuel q st c q' s e :
    at_argument h fuel q st c (SubplanValue q') s ->
    walk_raises h fuel q' s e ->
    walk_raises h (S fuel) q st e.

(** The state [plan] starts the encoder in, after the walk has ended in the
    state [st]: the literals in the state, no slot taken for a return
    value. *)
Definition encoder_start (st : PreState) : PlannerState :=
  let '(st0, lsm, exps) := prepopulate (literalVisibility st) in
  {| returnSlotMap := []; literalSlotMap := lsm; freeSlots := [];
     stateExpirations := exps;
     ps_commandVisibility := commandVisibility st;
     state := st0 |}.

(** [encoder_at isDynamicType encode_bytes32_array h fuel q ps c ps1]: the
    encoder of planner [q], begun in the state [ps] with [fuel] levels of
    subplans below it, encodes without an error all that precedes the
    command [c], of [q] or of a planner below [q] whose SUBPLAN command it
    has come to, and builds the subplan of [c] if [c] has one; it comes to
    the arguments of [c] in the state [ps1]. *)
Inductive encoder_at (isDynamicType : string -> bool)
    (encode_bytes32_array : list bytes -> bytes) (h : Heap)
  : nat -> nat -> PlannerState -> Command -> PlannerState -> Prop :=
| encoder_at_here fuel q ps l1 c l2 out ps1 ps2 :
    commands h q = l1 ++ c :: l2 ->
    buildCommands_loop isDynamicType encode_bytes32_array
      (buildCommands isDynamicType encode_bytes32_array fuel h) l1 [] ps
    = Ok (out, ps1) ->
    build_subplan encode_bytes32_array
      (buildCommands isDynamicType encode_bytes32_array fuel h) c ps1 = Ok ps2 ->
    encoder_at isDynamicType encode_bytes32_array h (S fuel) q ps c ps2
| encoder_at_below fuel q ps l1 s l2 out ps1 q' c ps2 :
    commands h q = l1 ++ s :: l2 ->
    buildCommands_loop isDynamicType encode_bytes32_array
      (buildCommands isDynamicType encode_bytes32_array fuel h) l1 [] ps
    = Ok (out, ps1) ->
    type s = SUBPLAN ->
    find_subplan (args (call s)) = Some q' ->
    encoder_at isDynamicType encode_bytes32_array h fuel q' ps1 c ps2 ->
    encoder_at isDynamicType encode_bytes32_array h (S fuel) q ps c ps2.

(** The slot byte of an argument: its slot, with the mark 0x80 when the type
    of the argument is dynamic. *)
Definition marked (isDynamicType : string -> bool) (a : Arg) (slot : Z) : Z :=
  if isDynamicType (arg_param a) then Z.lor slot 0x80 else slot.

(** The arguments a command passes: those of the call, after the call value
    when the call is a call with value. *)
Definition resolved_arguments (c : Command) : list Arg :=
  if (Z.land (flags (call c)) CALLTYPE_MASK =? CALL_WITH_VALUE)%Z then
    match callvalue (call c) with
    | Some (p, v) => LiteralValue p v :: args (call c)
    | None => args (call c)
    end
  else args (call c).

(** [s] is the slot byte of the argument [a], for the literal slots [lsm]
    and a state of [n] entries: the slot of a literal is the one [lsm] has
    for its bytes, the slot of a return value is the index of a state
    entry, the state itself has the slot 0xFE, and the slot of a subplan is
    the last entry of the state. *)
Definition arg_slot (isDynamicType : string -> bool) (lsm : list (bytes * Z)) (n : Z)
    (a : Arg) (s : Z) : Prop :=
  exists slot,
    s = marked isDynamicType a slot /\
    match a with
    | LiteralValue _ b => dict_get bytes_eqb lsm b = Some slot /\ (0 <= slot < n)%Z
    | ReturnValue _ _ => (0 <= slot < n)%Z
    | StateValue => slot = 0xFE%Z
    | SubplanValue _ => slot = (n - 1)%Z
    | Value _ => False
    end.

(** [emitted .. h self g c ps words ps']: in the run of [plan] on the planner
    [self], the walk accepts the planners, the encoder comes to the command
    [c] in the state [ps], and encodes it to [words], which leaves it in the
    state [ps']. *)
Definition emitted (isDynamicType : string -> bool)
    (encode_bytes32_array : list bytes -> bytes) (h : Heap) (self : nat) (g : Globals)
    (c : Command) (ps : PlannerState) (words : list bytes) (ps' : PlannerState) : Prop :=
  fst (preplan (S (List.length h)) h self (plan_start g)) = Ok tt /\
  encoder_at isDynamicType encode_bytes32_array h (S (List.length h)) self
    (encoder_start (snd (preplan (S (List.length h)) h self (plan_start g)))) c ps /\
  buildCommand isDynamicType c ps = Ok (words, ps').

(** [comes_to h fuel l s c a s']: the walk of the command list [l], begun
    in the state [s] with [fuel] levels of subplans below it, comes without
    an error to the argument [a] of the command [c], in the state [s']; [c]
    is a command of [l], or of a planner that is the subplan of a command of
    [l], or of a planner further below. *)
Inductive comes_to (h : Heap)
  : nat -> list Command -> PreState -> Command -> Arg -> PreState -> Prop :=
| comes_here fuel l1 c l2 pre a post s s1 s2 :
    preplan_commands (preplan fuel h) l1 s = (Ok tt, s1) ->
    inargs c = Ok (pre ++ a :: post) ->
    preplan_args (preplan fuel h) c pre s1 = (Ok tt, s2) ->
    comes_to h fuel (l1 ++ c :: l2) s c a s2
| comes_below fuel l1 c0 l2 pre q post s s1 s2 c a s3 :
    preplan_commands (preplan (S fuel) h) l1 s = (Ok tt, s1) ->
    inargs c0 = Ok (pre ++ SubplanValue q :: post) ->
    preplan_args (preplan (S fuel) h) c0 pre s1 = (Ok tt, s2) ->
    set_mem Nat.eqb q (planners s2) = false ->
    comes_to h fuel (commands h q) (enter q s2) c a s3 ->
    comes_to h (S fuel) (l1 ++ c0 :: l2) s c a s3.

(** The return value of the command [k], of the planner [q] or of a planner
    below, is hidden in the state [s] of the walk: it is not visible, and the
    planners from [q] down are entered, so that the walk enters none of them
    again. *)
Definition hidden (h : Heap) (q : nat) (k : CommandKey) (s : PreState) : Prop :=
  visible k s = false /\ forall r, walked_under h q r -> In r (planners s).

(** * Example programs *)

(** A function that takes a subplan and the state and returns two values. *)
Definition two_outputs : FunctionFragment :=
  {| name := "execute"; signature := [0xde; 0x79; 0x2d; 0x5f]%Z;
     inputs := ["bytes32[]"; "bytes[]"]%string;
     outputs := ["uint256"; "uint256"]%string |}.

Definition two_outputs_call : FunctionCall :=
  {| call_id := 7; address := repeat 0x11%Z 20; flags := DELEGATECALL;
     fragment := two_outputs; args := [SubplanValue 1; StateValue];
     callvalue := None |}.

(** Stand-ins for the two primitives of the ABI library, enough for the type
    strings of the examples: [string], [bytes] and [bytes[]] are dynamic;
    [eth_abi_encode_single] of a [bytes32[]] is a length word and the words
    themselves. *)
Definition sample_isDynamicType (param : string) : bool :=
  String.eqb param "string" || String.eqb param "bytes" || String.eqb param "bytes[]".

Definition sample_encode_bytes32_array (words : list bytes) : bytes :=
  repeat 0%Z 31 ++ [len words] ++ List.concat words.

(** The 32-byte encoding of a small [uint256]. *)
Definition uint256 (n : Z) : bytes := repeat 0%Z 31 ++ [n].

Definition math_address : bytes := repeat 0xAA%Z 20.

(** [add(uint256,uint256) returns (uint256)] of the Math library and
    [execute(bytes32[],bytes[]) returns (bytes[])] of the subplan contract. *)
Definition math_add : FunctionFragment :=
  {| name := "add"; signature := [0x77; 0x16; 0x02; 0xf7]%Z;
     inputs := ["uint256"; "uint256"]%string; outputs := ["uint256"%string] |}.

Definition execute : FunctionFragment :=
  {| name := "execute"; signature := [0xde; 0x79; 0x2d; 0x5f]%Z;
     inputs := ["bytes32[]"; "bytes[]"]%string; outputs := ["bytes[]"%string] |}.

(** A call made through [createLibrary]: a DELEGATECALL without value. *)
Definition library_call (id : nat) (f : FunctionFragment) (a : list Arg) : FunctionCall :=
  {| call_id := id; address := math_address; flags := DELEGATECALL;
     fragment := f; args := a; callvalue := None |}.

Definition lit (n : Z) : Arg := LiteralValue "uint256" (uint256 n).

(** [planner.addSubplan(subplanContract.execute(planner, planner.state))] *)
Definition self_containing : Heap :=
  [[ {| call := library_call 1 execute [SubplanValue 0; StateValue];
        type := SUBPLAN |} ]].

(** The same planner, with a call first that reads the return value of a
    command of another planner. *)
Definition self_containing_after_unbound : Heap :=
  [[ {| call := library_call 2 math_add [ReturnValue "uint256" (9, CALL); lit 3];
        type := CALL |};
     {| call := library_call 1 execute [SubplanValue 0; StateValue];
        type := SUBPLAN |} ]].

(** A function of seven [uint256] arguments, a call of it, and a planner
    state that holds its one literal. *)
Definition add7 : FunctionFragment :=
  {| name := "add7"; signature := [0x12; 0x34; 0x56; 0x78]%Z;
     inputs := repeat "uint256"%string 7; outputs := ["uint256"%string] |}.

Definition seven_args : Command :=
  {| call := library_call 5 add7 (repeat (lit 1) 7); type := CALL |}.

Definition one_literal_state : PlannerState :=
  {| returnSlotMap := []; literalSlotMap := [(uint256 1, 0%Z)]; freeSlots := [];
     stateExpirations := [((5, CALL), [0%Z])]; ps_commandVisibility := [];
     state := [uint256 1] |}.

(** [a = math.add(1, 1); s = planner.add(a); planner.add(a);
     r2 = planner.add(math.add(s, s)); r3 = planner.add(math.add(r2, r2));
     planner.add(math.add(r2, r3))]: the call object [a] is added twice, so
    that the planner holds two equal [Command]s. *)
Definition call_added_twice : Heap :=
  [[ {| call := library_call 1 math_add [lit 1; lit 1]; type := CALL |};
     {| call := library_call 1 math_add [lit 1; lit 1]; type := CALL |};
     {| call := library_call 2 math_add
                  [ReturnValue "uint256" (1, CALL); ReturnValue "uint256" (1, CALL)];
        type := CALL |};
     {| call := library_call 3 math_add
                  [ReturnValue "uint256" (2, CALL); ReturnValue "uint256" (2, CALL)];
        type := CALL |};
     {| call := library_call 4 math_add
                  [ReturnValue "uint256" (2, CALL); ReturnValue "uint256" (3, CALL)];
        type := CALL |} ]].

(** The same program with two call objects [math.add(1, 1)], one for each of
    the first two commands. *)
Definition two_calls_added : Heap :=
  [[ {| call := library_call 1 math_add [lit 1; lit 1]; type := CALL |};
     {| call := library_call 5 math_add [lit 1; lit 1]; type := CALL |};
     {| call := library_call 2 math_add
                  [ReturnValue "uint256" (1, CALL); ReturnValue "uint256" (1, CALL)];
        type := CALL |};
     {| call := library_call 3 math_add
                  [ReturnValue "uint256" (2, CALL); ReturnValue "uint256" (2, CALL)];
        type := CALL |};
     {| call := library_call 4 math_add
                  [ReturnValue "uint256" (2, CALL); ReturnValue "uint256" (3, CALL)];
        type := CALL |} ]].

Definition log_bytes32 : FunctionFragment :=
  {| name := "logBytes32"; signature := [0x2d; 0x21; 0xd6; 0xf7]%Z;
     inputs := ["bytes32"%string]; outputs := [] |}.

(** [planner.add(math.add(1, 2)); planner.add(events.logBytes32(one))], where
    the [bytes32] value [one] has the bytes of the [uint256] 1. *)
Definition same_bytes_two_types : Heap :=
  [[ {| call := library_call 1 math_add [lit 1; lit 2]; type := CALL |};
     {| call := library_call 2 log_bytes32 [LiteralValue "bytes32" (uint256 1)];
        type := CALL |} ]].

(** [useState(bytes[]) returns (bytes[])] *)
Definition use_state : FunctionFragment :=
  {| name := "useState"; signature := [0x08; 0xf3; 0x89; 0xc8]%Z;
     inputs := ["bytes[]"%string]; outputs := ["bytes[]"%string] |}.

Definition replace_state : Command :=
  {| call := library_call 1 use_state [StateValue]; type := RAWCALL |}.

(** [planner.replaceState(c.useState(planner.state))], then a call that is
    passed the return value of that command. *)
Definition consumed_replace_state : Heap :=
  [[ replace_state;
     {| call := library_call 2 use_state [ReturnValue "bytes[]" (key replace_state)];
        type := CALL |} ]].

(** The consumer first, the state-replacing command after it. *)
Definition consumed_before_replace_state : Heap :=
  [[ {| call := library_call 2 use_state [ReturnValue "bytes[]" (key replace_state)];
        type := CALL |};
     replace_state ]].

(** [execute(bytes32[], bytes[])] without return value: a read-only subplan. *)
Definition execute_readonly : FunctionFragment :=
  {| name := "execute"; signature := [0xde; 0x79; 0x2d; 0x5f]%Z;
     inputs := ["bytes32[]"; "bytes[]"]%string; outputs := [] |}.

Definition sum_producer : Command :=
  {| call := library_call 20 math_add [lit 1; lit 2]; type := CALL |}.

Definition sum_consumer (id : nat) : Command :=
  {| call := library_call id math_add [ReturnValue "uint256" (key sum_producer); lit 3];
     type := CALL |}.

Definition subplan_of (f : FunctionFragment) : Command :=
  {| call := library_call 10 f [SubplanValue 1; StateValue]; type := SUBPLAN |}.

(** [sum = subplanner.add(math.add(1, 2)); subplanner.add(math.add(sum, 3));
     planner.addSubplan(c.execute(subplanner, planner.state));
     planner.add(math.add(sum, 3))] *)
Definition subplan_then_use (f : FunctionFragment) : Heap :=
  [ [subplan_of f; sum_consumer 11];
    [sum_producer; sum_consumer 21] ].

(** The same without the last call of the parent planner. *)
Definition subplan_alone (f : FunctionFragment) : Heap :=
  [ [subplan_of f];
    [sum_producer; sum_consumer 21] ].

(** A function of 33 [uint256] arguments and a call of it, all arguments the
    literal 1. *)
Definition add33 : FunctionFragment :=
  {| name := "add33"; signature := [0x9a; 0xbc; 0xde; 0xf0]%Z;
     inputs := repeat "uint256"%string 33; outputs := ["uint256"%string] |}.

Definition thirty_three_args : Command :=
  {| call := library_call 6 add33 (repeat (lit 1) 33); type := CALL |}.

(** [math.add(3, 4).withValue(1)] on a contract called with CALL. *)
Definition value_call : Command :=
  {| call := {| call_id := 30; address := math_address; flags := CALL_WITH_VALUE;
                fragment := math_add; args := [lit 3; lit 4];
                callvalue := Some ("uint"%string, uint256 1) |};
     type := CALL |}.

(** A stand-in for [eth_abi_encode_single] on Python integers, enough for the
    examples: the small non-negative ones, as [uint] or [uint256]. *)
Definition sample_eth_abi_encode_single (param : string) (v : Z) : option bytes :=
  if (String.eqb param "uint" || String.eqb param "uint256")
     && (0 <=? v)%Z && (v <? 256)%Z
  then Some (uint256 v) else None.

(** Integers, weiroll values and planners cannot be iterated over. *)
Definition sample_py_iter (a : @PyArg Z) : option (list (@PyArg Z)) := None.

(** A contract made through [createContract], and a call of [add] on it. *)
Definition math_contract : WeirollContract :=
  {| contract_address := math_address; commandFlags := FLAG_CALL |}.

Definition contract_call (id : nat) (f : FunctionFragment) (a : list Arg) : FunctionCall :=
  {| call_id := id; address := math_address; flags := FLAG_CALL;
     fragment := f; args := a; callvalue := None |}.

(** The fragment of [add(uint256,uint256)], as [FunctionFragment.__init__]
    makes it. *)
Definition math_add_fragment : Fragment :=
  {| abi := math_add; simple_inputs := Some ["uint256"; "uint256"]%string;
     simple_sizes := None |}.

(** [getValue()], a function without inputs, and the fragment that
    [FunctionFragment.__init__] makes of it. *)
Definition get_value : FunctionFragment :=
  {| name := "getValue"; signature := [0x20; 0x96; 0x52; 0x55]%Z;
     inputs := []; outputs := ["uint256"%string] |}.

Definition get_value_fragment : Fragment :=
  {| abi := get_value; simple_inputs := None; simple_sizes := None |}.

(** What a successful [plan] has returned. *)
Definition planned (r : res (list bytes * list bytes)) : list bytes * list bytes :=
  match r with
  | Ok out => out
  | _ => ([], [])
  end.

(** An encoder state in which the command of the call object 2 has a
    consumer. *)
Definition consumed_call_state : PlannerState :=
  {| returnSlotMap := []; literalSlotMap := []; freeSlots := [];
     stateExpirations := []; ps_commandVisibility := [((2, CALL), (3, CALL))];
     state := [] |}.

(** Curve's [add_liquidity(uint256[3],uint256)] and its fragment. *)
Definition add_liquidity : FunctionFragment :=
  {| name := "add_liquidity"; signature := [0x45; 0x15; 0xce; 0xf3]%Z;
     inputs := ["uint256[3]"; "uint256"]%string; outputs := [] |}.

Definition add_liquidity_fragment : Fragment :=
  {| abi := add_liquidity; simple_inputs := Some (repeat "uint256"%string 4);
     simple_sizes := Some [3; 1] |}.

(** An encoder state in which the command of [replaceState] on the call
    object 1 has a consumer. *)
Definition consumed_replaceState_state : PlannerState :=
  {| returnSlotMap := []; literalSlotMap := []; freeSlots := [];
     stateExpirations := []; ps_commandVisibility := [((1, RAWCALL), (2, CALL))];
     state := [] |}.

(** [planner.add(math.add(1, 2)); planner.replaceState(c.useState(planner.state))],
    then a call that is passed the return value of the second command. *)
Definition consumed_replace_state_second : Heap :=
  [[ {| call := library_call 3 math_add [lit 1; lit 2]; type := CALL |};
     replace_state;
     {| call := library_call 2 use_state [ReturnValue "bytes[]" (key replace_state)];
        type := CALL |} ]].

(** The planner of one call with seven arguments. *)
Definition seven_args_planner : Heap := [[seven_args]].

(** [math.add(1, 2)] on a contract made with the flags
    [CommandFlags.CALL | CommandFlags.EXTENDED_COMMAND]. *)
Definition flagged_add : Command :=
  {| call := {| call_id := 40; address := math_address;
                flags := Z.lor FLAG_CALL EXTENDED_COMMAND;
                fragment := math_add; args := [lit 1; lit 2];
                callvalue := None |};
     type := CALL |}.

(** The 32-byte encoding of a [uint256] below 65536. *)
Definition uint256_wide (n : nat) : bytes :=
  repeat 0%Z 30 ++ [Z.of_nat (n / 256); Z.of_nat (n mod 256)].

(** A function of six [uint256] arguments; the call number [i] of it, on
    the six numbers from [6 * i]; and a planner of 43 such calls, which
    pass 258 literals. *)
Definition add6 : FunctionFragment :=
  {| name := "add6"; signature := [0x0a; 0x0b; 0x0c; 0x0d]%Z;
     inputs := repeat "uint256"%string 6; outputs := ["uint256"%string] |}.

Definition six_literals (i : nat) : Command :=
  {| call := library_call i add6
               (map (fun j => LiteralValue "uint256" (uint256_wide (6 * i + j))) (seq 0 6));
     type := CALL |}.

Definition many_literals : Heap := [map six_literals (seq 0 43)].

(** The word that the call of [sum_producer] is encoded to when its literals
    have the slots 0 and 1 and no command passes its return value. *)
Definition subplan_word : bytes := standard_word sum_producer DELEGATECALL [0; 1]%Z 0xFF%Z.

(** [subplanner.add(math.add(1, 2));
     planner.addSubplan(c.execute(subplanner, planner.state));
     planner.add(events.logBytes32(w)); planner.add(events.logBytes32(w))],
    where the [bytes32] value [w] has the bytes of [subplan_word]. *)
Definition literal_like_subplan : Heap :=
  [ [subplan_of execute;
     {| call := library_call 2 log_bytes32 [LiteralValue "bytes32" subplan_word];
        type := CALL |};
     {| call := library_call 3 log_bytes32 [LiteralValue "bytes32" subplan_word];
        type := CALL |}];
    [sum_producer] ].

(** The planner of one call with 33 arguments. *)
Definition thirty_three_args_planner : Heap := [[thirty_three_args]].

(** [sum = subplanner.add(math.add(1, 2));
     planner.addSubplan(c.execute(subplanner, planner.state));
     five = planner.add(math.add(2, 3)); planner.add(math.add(five, sum))]:
    the subplan, another command, and then the reference, after a return
    value that is visible. *)
Definition five_producer : Command :=
  {| call := library_call 12 math_add [lit 2; lit 3]; type := CALL |}.

Definition late_consumer : Command :=
  {| call := library_call 13 math_add
               [ReturnValue "uint256" (key five_producer);
                ReturnValue "uint256" (key sum_producer)];
     type := CALL |}.

Definition subplan_then_late_use (f : FunctionFragment) : Heap :=
  [ [subplan_of f; five_producer; late_consumer];
    [sum_producer] ].

(** [a = math.add(1, 2); sum = subplanner.add(a);
     planner.addSubplan(c.execute(subplanner, planner.state));
     planner.add(a); planner.add(math.add(sum, 3))]: the call object [a] is
    added to the subplanner and to the planner. *)
Definition call_added_inside_and_outside : Heap :=
  [ [subplan_of execute_readonly; sum_producer; sum_consumer 11];
    [sum_producer] ].

(** [subplanner.add(c.add33(1, .., 1));
     planner.addSubplan(c.execute(subplanner, planner.state))] *)
Definition thirty_three_args_in_subplan : Heap :=
  [ [subplan_of execute]; [thirty_three_args] ].

(** * Properties *)

(** ** Building a planner *)

Lemma commands_heap_append (h : Heap) (self : nat) (c : Command) :
  self < List.length h ->
  commands (heap_append h self c) self = commands h self ++ [c].
Proof.
  unfold commands. revert self.
  induction h as [|p r IH]; intros [|n] Hlt; simpl in *; try lia; auto.
  apply IH. lia.
Qed.

Lemma existsb_isSubplanValue (l : list Arg) (q : nat) :
  In (SubplanValue q) l -> existsb isSubplanValue l = true.
Proof.
  intros Hin. apply existsb_exists. exists (SubplanValue q). split; auto.
Qed.

(** C10: [add] of a call with a [SubplanValue] argument raises "Only subplans
    can have arguments of type SubplanValue", and the planner's command list
    has by then grown by the rejected command. *)
Theorem add_rejects_subplan_after_append
    (h : Heap) (self : nat) (call : FunctionCall) (q : nat) :
  self < List.length h ->
  In (SubplanValue q) (args call) ->
  fst (add h self call) = Err OnlySubplansTakeSubplanValue /\
  commands (snd (add h self call)) self
    = commands h self ++ [{| call := call; type := CALL |}] /\
  List.length (commands (snd (add h self call)) self)
    = S (List.length (commands h self)).
Proof.
  intros Hlt Hin. unfold add.
  rewrite (existsb_isSubplanValue _ _ Hin). simpl.
  rewrite commands_heap_append by assumption.
  repeat split. rewrite length_app. simpl. lia.
Qed.

Lemma addSubplan_scan_spec (l : list Arg) : forall (a b : bool),
  match addSubplan_scan l a b with
  | Ok (a', b') =>
    (if a then 1 else 0) + count_subplan l <= 1 /\
    (if b then 1 else 0) + count_state l <= 1 /\
    a' = (0 <? (if a then 1 else 0) + count_subplan l) /\
    b' = (0 <? (if b then 1 else 0) + count_state l)
  | Err _ =>
    1 < (if a then 1 else 0) + count_subplan l \/
    1 < (if b then 1 else 0) + count_state l
  | OutOfFuel => False
  end.
Proof.
  unfold count_subplan, count_state.
  induction l as [|x r IH]; intros a b.
  - simpl. destruct a, b; simpl; repeat split; lia.
  - destruct x; try exact (IH a b).
    + (* StateValue *)
      cbn [addSubplan_scan filter isSubplanValue isStateValue List.length].
      destruct b.
      * right. lia.
      * exact (IH a true).
    + (* SubplanValue *)
      cbn [addSubplan_scan filter isSubplanValue isStateValue List.length].
      destruct a.
      * left. lia.
      * exact (IH true b).
Qed.

(** C6, as amended: [addSubplan] rejects a call, leaving the planner as it
    was, exactly when its arguments do not hold one [SubplanValue] and one
    [StateValue], or when it declares a single output that is not [bytes[]];
    every other call, also one that declares several outputs, is appended as
    a SUBPLAN command. *)
Theorem addSubplan_rejects_iff (h : Heap) (self : nat) (call : FunctionCall) :
  (is_err (fst (addSubplan h self call)) = true <->
     count_subplan (args call) <> 1 \/ count_state (args call) <> 1 \/
     exists o, outputs (fragment call) = [o] /\ o <> "bytes[]"%string) /\
  (is_err (fst (addSubplan h self call)) = true ->
     snd (addSubplan h self call) = h) /\
  (is_err (fst (addSubplan h self call)) = false ->
     addSubplan h self call = (Ok tt, heap_append h self (subplan_command call))).
Proof.
  unfold addSubplan, subplan_command.
  pose proof (addSubplan_scan_spec (args call) false false) as Hs.
  destruct (addSubplan_scan (args call) false false) as [[a b]|e|]; simpl in Hs.
  - destruct Hs as (H1 & H2 & -> & ->).
    destruct (count_subplan (args call)) as [|[|n]] eqn:E1; try lia;
    destruct (count_state (args call)) as [|[|m]] eqn:E2; try lia; simpl;
      try (repeat split; intros; try reflexivity; try discriminate; auto; fail).
    destruct (outputs (fragment call)) as [|o [|o' r]] eqn:Eo; simpl.
    + repeat split; intros; try discriminate; auto.
      destruct H as [H|[H|(o & Ho & _)]]; congruence.
    + destruct (String.eqb_spec o "bytes[]"); simpl.
      * repeat split; intros; try discriminate; auto.
        destruct H as [H|[H|(o0 & Ho & Hne)]]; congruence.
      * repeat split; intros; try discriminate; auto.
        right; right. exists o. auto.
    + repeat split; intros; try discriminate; auto.
      destruct H as [H|[H|(o0 & Ho & _)]]; congruence.
  - simpl. repeat split; intros; try discriminate; auto.
    destruct Hs; [left|right; left]; lia.
  - contradiction.
Qed.

(** C6, as stated, fails: a call that declares two outputs, neither no output
    nor exactly [bytes[]], is accepted by [addSubplan] and appended. *)
Lemma addSubplan_accepts_two_outputs :
  outputs (fragment two_outputs_call) <> [] /\
  outputs (fragment two_outputs_call) <> ["bytes[]"%string] /\
  addSubplan [[]; []] 0 two_outputs_call
    = (Ok tt, [[subplan_command two_outputs_call]; []]).
Proof.
  repeat split; discriminate.
Qed.

(** ** The instruction layout *)

Lemma HexBytes_int_byte (n : Z) : is_byte n -> HexBytes_int n = Ok [n].
Proof.
  intros [Hge Hlt]. unfold HexBytes_int.
  assert (E : (n <? 0)%Z = false) by (apply Z.ltb_ge; exact Hge). rewrite E.
  destruct (Z.to_nat (Z.log2 n)); simpl; auto.
  apply Z.ltb_lt in Hlt. rewrite Hlt. reflexivity.
Qed.

Lemma be_bytes_length (fuel : nat) : forall n acc,
  List.length acc < List.length (be_bytes fuel n acc).
Proof.
  induction fuel as [|f IH]; intros n acc; simpl; [lia|].
  destruct (n <? 256)%Z; simpl; [lia|].
  specialize (IH (n / 256)%Z ((n mod 256)%Z :: acc)). simpl in IH. lia.
Qed.

Lemma HexBytes_int_ok (n : Z) (b : bytes) :
  HexBytes_int n = Ok b -> (0 <= n)%Z /\ 1 <= List.length b.
Proof.
  unfold HexBytes_int. destruct (n <? 0)%Z eqn:E; [discriminate|].
  intros H. injection H as <-. apply Z.ltb_ge in E. split; [exact E|].
  pose proof (be_bytes_length (Z.to_nat (Z.log2 n)) n []). simpl in *. lia.
Qed.

Lemma HexBytes_int_outcome (n : Z) :
  (exists b, HexBytes_int n = Ok b) \/ HexBytes_int n = Err NegativeInteger.
Proof.
  unfold HexBytes_int. destruct (n <? 0)%Z; [right|left; eexists]; reflexivity.
Qed.

Lemma hexConcat_ints_bytes (l : list Z) : Forall is_byte l -> hexConcat_ints l = Ok l.
Proof.
  induction 1 as [|x r Hx _ IH]; simpl; auto.
  rewrite HexBytes_int_byte by assumption. simpl. rewrite IH. reflexivity.
Qed.

Lemma hexConcat_ints_ok (l : list Z) : forall bs,
  hexConcat_ints l = Ok bs ->
  Forall (fun n => (0 <= n)%Z) l /\ List.length l <= List.length bs.
Proof.
  induction l as [|n r IH]; intros bs H; simpl in H.
  - injection H as <-. split; [constructor|simpl; lia].
  - destruct (HexBytes_int n) as [b|e|] eqn:En; try discriminate. simpl in H.
    destruct (hexConcat_ints r) as [bs'|e|] eqn:Er; try discriminate. simpl in H.
    injection H as <-. apply HexBytes_int_ok in En. destruct En as [Hn Hb].
    destruct (IH _ eq_refl) as [Hr Hl]. split; [constructor; assumption|].
    rewrite length_app. simpl. lia.
Qed.

Lemma hexConcat_ints_outcome (l : list Z) :
  (exists bs, hexConcat_ints l = Ok bs) \/ hexConcat_ints l = Err NegativeInteger.
Proof.
  induction l as [|n r IH]; simpl; [left; eexists; reflexivity|].
  destruct (HexBytes_int_outcome n) as [[b ->] | ->]; simpl; [|right; reflexivity].
  destruct IH as [[bs ->] | ->]; simpl; [left; eexists|right]; reflexivity.
Qed.

Lemma lor_is_byte (a b : Z) : is_byte a -> is_byte b -> is_byte (Z.lor a b).
Proof.
  unfold is_byte. intros [Ha Ha'] [Hb Hb']. split.
  - apply Z.lor_nonneg. auto.
  - destruct (Z.eq_dec (Z.lor a b) 0) as [->|Hne]; [lia|].
    assert (0 <= Z.lor a b)%Z by (apply Z.lor_nonneg; auto).
    change 256%Z with (2 ^ 8)%Z. apply Z.log2_lt_pow2; [lia|].
    rewrite Z.log2_lor by assumption.
    assert (Z.log2 a < 8)%Z.
    { destruct (Z.eq_dec a 0) as [->|]; [simpl; lia|].
      apply Z.log2_lt_pow2; [lia|]. exact Ha'. }
    assert (Z.log2 b < 8)%Z.
    { destruct (Z.eq_dec b 0) as [->|]; [simpl; lia|].
      apply Z.log2_lt_pow2; [lia|]. exact Hb'. }
    lia.
Qed.

Lemma padArray_bytes (a : list Z) (n : nat) :
  Forall is_byte a -> Forall is_byte (padArray a n 0xFF%Z).
Proof.
  intros Ha. unfold padArray. apply Forall_app. split; auto.
  apply Forall_forall. intros x Hx. apply repeat_spec in Hx. subst.
  unfold is_byte. lia.
Qed.

Lemma padArray_length (a : list Z) (n : nat) (v : Z) :
  List.length a <= n -> List.length (padArray a n v) = n.
Proof.
  intros Hle. unfold padArray. rewrite length_app, repeat_length. lia.
Qed.

(** The word of a command whose flags and slots are bytes. *)
Lemma hexConcat_word_bytes (command : Command) (flags' : Z) (slots : list Z) (ret : Z) :
  is_byte flags' -> Forall is_byte slots -> is_byte ret ->
  hexConcat_word command flags' slots ret
  = Ok (signature (fragment (call command)) ++ [flags'] ++ slots ++ [ret]
        ++ address (call command)).
Proof.
  intros Hf Hs Hr. unfold hexConcat_word.
  rewrite (HexBytes_int_byte _ Hf), (hexConcat_ints_bytes _ Hs), (HexBytes_int_byte _ Hr).
  reflexivity.
Qed.

Lemma hexConcat_word_outcome (command : Command) (flags' : Z) (slots : list Z) (ret : Z) :
  (exists w, hexConcat_word command flags' slots ret = Ok w) \/
  hexConcat_word command flags' slots ret = Err NegativeInteger.
Proof.
  unfold hexConcat_word.
  destruct (HexBytes_int_outcome flags') as [[f ->] | ->]; simpl; [|right; reflexivity].
  destruct (hexConcat_ints_outcome slots) as [[a ->] | ->]; simpl; [|right; reflexivity].
  destruct (HexBytes_int_outcome ret) as [[r ->] | ->]; simpl;
    [left; eexists|right]; reflexivity.
Qed.

Lemma hexConcat_word_ok (command : Command) (flags' : Z) (slots : list Z) (ret : Z)
    (w : bytes) :
  hexConcat_word command flags' slots ret = Ok w ->
  (0 <= flags')%Z /\ Forall (fun n => (0 <= n)%Z) slots /\ (0 <= ret)%Z.
Proof.
  unfold hexConcat_word.
  destruct (HexBytes_int flags') as [f|e|] eqn:Ef; try discriminate. simpl.
  destruct (hexConcat_ints slots) as [a|e|] eqn:Ea; try discriminate. simpl.
  destruct (HexBytes_int ret) as [r|e|] eqn:Er; try discriminate. simpl.
  intros _. apply HexBytes_int_ok in Ef, Er. apply hexConcat_ints_ok in Ea. tauto.
Qed.

(** The encoder raises one error of its own when it writes the words. *)
Lemma encode_command_outcome (command : Command) (flags' : Z) (cargs : list Z) (ret : Z) :
  (exists words, encode_command command flags' cargs ret = Ok words) \/
  encode_command command flags' cargs ret = Err NegativeInteger.
Proof.
  unfold encode_command.
  destruct (Z.land flags' EXTENDED_COMMAND =? EXTENDED_COMMAND)%Z.
  - destruct (hexConcat_word_outcome command flags' (repeat 0xFF%Z 6) ret)
      as [[w ->] | ->]; simpl; [|right; reflexivity].
    destruct (hexConcat_ints_outcome (padArray cargs 32 0xFF%Z)) as [[c ->] | ->];
      simpl; [left; eexists|right]; reflexivity.
  - destruct (hexConcat_word_outcome command flags' (padArray cargs 6 0xFF%Z) ret)
      as [[w ->] | ->]; simpl; [left; eexists|right]; reflexivity.
Qed.

(** What is written has no negative flags or slot. *)
Lemma encode_command_ok (command : Command) (flags' : Z) (cargs : list Z) (ret : Z)
    (words : list bytes) :
  encode_command command flags' cargs ret = Ok words ->
  (0 <= flags')%Z /\ Forall (fun n => (0 <= n)%Z) cargs /\ (0 <= ret)%Z.
Proof.
  unfold encode_command.
  destruct (Z.land flags' EXTENDED_COMMAND =? EXTENDED_COMMAND)%Z.
  - destruct (hexConcat_word command flags' (repeat 0xFF%Z 6) ret) as [w|e|] eqn:Ew;
      try discriminate. simpl.
    destruct (hexConcat_ints (padArray cargs 32 0xFF%Z)) as [c|e|] eqn:Ec;
      try discriminate. simpl. intros _.
    apply hexConcat_word_ok in Ew. apply hexConcat_ints_ok in Ec.
    destruct Ew as (Hf & _ & Hr), Ec as [Hc _].
    unfold padArray in Hc. apply Forall_app in Hc. tauto.
  - destruct (hexConcat_word command flags' (padArray cargs 6 0xFF%Z) ret) as [w|e|] eqn:Ew;
      try discriminate. simpl. intros _.
    apply hexConcat_word_ok in Ew. destruct Ew as (Hf & Hc & Hr).
    unfold padArray in Hc. apply Forall_app in Hc. tauto.
Qed.

(** The two layouts, for flags and slots that are bytes. *)
Lemma encode_command_standard (command : Command) (flags' : Z) (cargs : list Z) (ret : Z) :
  is_byte flags' -> Forall is_byte cargs -> is_byte ret ->
  Z.land flags' EXTENDED_COMMAND <> EXTENDED_COMMAND ->
  encode_command command flags' cargs ret = Ok [standard_word command flags' cargs ret].
Proof.
  intros Hf Hc Hr He. unfold encode_command.
  apply Z.eqb_neq in He. rewrite He.
  rewrite hexConcat_word_bytes; auto using padArray_bytes.
Qed.

Lemma encode_command_extended (command : Command) (flags' : Z) (cargs : list Z) (ret : Z) :
  is_byte flags' -> Forall is_byte cargs -> is_byte ret ->
  Z.land flags' EXTENDED_COMMAND = EXTENDED_COMMAND ->
  encode_command command flags' cargs ret
  = Ok [header_word command flags' ret; continuation_word cargs].
Proof.
  intros Hf Hc Hr He. unfold encode_command. rewrite He, Z.eqb_refl.
  rewrite hexConcat_word_bytes; auto.
  - simpl. unfold continuation_word.
    rewrite hexConcat_ints_bytes by (apply padArray_bytes; assumption). reflexivity.
  - apply (padArray_bytes [] 6). constructor.
Qed.

(** The steps of [buildCommand], read off a result and off an error. *)
Lemma buildCommand_inv isDynamicType (command : Command) (ps ps' : PlannerState)
    (words : list bytes) :
  buildCommand isDynamicType command ps = Ok (words, ps') ->
  exists cargs ret,
    buildCommandArgs isDynamicType command (returnSlotMap ps) (literalSlotMap ps)
      (state ps) = Ok cargs /\
    return_slot isDynamicType command (with_expired command ps) = Ok (ret, ps') /\
    encode_command command (written_flags command (List.length cargs)) cargs ret
    = Ok words.
Proof.
  unfold buildCommand. fold (with_expired command ps).
  destruct (buildCommandArgs isDynamicType command (returnSlotMap ps)
              (literalSlotMap ps) (state ps)) as [cargs|e|]; try discriminate.
  fold (written_flags command (List.length cargs)).
  destruct (return_slot isDynamicType command (with_expired command ps))
    as [[ret ps2]|e|] eqn:Er; try discriminate.
  destruct (encode_command command (written_flags command (List.length cargs)) cargs ret)
    as [w|e|] eqn:Ee; try discriminate.
  simpl. intros H. injection H as <- <-. exists cargs, ret. auto.
Qed.

Lemma buildCommand_err_inv isDynamicType (command : Command) (ps : PlannerState)
    (e : Error) :
  buildCommand isDynamicType command ps = Err e ->
  buildCommandArgs isDynamicType command (returnSlotMap ps) (literalSlotMap ps)
    (state ps) = Err e \/
  (exists cargs,
     buildCommandArgs isDynamicType command (returnSlotMap ps) (literalSlotMap ps)
       (state ps) = Ok cargs /\
     (return_slot isDynamicType command (with_expired command ps) = Err e \/
      exists ret ps',
        return_slot isDynamicType command (with_expired command ps) = Ok (ret, ps') /\
        encode_command command (written_flags command (List.length cargs)) cargs ret
        = Err e /\ e = NegativeInteger)).
Proof.
  unfold buildCommand. fold (with_expired command ps).
  destruct (buildCommandArgs isDynamicType command (returnSlotMap ps)
              (literalSlotMap ps) (state ps)) as [cargs|e0|]; try discriminate.
  - fold (written_flags command (List.length cargs)).
    destruct (return_slot isDynamicType command (with_expired command ps))
      as [[ret ps2]|e0|] eqn:Er; try discriminate.
    + destruct (encode_command_outcome command
                  (written_flags command (List.length cargs)) cargs ret)
        as [[w Hw] | Hw]; rewrite Hw; simpl; [discriminate|].
      intros H. injection H as <-. right. exists cargs. split; [reflexivity|].
      right. exists ret, ps2. auto.
    + intros H. injection H as <-. right. exists cargs. auto.
  - intros H. injection H as <-. left. reflexivity.
Qed.

Lemma buildCommand_not_OutOfFuel_of_args isDynamicType (command : Command)
    (ps : PlannerState) :
  buildCommandArgs isDynamicType command (returnSlotMap ps) (literalSlotMap ps)
    (state ps) <> OutOfFuel ->
  return_slot isDynamicType command (with_expired command ps) <> OutOfFuel ->
  buildCommand isDynamicType command ps <> OutOfFuel.
Proof.
  unfold buildCommand. fold (with_expired command ps).
  destruct (buildCommandArgs isDynamicType command (returnSlotMap ps)
              (literalSlotMap ps) (state ps)) as [cargs|e0|]; try discriminate;
    [|congruence].
  fold (written_flags command (List.length cargs)).
  destruct (return_slot isDynamicType command (with_expired command ps))
    as [[ret ps2]|e0|]; try discriminate; [|congruence].
  intros _ _.
  destruct (encode_command_outcome command
              (written_flags command (List.length cargs)) cargs ret)
    as [[w Hw] | Hw]; rewrite Hw; discriminate.
Qed.

Lemma buildCommand_words isDynamicType (command : Command) (ps ps' : PlannerState)
    (cargs : list Z) (words : list bytes) :
  buildCommandArgs isDynamicType command (returnSlotMap ps) (literalSlotMap ps) (state ps)
    = Ok cargs ->
  buildCommand isDynamicType command ps = Ok (words, ps') ->
  exists ret,
    encode_command command
      (if (6 <? List.length cargs)%nat
       then Z.lor (flags (call command)) EXTENDED_COMMAND
       else flags (call command)) cargs ret = Ok words.
Proof.
  intros Ha Hb. apply buildCommand_inv in Hb.
  destruct Hb as (cargs' & ret & Ha' & _ & He).
  rewrite Ha in Ha'. injection Ha' as <-. exists ret. exact He.
Qed.

Lemma pop_In (l r : list Z) (x : Z) : pop l = Some (x, r) -> In x l.
Proof.
  unfold pop. intros H. apply in_rev.
  destruct (rev l) as [|y t]; [discriminate|].
  injection H as -> _. left. reflexivity.
Qed.

(** ** The visibility walk: invariants of the loops *)

Section WalkInvariant.
Variable rec : nat -> PreState -> res unit * PreState.
(** A property of the walk state that every primitive step of the walk
    keeps, and that the recursive call keeps whatever its outcome. *)
Variable I : PreState -> Prop.
Hypothesis I_cv : forall st c k,
  I st -> I (set_commandVisibility (dict_set key_eqb (commandVisibility st) c k) st).
Hypothesis I_lv : forall st v k,
  I st -> I (set_literalVisibility (dict_set bytes_eqb (literalVisibility st) v k) st).
Hypothesis I_seen : forall st st0 k,
  I st0 -> I st -> (I (set_seen (seen st0) st) /\ I (set_seen (k :: seen st) st)).
Hypothesis I_rec : forall q st, I st -> I (snd (rec q st)).

Lemma preplan_args_inv (command : Command) (l : list Arg) :
  forall st, I st -> I (snd (preplan_args rec command l st)).
Proof.
  induction l as [|arg rest IH]; intros st Hst; simpl; auto.
  destruct arg as [p|p v|p c| |q]; simpl; auto.
  - apply IH. apply (I_lv _ v (key command) Hst).
  - destruct (set_mem key_eqb c (seen st)); simpl; auto.
    apply IH. apply (I_cv _ c (key command) Hst).
  - pose proof (I_rec q _ Hst) as Hr.
    destruct (rec q st) as [r st']. simpl in Hr.
    assert (Hst'' : I match outputs (fragment (call command)) with
                      | [] => set_seen (seen st) st'
                      | _ :: _ => st'
                      end).
    { destruct (outputs (fragment (call command))); auto.
      apply (I_seen _ _ (key command) Hst Hr). }
    destruct r; simpl; auto.
Qed.

Lemma preplan_command_inv (command : Command) :
  forall st, I st -> I (snd (preplan_command rec command st)).
Proof.
  intros st Hst. unfold preplan_command.
  destruct (inargs command) as [l|e|]; simpl; auto.
  pose proof (preplan_args_inv command l _ Hst) as H.
  destruct (preplan_args rec command l st) as [[[]|e|] st']; simpl in *; auto.
  apply (I_seen _ _ (key command) H H).
Qed.

Lemma preplan_commands_inv (l : list Command) :
  forall st, I st -> I (snd (preplan_commands rec l st)).
Proof.
  induction l as [|c rest IH]; intros st Hst; simpl; auto.
  pose proof (preplan_command_inv c _ Hst) as H.
  destruct (preplan_command rec c st) as [[[]|e|] st']; simpl in *; auto.
Qed.

(** If moreover the recursive call never runs out of fuel from a state
    with the property, neither do the loops. *)
Hypothesis rec_total : forall q st, I st -> fst (rec q st) <> OutOfFuel.

Lemma preplan_args_total (command : Command) (l : list Arg) :
  forall st, I st -> fst (preplan_args rec command l st) <> OutOfFuel.
Proof.
  induction l as [|arg rest IH]; intros st Hst; simpl; try discriminate.
  destruct arg as [p|p v|p c| |q]; simpl; try discriminate; auto.
  - apply IH. apply (I_lv _ v (key command) Hst).
  - destruct (set_mem key_eqb c (seen st)); simpl; try discriminate.
    apply IH. apply (I_cv _ c (key command) Hst).
  - pose proof (I_rec q _ Hst) as Hr. pose proof (rec_total q _ Hst) as Ht.
    destruct (rec q st) as [r st']. simpl in Hr, Ht.
    destruct r; simpl; try discriminate; try congruence.
    apply IH. destruct (outputs (fragment (call command))); auto.
    apply (I_seen _ _ (key command) Hst Hr).
Qed.

Lemma preplan_commands_total (l : list Command) :
  forall st, I st -> fst (preplan_commands rec l st) <> OutOfFuel.
Proof.
  induction l as [|c rest IH]; intros st Hst; simpl; try discriminate.
  pose proof (preplan_command_inv c _ Hst) as H. revert H.
  unfold preplan_command.
  destruct (inargs c) as [la|e|] eqn:Ei; simpl; try discriminate.
  - pose proof (preplan_args_total c la _ Hst) as Ht.
    destruct (preplan_args rec c la st) as [[[]|e|] st']; simpl in *;
      try discriminate; try congruence.
    intros H. apply IH. exact H.
  - unfold inargs in Ei.
    destruct (Z.land (flags (call c)) CALLTYPE_MASK =? CALL_WITH_VALUE)%Z;
      [destruct (callvalue (call c)) as [[? ?]|]|]; discriminate.
Qed.
End WalkInvariant.

Lemma set_mem_nat (x : nat) (l : list nat) : set_mem Nat.eqb x l = true <-> In x l.
Proof.
  unfold set_mem. rewrite existsb_exists. split.
  - intros (y & Hy & E). apply Nat.eqb_eq in E. subst. exact Hy.
  - intros H. exists x. split; auto. apply Nat.eqb_refl.
Qed.

(** The set [planners] only grows, whatever the outcome of the walk. *)
Lemma preplan_planners_incl (h : Heap) (fuel : nat) : forall self st,
  incl (planners st) (planners (snd (preplan fuel h self st))).
Proof.
  induction fuel as [|fuel IH]; intros self st; simpl.
  - apply incl_refl.
  - destruct (set_mem Nat.eqb self (planners st)); simpl; [apply incl_refl|].
    apply preplan_commands_inv
      with (I := fun s => incl (planners st) (planners s)); simpl; auto.
    + intros q s Hs. eapply incl_tran; [exact Hs|apply IH].
    + apply incl_tl, incl_refl.
Qed.

(** A planner that was walked is in [planners] afterwards. *)
Lemma preplan_adds_self (h : Heap) (fuel : nat) (self : nat) (st : PreState) :
  In self (planners (snd (preplan (S fuel) h self st))).
Proof.
  simpl. destruct (set_mem Nat.eqb self (planners st)) eqn:E; simpl.
  - apply set_mem_nat. exact E.
  - apply preplan_commands_inv with (I := fun s => In self (planners s));
      simpl; auto.
    intros q s Hs. apply (preplan_planners_incl h fuel q s). exact Hs.
Qed.

Section PlanTwice.
Variable isDynamicType : string -> bool.
Variable encode_bytes32_array : list bytes -> bytes.

Lemma plan_globals (h : Heap) (self : nat) (g : Globals) :
  snd (plan isDynamicType encode_bytes32_array h self g)
  = {| default_seen := seen (snd (preplan (S (List.length h)) h self (plan_start g)));
       default_planners :=
         planners (snd (preplan (S (List.length h)) h self (plan_start g))) |}.
Proof.
  unfold plan. fold (plan_start g).
  destruct (preplan (S (List.length h)) h self (plan_start g)) as [r st].
  destruct r as [[]|e|]; try reflexivity.
  destruct (prepopulate (literalVisibility st)) as [[st0 lsm] exps].
  match goal with
  | |- snd (match ?X with _ => _ end) = _ => destruct X as [[? ?]| |]
  end; reflexivity.
Qed.

(** C1 does not hold of the code: whatever the first call of [plan] on a
    planner returned, a second call on the same, unmodified planner raises
    "A planner cannot contain itself".  The first call has left the planner
    in the default [planners] set of [_preplan], which the second call is
    handed again. *)
Theorem plan_second_call_raises (h : Heap) (self : nat) (g : Globals) :
  fst (plan isDynamicType encode_bytes32_array h self
         (snd (plan isDynamicType encode_bytes32_array h self g)))
  = Err PlannerContainsItself.
Proof.
  rewrite plan_globals.
  pose proof (preplan_adds_self h (List.length h) self (plan_start g)) as Hin.
  apply set_mem_nat in Hin.
  set (st1 := snd (preplan (S (List.length h)) h self (plan_start g))) in *.
  assert (E : forall st, planners st = planners st1 ->
              preplan (S (List.length h)) h self st = (Err PlannerContainsItself, st)).
  { intros st Hp. simpl. rewrite Hp, Hin. reflexivity. }
  unfold plan. rewrite E; reflexivity.
Qed.
End PlanTwice.

(** ** Termination of the walk *)

Lemma filter_length_le {A} (f g : A -> bool) (l : list A) :
  (forall x, f x = true -> g x = true) ->
  List.length (filter f l) <= List.length (filter g l).
Proof.
  intros Hfg. induction l as [|x r IH]; simpl; auto.
  destruct (f x) eqn:Ef.
  - rewrite (Hfg x Ef). simpl. lia.
  - destruct (g x); simpl; lia.
Qed.

Lemma filter_length_lt {A} (f g : A -> bool) (l : list A) (a : A) :
  (forall x, f x = true -> g x = true) ->
  In a l -> f a = false -> g a = true ->
  List.length (filter f l) < List.length (filter g l).
Proof.
  intros Hfg Hin Hfa Hga. induction l as [|x r IH]; simpl in *; [contradiction|].
  destruct Hin as [->|Hin].
  - rewrite Hfa, Hga. simpl.
    pose proof (filter_length_le f g r Hfg). lia.
  - specialize (IH Hin). destruct (f x) eqn:Ef.
    + rewrite (Hfg x Ef). simpl. lia.
    + destruct (g x); simpl; lia.
Qed.

Lemma set_mem_nat_false (x : nat) (l : list nat) :
  set_mem Nat.eqb x l = false <-> ~ In x l.
Proof.
  rewrite <- set_mem_nat. destruct (set_mem Nat.eqb x l); split; congruence.
Qed.

Lemma unvisited_incl (h : Heap) (ps ps' : list nat) :
  incl ps ps' -> unvisited h ps' <= unvisited h ps.
Proof.
  intros Hi. apply filter_length_le. intros x Hx.
  apply negb_true_iff in Hx. apply negb_true_iff.
  apply set_mem_nat_false. apply set_mem_nat_false in Hx. auto.
Qed.

Lemma unvisited_enter (h : Heap) (ps : list nat) (self : nat) :
  self < List.length h -> ~ In self ps ->
  unvisited h (self :: ps) < unvisited h ps.
Proof.
  intros Hlt Hn. apply filter_length_lt with (a := self).
  - intros x Hx. apply negb_true_iff in Hx. apply negb_true_iff.
    apply set_mem_nat_false. apply set_mem_nat_false in Hx.
    intros Hin. apply Hx. right. exact Hin.
  - apply in_seq. lia.
  - apply negb_false_iff. apply set_mem_nat. left. reflexivity.
  - apply negb_true_iff. apply set_mem_nat_false. exact Hn.
Qed.

Lemma unvisited_le (h : Heap) (ps : list nat) : unvisited h ps <= List.length h.
Proof.
  unfold unvisited.
  assert (Hb : forall (f : nat -> bool) l, List.length (filter f l) <= List.length l).
  { intros f l. induction l as [|x r IH]; simpl; auto.
    destruct (f x); simpl; lia. }
  eapply Nat.le_trans; [apply Hb|]. rewrite length_seq. apply Nat.le_refl.
Qed.

(** The walk ends: with more fuel than there are planners left to enter, it
    does not run out of fuel. *)
Lemma preplan_total (h : Heap) (fuel : nat) : forall self st,
  unvisited h (planners st) < fuel ->
  fst (preplan fuel h self st) <> OutOfFuel.
Proof.
  induction fuel as [|fuel IH]; intros self st Hm; [lia|]. simpl.
  destruct (set_mem Nat.eqb self (planners st)) eqn:E; simpl; [discriminate|].
  apply set_mem_nat_false in E.
  destruct (Nat.lt_ge_cases self (List.length h)) as [Hlt|Hge].
  - apply preplan_commands_total
      with (I := fun s => unvisited h (planners s) < fuel); simpl; auto.
    + intros q s Hs.
      pose proof (unvisited_incl h _ _ (preplan_planners_incl h fuel q s)). lia.
    + pose proof (unvisited_enter h _ _ Hlt E). lia.
  - unfold commands. rewrite nth_overflow by assumption. simpl. discriminate.
Qed.

(** ** What a successful walk has entered *)

Lemma inargs_args (c : Command) (l : list Arg) (a : Arg) :
  inargs c = Ok l -> In a (args (call c)) -> In a l.
Proof.
  unfold inargs.
  destruct (Z.land (flags (call c)) CALLTYPE_MASK =? CALL_WITH_VALUE)%Z.
  - destruct (callvalue (call c)) as [[p v]|]; [|discriminate].
    intros H Hin. injection H as <-. right. exact Hin.
  - intros H Hin. injection H as <-. exact Hin.
Qed.

Section WalkOk.
Variable rec : nat -> PreState -> res unit * PreState.
(** [I] is kept by every successful recursive call, which also establishes
    [E q] for the planner [q] it was made on; both only look at [planners],
    and [E q] stays true when [planners] grows. *)
Variable I : PreState -> Prop.
Variable E : nat -> PreState -> Prop.
Hypothesis I_ext : forall st st', planners st' = planners st -> I st -> I st'.
Hypothesis E_mono : forall q st st',
  incl (planners st) (planners st') -> E q st -> E q st'.
Hypothesis rec_mono : forall q st, incl (planners st) (planners (snd (rec q st))).
Hypothesis rec_ok : forall q st st',
  I st -> rec q st = (Ok tt, st') -> I st' /\ E q st'.

Lemma preplan_args_mono (c : Command) (l : list Arg) (st : PreState) :
  incl (planners st) (planners (snd (preplan_args rec c l st))).
Proof.
  apply preplan_args_inv with (I := fun s => incl (planners st) (planners s));
    simpl; auto.
  - intros q s Hs. eapply incl_tran; [exact Hs|apply rec_mono].
  - apply incl_refl.
Qed.

Lemma preplan_commands_mono (l : list Command) (st : PreState) :
  incl (planners st) (planners (snd (preplan_commands rec l st))).
Proof.
  apply preplan_commands_inv with (I := fun s => incl (planners st) (planners s));
    simpl; auto.
  - intros q s Hs. eapply incl_tran; [exact Hs|apply rec_mono].
  - apply incl_refl.
Qed.

Lemma preplan_args_ok (c : Command) (l : list Arg) : forall st st',
  I st -> preplan_args rec c l st = (Ok tt, st') ->
  I st' /\ forall q, In (SubplanValue q) l -> E q st'.
Proof.
  induction l as [|arg rest IH]; intros st st' Hst Hr; simpl in Hr.
  - injection Hr as <-. split; [exact Hst|]. intros q [].
  - destruct arg as [p|p v|p k| |q0].
    + discriminate.
    + apply IH in Hr; [|eapply I_ext; [|exact Hst]; reflexivity].
      destruct Hr as [Hi He]. split; [exact Hi|].
      intros q [Hq|Hq]; [discriminate|auto].
    + destruct (set_mem key_eqb k (seen st)); [|discriminate].
      apply IH in Hr; [|eapply I_ext; [|exact Hst]; reflexivity].
      destruct Hr as [Hi He]. split; [exact Hi|].
      intros q [Hq|Hq]; [discriminate|auto].
    + apply IH in Hr; [|exact Hst].
      destruct Hr as [Hi He]. split; [exact Hi|].
      intros q [Hq|Hq]; [discriminate|auto].
    + destruct (rec q0 st) as [r s1] eqn:Er.
      destruct r as [[]|e|]; try discriminate.
      destruct (rec_ok q0 _ _ Hst Er) as [Hi1 He1].
      set (s2 := match outputs (fragment (call c)) with
                 | [] => set_seen (seen st) s1
                 | _ :: _ => s1
                 end) in *.
      assert (Hp : planners s2 = planners s1)
        by (unfold s2; destruct (outputs (fragment (call c))); reflexivity).
      pose proof (preplan_args_mono c rest s2) as Hm. rewrite Hr in Hm. simpl in Hm.
      apply IH in Hr; [|eapply I_ext; [exact Hp|exact Hi1]].
      destruct Hr as [Hi He]. split; [exact Hi|].
      intros q [Hq|Hq]; [|auto].
      injection Hq as <-. eapply E_mono; [|exact He1]. rewrite <- Hp. exact Hm.
Qed.

Lemma preplan_commands_ok (l : list Command) : forall st st',
  I st -> preplan_commands rec l st = (Ok tt, st') ->
  I st' /\ forall c q, In c l -> In (SubplanValue q) (args (call c)) -> E q st'.
Proof.
  induction l as [|c rest IH]; intros st st' Hst Hr; simpl in Hr.
  - injection Hr as <-. split; [exact Hst|]. intros c q [].
  - unfold preplan_command in Hr.
    destruct (inargs c) as [la|e|] eqn:Ei; try discriminate.
    destruct (preplan_args rec c la st) as [r s1] eqn:Ea.
    destruct r as [[]|e|]; try discriminate.
    destruct (preplan_args_ok c la _ _ Hst Ea) as [Hi1 He1].
    set (s2 := set_seen (key c :: seen s1) s1) in *.
    pose proof (preplan_commands_mono rest s2) as Hm. rewrite Hr in Hm. simpl in Hm.
    apply IH in Hr; [|eapply I_ext; [|exact Hi1]; reflexivity].
    destruct Hr as [Hi He]. split; [exact Hi|].
    intros c' q [<-|Hc] Hq; [|eauto].
    eapply E_mono; [exact Hm|]. apply He1. eapply inargs_args; eauto.
Qed.
End WalkOk.

(** ** Planners that contain themselves *)

(** A successful walk of [self] has entered, for the first time, [self] and
    every planner below it, none of which is [self] again. *)
Lemma preplan_ok_closed (h : Heap) (fuel : nat) : forall self st st',
  preplan fuel h self st = (Ok tt, st') ->
  ~ In self (planners st) /\ In self (planners st') /\
  forall p, In p (planners st') -> ~ In p (planners st) ->
    forall q, contains h p q ->
      In q (planners st') /\ ~ In q (planners st) /\ q <> self.
Proof.
  induction fuel as [|fuel IH]; intros self st st' Hr; [discriminate|].
  pose proof (preplan_adds_self h fuel self st) as Hself.
  rewrite Hr in Hself. simpl in Hself, Hr.
  destruct (set_mem Nat.eqb self (planners st)) eqn:Em; [discriminate|].
  apply set_mem_nat_false in Em.
  set (st1 := {| commandVisibility := commandVisibility st;
                 literalVisibility := literalVisibility st;
                 seen := seen st; planners := self :: planners st |}) in *.
  apply preplan_commands_ok
    with (I := fun s => incl (planners st1) (planners s) /\
                 forall p, In p (planners s) -> ~ In p (planners st1) ->
                   forall q, contains h p q ->
                     In q (planners s) /\ ~ In q (planners st1))
         (E := fun q s => In q (planners s) /\ ~ In q (planners st1)) in Hr.
  - destruct Hr as [[Hincl Hclosed] Hedges].
    split; [exact Em|]. split; [exact Hself|].
    intros p Hp Hnp q Hq.
    assert (Hq' : In q (planners st') /\ ~ In q (planners st1)).
    { destruct (Nat.eq_dec p self) as [->|Hne].
      - destruct Hq as (c & Hc & Ha). exact (Hedges c q Hc Ha).
      - apply (Hclosed p Hp); [|exact Hq]. simpl. intros [H|H]; [congruence|auto]. }
    destruct Hq' as [H1 H2]. simpl in H2.
    split; [exact H1|].
    split; [intros Hx; apply H2; right; exact Hx|].
    intros ->. apply H2. left. reflexivity.
  - intros s s' Hp. rewrite Hp. auto.
  - intros q s s' Hi [H1 H2]. split; auto.
  - intros q s. apply preplan_planners_incl.
  - intros q s s' [Hincl Hclosed] Hq.
    pose proof (preplan_planners_incl h fuel q s) as Hm. rewrite Hq in Hm. simpl in Hm.
    destruct (IH q s s' Hq) as (Hq1 & Hq2 & Hq3).
    split; [split|].
    + eapply incl_tran; eauto.
    + intros p Hp Hnp q' Hc.
      destruct (in_dec Nat.eq_dec p (planners s)) as [Hps|Hps].
      * destruct (Hclosed p Hps Hnp q' Hc) as [Ha Hb]. split; auto.
      * destruct (Hq3 p Hp Hps q' Hc) as (Ha & Hb & _). split; auto.
    + split; auto.
  - split; [apply incl_refl|]. intros p Hp Hnp. contradiction.
Qed.

Lemma preplan_ok_no_cycle (h : Heap) (fuel : nat) (self : nat) (st st' : PreState) :
  preplan fuel h self st = (Ok tt, st') -> ~ reaches h self self.
Proof.
  intros Hr Hcyc.
  destruct (preplan_ok_closed h fuel self st st' Hr) as (Hn & Hs & Hclosed).
  assert (H : forall p r, reaches h p r ->
              In p (planners st') -> ~ In p (planners st) ->
              In r (planners st') /\ ~ In r (planners st) /\ r <> self).
  { induction 1 as [p q Hc|p q r Hc _ IHr]; intros Hp Hnp.
    - apply (Hclosed p Hp Hnp q Hc).
    - destruct (Hclosed p Hp Hnp q Hc) as (Ha & Hb & _). apply IHr; auto. }
  destruct (H self self Hcyc Hs Hn) as (_ & _ & Hne). congruence.
Qed.

(** ** The errors of the walk *)

Lemma inargs_return (c : Command) (l : list Arg) (p : string) (k : CommandKey) :
  inargs c = Ok l -> In (ReturnValue p k) l -> In (ReturnValue p k) (args (call c)).
Proof.
  unfold inargs.
  destruct (Z.land (flags (call c)) CALLTYPE_MASK =? CALL_WITH_VALUE)%Z.
  - destruct (callvalue (call c)) as [[p' v]|]; [|discriminate].
    intros H. injection H as <-. intros [Hin|Hin]; [discriminate|exact Hin].
  - intros H Hin. injection H as <-. exact Hin.
Qed.

Lemma inargs_value (c : Command) (l : list Arg) (p : string) :
  inargs c = Ok l -> In (Value p) l -> In (Value p) (args (call c)).
Proof.
  unfold inargs.
  destruct (Z.land (flags (call c)) CALLTYPE_MASK =? CALL_WITH_VALUE)%Z.
  - destruct (callvalue (call c)) as [[p' v]|]; [|discriminate].
    intros H. injection H as <-. intros [Hin|Hin]; [discriminate|exact Hin].
  - intros H Hin. injection H as <-. exact Hin.
Qed.

Section WalkErr.
Variable rec : nat -> PreState -> res unit * PreState.
Variable P : Error -> Prop.
Hypothesis rec_err : forall q st e, fst (rec q st) = Err e -> P e.

Lemma preplan_args_err (c : Command) (l : list Arg) : forall st e,
  fst (preplan_args rec c l st) = Err e ->
  P e \/ (e = ReturnNotVisible /\ exists p k, In (ReturnValue p k) l)
      \/ (e = UnknownArgumentType /\ exists p, In (Value p) l).
Proof.
  assert (Hweak : forall (a : Arg) (r : list Arg) e,
    P e \/ (e = ReturnNotVisible /\ (exists p k, In (ReturnValue p k) r))
        \/ (e = UnknownArgumentType /\ (exists p, In (Value p) r)) ->
    P e \/ (e = ReturnNotVisible /\ (exists p k, In (ReturnValue p k) (a :: r)))
        \/ (e = UnknownArgumentType /\ (exists p, In (Value p) (a :: r)))).
  { intros a r e [H|[[H (p & k & Hin)]|[H (p & Hin)]]]; auto.
    - right; left. split; auto. exists p, k. right. exact Hin.
    - right; right. split; auto. exists p. right. exact Hin. }
  induction l as [|arg rest IH]; intros st e Hr; simpl in Hr; [discriminate|].
  destruct arg as [p|p v|p k| |q].
  - injection Hr as <-. right; right. split; auto. exists p. left. reflexivity.
  - apply Hweak. eapply IH. exact Hr.
  - destruct (set_mem key_eqb k (seen st)).
    + apply Hweak. eapply IH. exact Hr.
    + injection Hr as <-. right; left. split; auto. exists p, k. left. reflexivity.
  - apply Hweak. eapply IH. exact Hr.
  - pose proof (rec_err q st) as Hq.
    destruct (rec q st) as [r s1]. destruct r as [[]|e'|]; simpl in Hr.
    + apply Hweak. eapply IH. exact Hr.
    + injection Hr as ->. left. apply Hq. reflexivity.
    + discriminate.
Qed.

Lemma preplan_commands_err (l : list Command) : forall st e,
  fst (preplan_commands rec l st) = Err e ->
  P e \/ exists c, In c l /\ raises_in_command c e.
Proof.
  induction l as [|c rest IH]; intros st e Hr; simpl in Hr; [discriminate|].
  unfold preplan_command in Hr.
  destruct (inargs c) as [la|e'|] eqn:Ei.
  - pose proof (preplan_args_err c la st) as Ha.
    destruct (preplan_args rec c la st) as [r s1]. destruct r as [[]|e'|]; simpl in Hr.
    + destruct (IH _ _ Hr) as [H|(c' & Hc & H)]; auto.
      right. exists c'. split; [right; exact Hc|exact H].
    + injection Hr as ->.
      destruct (Ha e eq_refl) as [H|[[H (p & k & Hin)]|[H (p & Hin)]]]; auto;
        right; exists c; (split; [left; reflexivity|]).
      * left. split; auto. exists p, k. eapply inargs_return; eauto.
      * right; left. split; auto. exists p. eapply inargs_value; eauto.
    + discriminate.
  - simpl in Hr. injection Hr as <-. right. exists c. split; [left; reflexivity|].
    right; right. unfold inargs in Ei.
    destruct (Z.land (flags (call c)) CALLTYPE_MASK =? CALL_WITH_VALUE)%Z;
      [|discriminate].
    destruct (callvalue (call c)) as [[? ?]|]; [discriminate|].
    injection Ei as <-. auto.
  - discriminate.
Qed.
End WalkErr.

Lemma preplan_err (h : Heap) (fuel : nat) : forall self st e,
  fst (preplan fuel h self st) = Err e ->
  e = PlannerContainsItself \/
  exists p c, In c (commands h p) /\ raises_in_command c e.
Proof.
  induction fuel as [|fuel IH]; intros self st e Hr; simpl in Hr; [discriminate|].
  destruct (set_mem Nat.eqb self (planners st)).
  - injection Hr as <-. left. reflexivity.
  - apply preplan_commands_err
      with (P := fun e => e = PlannerContainsItself \/
                  exists p c, In c (commands h p) /\ raises_in_command c e) in Hr.
    + destruct Hr as [H|(c & Hc & H)]; auto. right. exists self, c. auto.
    + intros q s e' He. eapply IH. exact He.
Qed.

(** ** Where the walk fails *)

Lemma preplan_commands_app (rec : nat -> PreState -> res unit * PreState)
    (l1 l2 : list Command) : forall st,
  preplan_commands rec (l1 ++ l2) st
  = match preplan_commands rec l1 st with
    | (Ok _, st1) => preplan_commands rec l2 st1
    | other => other
    end.
Proof.
  induction l1 as [|c r IH]; intros st; simpl; [reflexivity|].
  destruct (preplan_command rec c st) as [r0 s1].
  destruct r0 as [[]|e|]; auto.
Qed.

Lemma preplan_args_app (rec : nat -> PreState -> res unit * PreState)
    (c : Command) (l1 l2 : list Arg) : forall st,
  preplan_args rec c (l1 ++ l2) st
  = match preplan_args rec c l1 st with
    | (Ok _, st1) => preplan_args rec c l2 st1
    | other => other
    end.
Proof.
  induction l1 as [|a r IH]; intros st; simpl; [reflexivity|].
  destruct a as [p|p v|p k| |q]; auto.
  - destruct (set_mem key_eqb k (seen st)); auto.
  - destruct (rec q st) as [r0 s1]. destruct r0 as [[]|e|]; auto.
Qed.

(** The first command that the walk of a list fails on, and the first
    argument that the walk of an argument list fails on. *)
Lemma preplan_commands_err_split (rec : nat -> PreState -> res unit * PreState)
    (l : list Command) : forall st e,
  fst (preplan_commands rec l st) = Err e ->
  exists l1 c l2 s1,
    l = l1 ++ c :: l2 /\
    preplan_commands rec l1 st = (Ok tt, s1) /\
    fst (preplan_command rec c s1) = Err e.
Proof.
  induction l as [|c rest IH]; intros st e H; simpl in H; [discriminate|].
  destruct (preplan_command rec c st) as [r s1] eqn:Ec.
  destruct r as [[]|e'|].
  - destruct (IH s1 e H) as (l1 & c' & l2 & s2 & -> & Hl1 & Hc').
    exists (c :: l1), c', l2, s2. split; [reflexivity|]. split; [|exact Hc'].
    simpl. rewrite Ec. exact Hl1.
  - exists [], c, rest, st. split; [reflexivity|]. split; [reflexivity|].
    rewrite Ec. exact H.
  - discriminate.
Qed.

Lemma preplan_args_err_split (rec : nat -> PreState -> res unit * PreState)
    (c : Command) (l : list Arg) : forall st e,
  fst (preplan_args rec c l st) = Err e ->
  exists pre a post s1,
    l = pre ++ a :: post /\
    preplan_args rec c pre st = (Ok tt, s1) /\
    match a with
    | ReturnValue _ k => visible k s1 = false /\ e = ReturnNotVisible
    | Value _ => e = UnknownArgumentType
    | SubplanValue q => fst (rec q s1) = Err e
    | _ => False
    end.
Proof.
  induction l as [|a rest IH]; intros st e H; [discriminate|].
  assert (Hcons : forall s',
            preplan_args rec c [a] st = (Ok tt, s') ->
            fst (preplan_args rec c rest s') = Err e ->
            exists pre a0 post s1,
              a :: rest = pre ++ a0 :: post /\
              preplan_args rec c pre st = (Ok tt, s1) /\
              match a0 with
              | ReturnValue _ k => visible k s1 = false /\ e = ReturnNotVisible
              | Value _ => e = UnknownArgumentType
              | SubplanValue q => fst (rec q s1) = Err e
              | _ => False
              end).
  { intros s' Ha Hr.
    destruct (IH s' e Hr) as (pre & a0 & post & s1 & -> & Hpre & Ha0).
    exists (a :: pre), a0, post, s1. split; [reflexivity|]. split; [|exact Ha0].
    change (a :: pre) with ([a] ++ pre). rewrite preplan_args_app, Ha. exact Hpre. }
  simpl in H. destruct a as [p|p v|p k| |q].
  - exists [], (Value p), rest, st. split; [reflexivity|]. split; [reflexivity|].
    simpl in H. congruence.
  - eapply Hcons; [reflexivity|exact H].
  - destruct (set_mem key_eqb k (seen st)) eqn:Ek.
    + eapply Hcons; [|exact H]. simpl. rewrite Ek. reflexivity.
    + exists [], (ReturnValue p k), rest, st.
      split; [reflexivity|]. split; [reflexivity|].
      simpl in H. split; [exact Ek|congruence].
  - eapply Hcons; [reflexivity|exact H].
  - destruct (rec q st) as [r s1] eqn:Eq. destruct r as [[]|e'|].
    + eapply Hcons; [|exact H]. simpl. rewrite Eq. reflexivity.
    + exists [], (SubplanValue q), rest, st.
      split; [reflexivity|]. split; [reflexivity|].
      rewrite Eq. simpl in *. congruence.
    + discriminate.
Qed.

(** [walk_raises] is what [_preplan] raises. *)
Lemma preplan_raises (h : Heap) (fuel : nat) : forall q st e,
  fst (preplan fuel h q st) = Err e -> walk_raises h fuel q st e.
Proof.
  induction fuel as [|fuel IH]; intros q st e H; [discriminate|].
  change (preplan (S fuel) h q st)
    with (if set_mem Nat.eqb q (planners st) then (Err PlannerContainsItself, st)
          else preplan_commands (preplan fuel h) (commands h q) (enter q st)) in H.
  destruct (set_mem Nat.eqb q (planners st)) eqn:Em.
  - injection H as <-. apply raises_cycle. exact Em.
  - apply preplan_commands_err_split in H.
    destruct H as (l1 & c & l2 & s1 & Hl & Hl1 & Hc).
    assert (Hat : at_command h fuel q st c s1).
    { split; [exact Em|]. exists l1, l2. split; assumption. }
    unfold preplan_command in Hc.
    destruct (inargs c) as [la|e'|] eqn:Ei.
    + assert (Ha : fst (preplan_args (preplan fuel h) c la s1) = Err e).
      { destruct (preplan_args (preplan fuel h) c la s1) as [r s2].
        destruct r as [[]|e'|]; simpl in *; congruence. }
      apply preplan_args_err_split in Ha.
      destruct Ha as (pre & a & post & s2 & -> & Hpre & Ha).
      assert (Harg : at_argument h fuel q st c a s2).
      { exists s1, pre, post. split; [exact Hat|]. split; assumption. }
      destruct a as [p|p v|p k| |q']; try contradiction.
      * subst e. eapply raises_unknown. exact Harg.
      * destruct Ha as [Hv ->]. eapply raises_not_visible; eassumption.
      * eapply raises_below; [exact Harg|]. apply IH. exact Ha.
    + simpl in Hc. injection Hc as <-.
      assert (e' = CallWithValueNeedsValue) as ->.
      { unfold inargs in Ei.
        destruct (Z.land (flags (call c)) CALLTYPE_MASK =? CALL_WITH_VALUE)%Z;
          [|discriminate].
        destruct (callvalue (call c)) as [[? ?]|]; [discriminate|].
        injection Ei as <-. reflexivity. }
      eapply raises_no_value; eassumption.
    + discriminate.
Qed.

Lemma at_argument_walk (h : Heap) (fuel q : nat) (st : PreState) (c : Command)
    (a : Arg) (s : PreState) (e : Error) :
  at_argument h fuel q st c a s ->
  (forall post, fst (preplan_args (preplan fuel h) c (a :: post) s) = Err e) ->
  fst (preplan (S fuel) h q st) = Err e.
Proof.
  intros (s1 & pre & post & (Em & l1 & l2 & Hl & Hl1) & Hi & Hpre) Ha.
  change (preplan (S fuel) h q st)
    with (if set_mem Nat.eqb q (planners st) then (Err PlannerContainsItself, st)
          else preplan_commands (preplan fuel h) (commands h q) (enter q st)).
  rewrite Em, Hl, preplan_commands_app, Hl1.
  cbn [preplan_commands]. unfold preplan_command. rewrite Hi.
  rewrite preplan_args_app, Hpre. specialize (Ha post).
  destruct (preplan_args (preplan fuel h) c (a :: post) s) as [r s2].
  simpl in Ha. subst r. reflexivity.
Qed.

(** And nothing else: a derivation gives the error of the walk. *)
Lemma walk_raises_sound (h : Heap) (fuel q : nat) (st : PreState) (e : Error) :
  walk_raises h fuel q st e -> fst (preplan fuel h q st) = Err e.
Proof.
  induction 1 as [fuel q st Em|fuel q st c s (Em & l1 & l2 & Hl & Hl1) Hi
                 |fuel q st c p k s Hat Hv|fuel q st c p s Hat
                 |fuel q st c q' s e Hat _ IH].
  - simpl. rewrite Em. reflexivity.
  - change (preplan (S fuel) h q st)
      with (if set_mem Nat.eqb q (planners st) then (Err PlannerContainsItself, st)
            else preplan_commands (preplan fuel h) (commands h q) (enter q st)).
    rewrite Em, Hl, preplan_commands_app, Hl1.
    cbn [preplan_commands]. unfold preplan_command. rewrite Hi. reflexivity.
  - apply (at_argument_walk h fuel q st c _ s _ Hat). intros post.
    simpl. unfold visible in Hv. rewrite Hv. reflexivity.
  - apply (at_argument_walk h fuel q st c _ s _ Hat). intros post. reflexivity.
  - apply (at_argument_walk h fuel q st c _ s _ Hat). intros post.
    simpl. destruct (preplan fuel h q' s) as [r s2]. simpl in IH. subst r.
    reflexivity.
Qed.

Section PlanCycle.
Variable isDynamicType : string -> bool.
Variable encode_bytes32_array : list bytes -> bytes.

(** C3, as amended: [plan] on a planner that contains itself, directly or
    through other planners, ends and fails in the visibility walk, with the
    error [e] that [walk_raises] derives, and no other is derived: the cycle
    error "A planner cannot contain itself" at the first subplan argument
    the walk comes to whose planner it has entered already, unless it comes
    before to a value call without value, to a return value that is not
    visible or to an argument of unknown type, and then the error of
    that. *)
Theorem plan_self_containing_fails (h : Heap) (self : nat) (g : Globals) :
  reaches h self self ->
  exists e,
    fst (plan isDynamicType encode_bytes32_array h self g) = Err e /\
    walk_raises h (S (List.length h)) self (plan_start g) e /\
    forall e', walk_raises h (S (List.length h)) self (plan_start g) e' -> e' = e.
Proof.
  intros Hcyc. unfold plan. fold (plan_start g).
  pose proof (preplan_raises h (S (List.length h)) self (plan_start g)) as Hr.
  pose proof (walk_raises_sound h (S (List.length h)) self (plan_start g)) as Hs.
  destruct (preplan (S (List.length h)) h self (plan_start g)) as [r st] eqn:Er.
  destruct r as [[]|e|].
  - exfalso. eapply preplan_ok_no_cycle; eauto.
  - exists e. split; [reflexivity|]. split; [apply Hr; reflexivity|].
    intros e' He'. apply Hs in He'. simpl in He'. congruence.
  - exfalso.
    apply (preplan_total h (S (List.length h)) self (plan_start g)).
    + pose proof (unvisited_le h (planners (plan_start g))). lia.
    + rewrite Er. reflexivity.
Qed.
End PlanCycle.

(** The planner of [test_forbid_infinite_loops]: the walk enters the
    planner, comes to its subplan argument, the planner itself, and raises
    the cycle error. *)
Lemma plan_self_containing_fails_witness :
  fst (plan sample_isDynamicType sample_encode_bytes32_array
         self_containing 0 fresh_globals) = Err PlannerContainsItself /\
  walk_raises self_containing 2 0 (plan_start fresh_globals) PlannerContainsItself.
Proof.
  destruct (plan_self_containing_fails sample_isDynamicType sample_encode_bytes32_array
              self_containing 0 fresh_globals) as (e & He & Hd & Hu).
  - apply reaches_one. eexists. split; [left; reflexivity|]. left. reflexivity.
  - assert (E : e = PlannerContainsItself).
    { pose proof He as He'. vm_compute in He'. congruence. }
    subst e. split; [exact He|exact Hd].
Defined.

(** C3, as stated, fails: this planner contains itself, and [plan] raises
    "Return value from 'add' is not visible here", not the cycle error. *)
Lemma plan_self_containing_other_error :
  reaches self_containing_after_unbound 0 0 /\
  fst (plan sample_isDynamicType sample_encode_bytes32_array
         self_containing_after_unbound 0 fresh_globals) = Err ReturnNotVisible /\
  ReturnNotVisible <> PlannerContainsItself.
Proof.
  split; [|split; [reflexivity|discriminate]].
  apply reaches_one. eexists. split; [right; left; reflexivity|]. left. reflexivity.
Qed.

(** ** A return value passed on *)

Lemma bytes_eqb_refl (a : bytes) : bytes_eqb a a = true.
Proof. unfold bytes_eqb. destruct (list_eq_dec Z.eq_dec a a); congruence. Qed.

Lemma bytes_eqb_neq (a b : bytes) : a <> b -> bytes_eqb a b = false.
Proof. unfold bytes_eqb. destruct (list_eq_dec Z.eq_dec a b); congruence. Qed.

Lemma bytes_eqb_eq (a b : bytes) : bytes_eqb a b = true <-> a = b.
Proof. unfold bytes_eqb. destruct (list_eq_dec Z.eq_dec a b); split; congruence. Qed.

(** C7: [sum = planner.add(math.add(1, 2)); planner.add(math.add(sum, 3))]
    plans to two commands and a state of three entries, the three literals;
    the return slot of the first command is slot 1, and slot 1 is the first
    argument of the second command.  [b1], [b2], [b3] are the encodings of
    1, 2 and 3. *)
Theorem plan_add_then_add_sum isDynamicType encode_bytes32_array
    (b1 b2 b3 : bytes) (id1 id2 : nat) :
  b1 <> b2 -> b1 <> b3 -> b2 <> b3 -> id1 <> id2 ->
  isDynamicType "uint256"%string = false ->
  let call1 := library_call id1 math_add
                 [LiteralValue "uint256" b1; LiteralValue "uint256" b2] in
  let call2 sum := library_call id2 math_add [sum; LiteralValue "uint256" b3] in
  exists sum h1 h2 w1 w2 g',
    add [[]] 0 call1 = (Ok (Some sum), h1) /\
    add h1 0 (call2 sum) = (Ok (Some (ReturnValue "uint256" (id2, CALL))), h2) /\
    plan isDynamicType encode_bytes32_array h2 0 fresh_globals
      = (Ok ([w1; w2], [b1; b2; b3]), g') /\
    w1 = standard_word {| call := call1; type := CALL |} DELEGATECALL [0; 1]%Z 1%Z /\
    w2 = standard_word {| call := call2 sum; type := CALL |} DELEGATECALL [1; 2]%Z 0xFF%Z /\
    nth 11 w1 0%Z = 1%Z /\ nth 5 w2 0%Z = 1%Z.
Proof.
  intros H12 H13 H23 Hid Hdyn call1 call2.
  assert (E12 := bytes_eqb_neq _ _ H12).
  assert (E13 := bytes_eqb_neq _ _ H13).
  assert (E23 := bytes_eqb_neq _ _ H23).
  assert (E21 : bytes_eqb b2 b1 = false) by (apply bytes_eqb_neq; congruence).
  assert (E31 : bytes_eqb b3 b1 = false) by (apply bytes_eqb_neq; congruence).
  assert (E32 : bytes_eqb b3 b2 = false) by (apply bytes_eqb_neq; congruence).
  assert (Eid : Nat.eqb id1 id2 = false) by (apply Nat.eqb_neq; exact Hid).
  assert (Eid' : Nat.eqb id2 id1 = false) by (apply Nat.eqb_neq; congruence).
  do 6 eexists.
  split; [reflexivity|]. split; [reflexivity|].
  split; [|split; [reflexivity|split; [reflexivity|split; reflexivity]]].
  subst call1 call2. unfold plan.
  repeat (progress (cbn -[bytes_eqb Nat.eqb];
    unfold key, key_eqb, library_call, expirations, expirations_append,
      buildCommand, buildCommandArgs, inargs, return_slot, encode_command, pop,
      HexBytes_int, hexConcat_ints, padArray, len;
    cbn -[bytes_eqb Nat.eqb];
    rewrite ?Nat.eqb_refl, ?Eid, ?Eid', ?bytes_eqb_refl,
            ?E12, ?E13, ?E23, ?E21, ?E31, ?E32, ?Hdyn)).
  reflexivity.
Qed.

(** With the 32-byte encodings of 1, 2 and 3. *)
Lemma plan_add_then_add_sum_witness :
  exists sum h1 h2 w1 w2 g',
    add [[]] 0 (library_call 1 math_add [lit 1; lit 2]) = (Ok (Some sum), h1) /\
    add h1 0 (library_call 2 math_add [sum; lit 3])
      = (Ok (Some (ReturnValue "uint256" (2, CALL))), h2) /\
    plan sample_isDynamicType sample_encode_bytes32_array h2 0 fresh_globals
      = (Ok ([w1; w2], [uint256 1; uint256 2; uint256 3]), g') /\
    w1 = standard_word {| call := library_call 1 math_add [lit 1; lit 2]; type := CALL |}
           DELEGATECALL [0; 1]%Z 1%Z /\
    w2 = standard_word {| call := library_call 2 math_add [sum; lit 3]; type := CALL |}
           DELEGATECALL [1; 2]%Z 0xFF%Z /\
    nth 11 w1 0%Z = 1%Z /\ nth 5 w2 0%Z = 1%Z.
Proof.
  apply (plan_add_then_add_sum sample_isDynamicType sample_encode_bytes32_array
           (uint256 1) (uint256 2) (uint256 3) 1 2);
    try (vm_compute; discriminate); try reflexivity; lia.
Defined.

(** ** The encoder and [add] on examples *)

(** [planner.add(c.execute(planner, planner.state))] on an empty planner. *)
Lemma add_rejects_subplan_after_append_witness :
  fst (add [[]] 0 (library_call 1 execute [SubplanValue 0; StateValue]))
    = Err OnlySubplansTakeSubplanValue /\
  List.length
    (commands (snd (add [[]] 0 (library_call 1 execute [SubplanValue 0; StateValue]))) 0)
    = 1.
Proof.
  destruct (add_rejects_subplan_after_append [[]] 0
              (library_call 1 execute [SubplanValue 0; StateValue]) 0)
    as (He & _ & Hl).
  - simpl. lia.
  - left. reflexivity.
  - split; [exact He|exact Hl].
Defined.

(** ** A call added twice *)

(** C2 does not hold of the code: here the return value of the third command
    is given slot 0 (byte 11 of its word) and is last read by the fifth
    command; yet the fourth command gets slot 0 for its own return value,
    and the fifth reads its two arguments (bytes 5 and 6) from that one
    slot.  The slots that expire at the command added twice were put on the
    free list once for each of the two equal commands. *)
Theorem plan_shares_slot_of_live_return_values :
  exists w1 w2 w3 w4 w5 st g',
    plan sample_isDynamicType sample_encode_bytes32_array call_added_twice 0 fresh_globals
      = (Ok ([w1; w2; w3; w4; w5], st), g') /\
    nth 11 w3 0%Z = 0%Z /\ nth 11 w4 0%Z = 0%Z /\
    nth 5 w5 0%Z = 0%Z /\ nth 6 w5 0%Z = 0%Z /\
    st = [uint256 1].
Proof.
  do 7 eexists. split; [vm_compute; reflexivity|].
  repeat split; reflexivity.
Qed.

(** With two call objects instead, the third and the fourth command get the
    slots 1 and 0, and the fifth reads them from there. *)
Lemma plan_two_calls_keep_live_return_values_apart :
  exists w1 w2 w3 w4 w5 st g',
    plan sample_isDynamicType sample_encode_bytes32_array two_calls_added 0 fresh_globals
      = (Ok ([w1; w2; w3; w4; w5], st), g') /\
    nth 11 w3 0%Z = 1%Z /\ nth 11 w4 0%Z = 0%Z /\
    nth 5 w5 0%Z = 1%Z /\ nth 6 w5 0%Z = 0%Z.
Proof.
  do 7 eexists. split; [vm_compute; reflexivity|].
  repeat split; reflexivity.
Qed.

(** ** Dicts *)

Section DictFacts.
Context {K V : Type}.
Variable eqb : K -> K -> bool.
Hypothesis eqb_eq : forall a b, eqb a b = true <-> a = b.

Lemma dict_get_set (d : list (K * V)) (k k' : K) (v : V) :
  dict_get eqb (dict_set eqb d k v) k'
  = if eqb k' k then Some v else dict_get eqb d k'.
Proof.
  induction d as [|[k0 v0] r IH]; simpl.
  - reflexivity.
  - destruct (eqb k k0) eqn:E; simpl.
    + apply eqb_eq in E. subst k0.
      destruct (eqb k' k); reflexivity.
    + rewrite IH. destruct (eqb k' k0) eqn:E0; [|reflexivity].
      apply eqb_eq in E0. subst k0.
      destruct (eqb k' k) eqn:E1; [|reflexivity].
      apply eqb_eq in E1. subst k'.
      assert (eqb k k = true) by (apply eqb_eq; reflexivity). congruence.
Qed.

Lemma dict_set_keys (d : list (K * V)) (k : K) (v : V) :
  map fst (dict_set eqb d k v)
  = if dict_mem eqb d k then map fst d else map fst d ++ [k].
Proof.
  unfold dict_mem. induction d as [|[k0 v0] r IH]; simpl.
  - reflexivity.
  - destruct (eqb k k0) eqn:E; simpl; [reflexivity|].
    rewrite IH. destruct (dict_get eqb r k); reflexivity.
Qed.

Lemma dict_get_In (d : list (K * V)) (k : K) :
  dict_get eqb d k <> None <-> In k (map fst d).
Proof.
  induction d as [|[k0 v0] r IH]; simpl.
  - split; [congruence|contradiction].
  - destruct (eqb k k0) eqn:E.
    + apply eqb_eq in E. subst. split; [auto|discriminate].
    + rewrite IH. split; [auto|].
      intros [H|H]; [|exact H]. subst k0.
      assert (eqb k k = true) by (apply eqb_eq; reflexivity). congruence.
Qed.

Lemma dict_set_keys_NoDup (d : list (K * V)) (k : K) (v : V) :
  NoDup (map fst d) -> NoDup (map fst (dict_set eqb d k v)).
Proof.
  intros Hn. rewrite dict_set_keys. unfold dict_mem.
  destruct (dict_get eqb d k) eqn:E; [exact Hn|].
  assert (Hk : ~ In k (map fst d)).
  { intros Hin. apply dict_get_In in Hin. congruence. }
  apply NoDup_app; repeat split; auto.
  - constructor; [intros []|constructor].
  - intros x Hx [Hx'|Hx']; [subst x; contradiction|destruct Hx'].
Qed.

Lemma dict_set_keys_In (d : list (K * V)) (k k' : K) (v : V) :
  In k' (map fst d) \/ k' = k -> In k' (map fst (dict_set eqb d k v)).
Proof.
  intros H. rewrite dict_set_keys. unfold dict_mem.
  destruct (dict_get eqb d k) eqn:E.
  - destruct H as [H | ->]; [exact H|]. apply dict_get_In. congruence.
  - apply in_or_app. destruct H as [H| ->]; [left; exact H|right; left; reflexivity].
Qed.
End DictFacts.

Lemma key_eqb_eq (a b : CommandKey) : key_eqb a b = true <-> a = b.
Proof.
  destruct a as [i s], b as [j t]. unfold key_eqb. simpl.
  rewrite andb_true_iff, Nat.eqb_eq. split.
  - intros [-> H]. destruct s, t; simpl in H; congruence.
  - intros H. injection H as -> ->. split; [reflexivity|]. destruct t; reflexivity.
Qed.

(** ** What the walk records *)

Section PreplanInvariant.
Variable I : PreState -> Prop.
Hypothesis I_cv : forall st c k,
  I st -> I (set_commandVisibility (dict_set key_eqb (commandVisibility st) c k) st).
Hypothesis I_lv : forall st v k,
  I st -> I (set_literalVisibility (dict_set bytes_eqb (literalVisibility st) v k) st).
Hypothesis I_seen : forall st st0 k,
  I st0 -> I st -> (I (set_seen (seen st0) st) /\ I (set_seen (k :: seen st) st)).
Hypothesis I_enter : forall st self, I st -> I (enter self st).

(** A property kept by every primitive step is kept by the whole walk,
    whatever its outcome. *)
Lemma preplan_inv (h : Heap) (fuel : nat) : forall self st,
  I st -> I (snd (preplan fuel h self st)).
Proof.
  induction fuel as [|fuel IH]; intros self st Hst; simpl; auto.
  destruct (set_mem Nat.eqb self (planners st)); simpl; auto.
  apply preplan_commands_inv with (I := I); auto.
  apply (I_enter st self Hst).
Qed.

End PreplanInvariant.

Section WalkRecords.
(** [I] does not look at [seen], and every step of the walk keeps it. *)
Variable I : PreState -> Prop.
Hypothesis I_cv : forall st c k,
  I st -> I (set_commandVisibility (dict_set key_eqb (commandVisibility st) c k) st).
Hypothesis I_lv : forall st v k,
  I st -> I (set_literalVisibility (dict_set bytes_eqb (literalVisibility st) v k) st).
Hypothesis I_any_seen : forall st s, I st -> I (set_seen s st).
Hypothesis I_enter : forall st self, I st -> I (enter self st).

Lemma I_seen_of_any : forall st st0 k,
  I st0 -> I st -> (I (set_seen (seen st0) st) /\ I (set_seen (k :: seen st) st)).
Proof. intros st st0 k _ Hs. split; apply I_any_seen; exact Hs. Qed.

Section Loop.
Variable rec : nat -> PreState -> res unit * PreState.
Hypothesis I_rec : forall q st, I st -> I (snd (rec q st)).
(** [a] is an argument whose walk establishes [I]: a literal or a return
    value by what is recorded for it, a subplan by its successful walk. *)
Variable a : Arg.
Hypothesis I_arg : forall c st,
  match a with
  | LiteralValue _ v =>
    I (set_literalVisibility (dict_set bytes_eqb (literalVisibility st) v (key c)) st)
  | ReturnValue _ k =>
    I (set_commandVisibility (dict_set key_eqb (commandVisibility st) k (key c)) st)
  | SubplanValue q => forall st', rec q st = (Ok tt, st') -> I st'
  | _ => False
  end.

Lemma preplan_args_records (c : Command) (l : list Arg) : forall st,
  In a l -> fst (preplan_args rec c l st) = Ok tt ->
  I (snd (preplan_args rec c l st)).
Proof.
  induction l as [|arg rest IH]; intros st Hin Hok; [contradiction|].
  destruct Hin as [->|Hin].
  - pose proof (I_arg c st) as Ha.
    destruct a as [p|p v|p k| |q]; try contradiction; simpl in *.
    + apply preplan_args_inv; auto using I_seen_of_any.
    + destruct (set_mem key_eqb k (seen st)); [|discriminate].
      apply preplan_args_inv; auto using I_seen_of_any.
    + destruct (rec q st) as [r s1]. destruct r as [[]|e|]; try discriminate.
      specialize (Ha s1 eq_refl).
      apply preplan_args_inv; auto using I_seen_of_any.
      destruct (outputs (fragment (call c))); auto.
  - simpl in *. destruct arg as [p|p v|p k| |q]; try discriminate; auto.
    + destruct (set_mem key_eqb k (seen st)); [|discriminate]. auto.
    + destruct (rec q st) as [r s1]. destruct r as [[]|e|]; try discriminate.
      apply IH; assumption.
Qed.

Lemma preplan_commands_records (l : list Command) (c : Command) : forall st,
  In c l -> In a (args (call c)) ->
  fst (preplan_commands rec l st) = Ok tt ->
  I (snd (preplan_commands rec l st)).
Proof.
  induction l as [|c0 rest IH]; intros st Hc Ha Hok; [contradiction|].
  simpl in *.
  destruct Hc as [->|Hc].
  - unfold preplan_command in *.
    destruct (inargs c) as [la|e|] eqn:Ei; try discriminate.
    pose proof (preplan_args_records c la st (inargs_args c la a Ei Ha)) as Hr.
    destruct (preplan_args rec c la st) as [r s1].
    destruct r as [[]|e|]; try discriminate.
    apply preplan_commands_inv; auto using I_seen_of_any.
  - destruct (preplan_command rec c0 st) as [r s1].
    destruct r as [[]|e|]; try discriminate. auto.
Qed.
End Loop.

Variable a : Arg.
Hypothesis I_a : forall c st,
  match a with
  | LiteralValue _ v =>
    I (set_literalVisibility (dict_set bytes_eqb (literalVisibility st) v (key c)) st)
  | ReturnValue _ k =>
    I (set_commandVisibility (dict_set key_eqb (commandVisibility st) k (key c)) st)
  | _ => False
  end.

(** [I] holds after the successful walk of a planner, when a command with
    the argument [a] is in a planner the walk comes to. *)
Lemma preplan_records (h : Heap) (self q : nat) (c : Command) :
  walked_under h self q ->
  In c (commands h q) -> In a (args (call c)) ->
  forall fuel st,
  fst (preplan fuel h self st) = Ok tt ->
  I (snd (preplan fuel h self st)).
Proof.
  intros Hw Hc Ha.
  induction Hw as [p|p q r (c1 & Hc1 & Ha1) Hw IH]; intros fuel st Hok;
    (destruct fuel as [|fuel]; [discriminate|]); simpl in *;
    (destruct (set_mem Nat.eqb p (planners st)); [discriminate|]).
  - apply preplan_commands_records with (a := a) (c := c); auto.
    + intros q s Hs. apply preplan_inv; auto using I_seen_of_any.
    + intros c0 s. pose proof (I_a c0 s) as H.
      destruct a; try contradiction; exact H.
  - apply preplan_commands_records with (a := SubplanValue q) (c := c1); auto.
    + intros q0 s Hs. apply preplan_inv; auto using I_seen_of_any.
    + intros c0 s s' Hs. specialize (IH Hc fuel s). rewrite Hs in IH.
      apply IH. reflexivity.
Qed.
End WalkRecords.

(** ** The literal slots *)

Lemma prepopulate_fold (lv : list (bytes * CommandKey)) : forall st lsm exps,
  slots_sound st lsm ->
  let '(st', lsm', _) := fold_left prepopulate_step lv (st, lsm, exps) in
  slots_sound st' lsm' /\ st' = st ++ map fst lv.
Proof.
  induction lv as [|[literal lastCommand] r IH]; intros st lsm exps [H1 H2]; simpl.
  - split; [split; assumption|]. rewrite app_nil_r. reflexivity.
  - specialize (IH (st ++ [literal]) (dict_set bytes_eqb lsm literal (len st))
                   (expirations_append exps lastCommand (len st))).
    destruct (fold_left prepopulate_step r
                (st ++ [literal], dict_set bytes_eqb lsm literal (len st),
                 expirations_append exps lastCommand (len st)))
      as [[st' lsm'] exps'].
    destruct IH as [Hs ->].
    + split.
      * intros b s. rewrite (dict_get_set bytes_eqb bytes_eqb_eq).
        destruct (bytes_eqb b literal) eqn:E.
        -- apply bytes_eqb_eq in E. subst b. intros H. injection H as <-.
           unfold len. split; [lia|]. rewrite Nat2Z.id.
           rewrite nth_error_app2 by lia. rewrite Nat.sub_diag. reflexivity.
        -- intros H. destruct (H1 b s H) as [Hs0 Hn]. split; [exact Hs0|].
           rewrite nth_error_app1; [exact Hn|].
           apply nth_error_Some. congruence.
      * intros b Hb. rewrite (dict_get_set bytes_eqb bytes_eqb_eq).
        destruct (bytes_eqb b literal) eqn:E; [discriminate|].
        apply in_app_or in Hb. destruct Hb as [Hb|[Hb|[]]]; [auto|].
        subst b. rewrite bytes_eqb_refl in E. discriminate.
    + split; [exact Hs|]. rewrite <- app_assoc. reflexivity.
Qed.

Lemma prepopulate_spec (lv : list (bytes * CommandKey)) :
  let '(st, lsm, _) := prepopulate lv in
  slots_sound st lsm /\ st = map fst lv.
Proof.
  unfold prepopulate.
  pose proof (prepopulate_fold lv [] [] []) as H.
  destruct (fold_left prepopulate_step lv ([], [], [])) as [[st lsm] exps].
  apply H. split.
  - intros b s H0. discriminate.
  - intros b [].
Qed.

(** ** What the encoder leaves alone *)

Section EncoderFacts.
Variable isDynamicType : string -> bool.
Variable encode_bytes32_array : list bytes -> bytes.

(** [subplans]: the planners at hand hold some SUBPLAN command. *)
Variable subplans : Prop.

Lemma extends_refl (ps : PlannerState) : extends encode_bytes32_array subplans ps ps.
Proof.
  repeat split. exists []. rewrite app_nil_r. split; [reflexivity|constructor].
Qed.

Lemma extends_trans (a b c : PlannerState) :
  extends encode_bytes32_array subplans a b ->
  extends encode_bytes32_array subplans b c ->
  extends encode_bytes32_array subplans a c.
Proof.
  intros (H1 & H2 & x & Hx & Fx) (H3 & H4 & y & Hy & Fy).
  split; [congruence|]. split; [congruence|].
  exists (x ++ y). rewrite Hy, Hx, app_assoc. split; [reflexivity|].
  apply Forall_app. split; assumption.
Qed.

Lemma return_slot_extends (c : Command) (ps ps' : PlannerState) (ret : Z) :
  return_slot isDynamicType c ps = Ok (ret, ps') ->
  extends encode_bytes32_array subplans ps ps'.
Proof.
  unfold return_slot.
  destruct (dict_get key_eqb (ps_commandVisibility ps) (key c)).
  - destruct (is_state_replacing (type c)); [discriminate|].
    destruct (pop (freeSlots ps)) as [[s r]|];
      match goal with
      | |- context [if ?b then state ps ++ _ else _] => destruct b
      end; intros H; injection H as _ <-; repeat split; simpl;
      try (exists [[]]; split; [reflexivity|]; repeat constructor);
      try (exists []; rewrite app_nil_r; split; [reflexivity|constructor]).
  - intros H. injection H as _ <-. apply extends_refl.
Qed.

Lemma buildCommand_extends (c : Command) (ps ps' : PlannerState) (words : list bytes) :
  buildCommand isDynamicType c ps = Ok (words, ps') ->
  extends encode_bytes32_array subplans ps ps'.
Proof.
  intros H. apply buildCommand_inv in H. destruct H as (cargs & ret & _ & E & _).
  apply return_slot_extends in E. exact E.
Qed.

Section Loop.
Variable rec : nat -> PlannerState -> res (list bytes * PlannerState).
Hypothesis rec_extends : forall q ps r ps', rec q ps = Ok (r, ps') ->
  extends encode_bytes32_array subplans ps ps'.

Lemma build_subplan_extends (c : Command) (ps ps' : PlannerState) :
  (type c = SUBPLAN -> subplans) ->
  build_subplan encode_bytes32_array rec c ps = Ok ps' ->
  extends encode_bytes32_array subplans ps ps'.
Proof.
  intros Hsub.
  unfold build_subplan. destruct (type c);
    try (intros H; injection H as <-; apply extends_refl).
  destruct (find_subplan (args (call c))) as [q|]; [|discriminate].
  destruct (rec q ps) as [[sub ps1]|e|] eqn:E; try discriminate.
  destruct (forallb fits_bytes32 sub); [|discriminate].
  intros H. injection H as <-.
  apply rec_extends in E. eapply extends_trans; [exact E|].
  repeat split; simpl. eexists. split; [reflexivity|].
  constructor; [|constructor]. right. split; [auto|]. eexists. reflexivity.
Qed.

Lemma buildCommands_loop_extends (l : list Command) : forall acc ps r ps',
  (forall c, In c l -> type c = SUBPLAN -> subplans) ->
  buildCommands_loop isDynamicType encode_bytes32_array rec l acc ps = Ok (r, ps') ->
  extends encode_bytes32_array subplans ps ps'.
Proof.
  induction l as [|c rest IH]; intros acc ps r ps' Hsub H; simpl in H.
  - injection H as _ <-. apply extends_refl.
  - destruct (build_subplan encode_bytes32_array rec c ps) as [ps1|e|] eqn:E1;
      try discriminate.
    destruct (buildCommand isDynamicType c ps1) as [[w ps2]|e|] eqn:E2;
      try discriminate.
    apply build_subplan_extends in E1; [|apply Hsub; left; reflexivity].
    apply buildCommand_extends in E2.
    apply IH in H; [|intros c' Hc'; apply Hsub; right; exact Hc'].
    eauto using extends_trans.
Qed.
End Loop.

Lemma buildCommands_extends (h : Heap) (fuel : nat) :
  (forall p c, In c (commands h p) -> type c = SUBPLAN -> subplans) ->
  forall self ps r ps',
  buildCommands isDynamicType encode_bytes32_array fuel h self ps = Ok (r, ps') ->
  extends encode_bytes32_array subplans ps ps'.
Proof.
  intros Hsub.
  induction fuel as [|fuel IH]; intros self ps r ps' H; [discriminate|].
  simpl in H. eapply buildCommands_loop_extends; [exact IH| |exact H].
  intros c Hc. apply (Hsub self c Hc).
Qed.
End EncoderFacts.

(** ** Literal deduplication *)

Lemma preplan_literal_keys_NoDup (h : Heap) (fuel self : nat) (st : PreState) :
  NoDup (map fst (literalVisibility st)) ->
  NoDup (map fst (literalVisibility (snd (preplan fuel h self st)))).
Proof.
  apply preplan_inv with (I := fun s => NoDup (map fst (literalVisibility s)));
    simpl; auto.
  intros s v k Hs. apply (dict_set_keys_NoDup bytes_eqb bytes_eqb_eq). exact Hs.
Qed.

Lemma preplan_records_literal (h : Heap) (fuel self q : nat) (c : Command)
    (st : PreState) (p : string) (b : bytes) :
  walked_under h self q ->
  In c (commands h q) -> In (LiteralValue p b) (args (call c)) ->
  fst (preplan fuel h self st) = Ok tt ->
  In b (map fst (literalVisibility (snd (preplan fuel h self st)))).
Proof.
  intros Hw Hc Ha.
  apply preplan_records
    with (I := fun s => In b (map fst (literalVisibility s)))
         (a := LiteralValue p b) (q := q) (c := c); auto.
  - intros s v k Hs. simpl.
    apply (dict_set_keys_In bytes_eqb bytes_eqb_eq). left. exact Hs.
  - intros c0 s. simpl.
    apply (dict_set_keys_In bytes_eqb bytes_eqb_eq). right. reflexivity.
Qed.

Lemma buildCommandArgs_loop_literal isDynamicType (l : list Arg)
    (rsm : list (CommandKey * Z)) (lsm : list (bytes * Z)) (st : list bytes) :
  forall cargs i p b slot,
  buildCommandArgs_loop isDynamicType l rsm lsm st = Ok cargs ->
  nth_error l i = Some (LiteralValue p b) ->
  dict_get bytes_eqb lsm b = Some slot ->
  nth_error cargs i = Some (if isDynamicType p then Z.lor slot 0x80 else slot).
Proof.
  induction l as [|arg rest IH]; intros cargs i p b slot Hb Hn Hs.
  - destruct i; discriminate.
  - simpl in Hb.
    match type of Hb with
    | match ?X with _ => _ end = _ => destruct X as [s|e|] eqn:Es
    end; try discriminate.
    destruct (buildCommandArgs_loop isDynamicType rest rsm lsm st) as [r|e|] eqn:Er;
      try discriminate.
    injection Hb as <-.
    destruct i as [|i]; simpl in *.
    + injection Hn as ->. simpl in Es. rewrite Hs in Es. injection Es as <-.
      reflexivity.
    + eapply IH; eauto.
Qed.

(** ** Termination of the encoder *)

Lemma find_subplan_In (l : list Arg) (q : nat) :
  find_subplan l = Some q -> In (SubplanValue q) l.
Proof.
  induction l as [|a r IH]; simpl; [discriminate|].
  destruct a; auto. intros H. injection H as ->. left. reflexivity.
Qed.

Lemma buildCommandArgs_loop_total isDynamicType (l : list Arg) rsm lsm st :
  buildCommandArgs_loop isDynamicType l rsm lsm st <> OutOfFuel.
Proof.
  induction l as [|a r IH]; simpl; [discriminate|].
  destruct a as [p|p v|p k| |q]; try discriminate;
    try destruct (dict_get key_eqb rsm k); try destruct (dict_get bytes_eqb lsm v);
    try discriminate;
    destruct (buildCommandArgs_loop isDynamicType r rsm lsm st); congruence.
Qed.

Lemma return_slot_total isDynamicType (c : Command) (ps : PlannerState) :
  return_slot isDynamicType c ps <> OutOfFuel.
Proof.
  unfold return_slot.
  destruct (dict_get key_eqb (ps_commandVisibility ps) (key c)).
  - destruct (is_state_replacing (type c)); [discriminate|].
    destruct (pop (freeSlots ps)) as [[s r]|]; discriminate.
  - discriminate.
Qed.

Lemma buildCommandArgs_total isDynamicType (c : Command) rsm lsm st :
  buildCommandArgs isDynamicType c rsm lsm st <> OutOfFuel.
Proof.
  unfold buildCommandArgs.
  destruct (inargs c) as [l|e|] eqn:Ei.
  - apply buildCommandArgs_loop_total.
  - discriminate.
  - unfold inargs in Ei.
    destruct (Z.land (flags (call c)) CALLTYPE_MASK =? CALL_WITH_VALUE)%Z;
      [destruct (callvalue (call c)) as [[? ?]|]|]; discriminate.
Qed.

Lemma buildCommand_total isDynamicType (c : Command) (ps : PlannerState) :
  buildCommand isDynamicType c ps <> OutOfFuel.
Proof.
  apply buildCommand_not_OutOfFuel_of_args.
  - apply buildCommandArgs_total.
  - apply return_slot_total.
Qed.

Section BuildTotal.
Variable isDynamicType : string -> bool.
Variable encode_bytes32_array : list bytes -> bytes.
Variable rec1 : nat -> PreState -> res unit * PreState.
Variable rec2 : nat -> PlannerState -> res (list bytes * PlannerState).
(** Where the walk of a planner succeeded, its encoding does not run out of
    fuel. *)
Hypothesis sim : forall q st st',
  rec1 q st = (Ok tt, st') -> forall ps, rec2 q ps <> OutOfFuel.

Lemma preplan_command_walks (c : Command) (q : nat) (st st' : PreState) :
  In (SubplanValue q) (args (call c)) ->
  preplan_command rec1 c st = (Ok tt, st') ->
  exists s s', rec1 q s = (Ok tt, s').
Proof.
  intros Hin Hok. unfold preplan_command in Hok.
  destruct (inargs c) as [la|e|] eqn:Ei; try discriminate.
  pose proof (preplan_args_records (fun _ => exists s s', rec1 q s = (Ok tt, s'))
                ltac:(auto) ltac:(auto) ltac:(auto) rec1 ltac:(auto) (SubplanValue q)
                ltac:(simpl; eauto) c la st (inargs_args c la _ Ei Hin)) as H.
  destruct (preplan_args rec1 c la st) as [r s1].
  destruct r as [[]|e|]; try discriminate.
  apply H. reflexivity.
Qed.

Lemma buildCommands_loop_total (l : list Command) : forall st st',
  preplan_commands rec1 l st = (Ok tt, st') ->
  forall acc ps,
  buildCommands_loop isDynamicType encode_bytes32_array rec2 l acc ps <> OutOfFuel.
Proof.
  induction l as [|c rest IH]; intros st st' Hok acc ps; simpl; [discriminate|].
  simpl in Hok.
  destruct (preplan_command rec1 c st) as [r s1] eqn:Ec.
  destruct r as [[]|e|]; try discriminate.
  assert (Hs : build_subplan encode_bytes32_array rec2 c ps <> OutOfFuel).
  { unfold build_subplan. destruct (type c); try discriminate.
    destruct (find_subplan (args (call c))) as [q|] eqn:Ef; [|discriminate].
    apply find_subplan_In in Ef.
    destruct (preplan_command_walks c q st s1 Ef Ec) as (s & s' & Hq).
    pose proof (sim q s s' Hq ps) as Ht.
    destruct (rec2 q ps) as [[sub ps1]|e|]; try congruence.
    destruct (forallb fits_bytes32 sub); discriminate. }
  destruct (build_subplan encode_bytes32_array rec2 c ps) as [ps1|e|];
    try congruence; try discriminate.
  pose proof (buildCommand_total isDynamicType c ps1) as Hb.
  destruct (buildCommand isDynamicType c ps1) as [[w ps2]|e|];
    try congruence; try discriminate.
  eapply IH. exact Hok.
Qed.
End BuildTotal.

Lemma buildCommands_total isDynamicType encode_bytes32_array (h : Heap) (fuel : nat) :
  forall self st st',
  preplan fuel h self st = (Ok tt, st') ->
  forall ps, buildCommands isDynamicType encode_bytes32_array fuel h self ps <> OutOfFuel.
Proof.
  induction fuel as [|fuel IH]; intros self st st' Hok ps; [discriminate|].
  simpl in *. destruct (set_mem Nat.eqb self (planners st)); [discriminate|].
  eapply buildCommands_loop_total; [|exact Hok]. exact IH.
Qed.

(** [plan] ends: neither recursion uses up its fuel. *)
Lemma plan_terminates isDynamicType encode_bytes32_array
    (h : Heap) (self : nat) (g : Globals) :
  fst (plan isDynamicType encode_bytes32_array h self g) <> OutOfFuel.
Proof.
  unfold plan. fold (plan_start g).
  assert (Ht : fst (preplan (S (List.length h)) h self (plan_start g)) <> OutOfFuel).
  { apply preplan_total.
    pose proof (unvisited_le h (planners (plan_start g))). lia. }
  destruct (preplan (S (List.length h)) h self (plan_start g)) as [r st] eqn:Ep.
  destruct r as [[]|e|]; cbn [fst] in *.
  - destruct (prepopulate (literalVisibility st)) as [[st0 lsm] exps].
    match goal with
    | |- fst (match ?X with _ => _ end) <> _ =>
      pose proof (buildCommands_total isDynamicType encode_bytes32_array h
                    (S (List.length h)) self (plan_start g) st Ep) as Hb;
      destruct X as [[ec ps']|e|] eqn:Eb
    end; simpl; try discriminate.
    exfalso. eapply Hb. exact Eb.
  - discriminate.
  - exfalso. apply Ht. reflexivity.
Qed.

(** ** State-replacing commands whose return value is consumed *)

Lemma return_slot_rejects isDynamicType (c : Command) (ps : PlannerState) :
  is_state_replacing (type c) = true ->
  dict_get key_eqb (ps_commandVisibility ps) (key c) <> None ->
  return_slot isDynamicType c ps = Err ReplaceStateAndUse.
Proof.
  intros Ht Hk. unfold return_slot.
  destruct (dict_get key_eqb (ps_commandVisibility ps) (key c)); [|congruence].
  rewrite Ht. reflexivity.
Qed.

Section BuildRejects.
Variable isDynamicType : string -> bool.
Variable encode_bytes32_array : list bytes -> bytes.
Variable cv : list (CommandKey * CommandKey).

Section Loop.
Variable rec : nat -> PlannerState -> res (list bytes * PlannerState).
Hypothesis rec_extends : forall q ps r ps',
  rec q ps = Ok (r, ps') -> extends encode_bytes32_array True ps ps'.

Lemma buildCommands_loop_rejects (l : list Command) (c : Command) :
  In c l -> fails_at isDynamicType encode_bytes32_array cv rec c ->
  forall acc ps r ps',
  ps_commandVisibility ps = cv ->
  buildCommands_loop isDynamicType encode_bytes32_array rec l acc ps <> Ok (r, ps').
Proof.
  intros Hin Hbad. induction l as [|c0 rest IH]; intros acc ps r ps' Hcv H;
    [contradiction|].
  simpl in H.
  destruct (build_subplan encode_bytes32_array rec c0 ps) as [ps1|e|] eqn:E1;
    try discriminate.
  destruct (buildCommand isDynamicType c0 ps1) as [[w ps2]|e|] eqn:E2;
    try discriminate.
  destruct Hin as [->|Hin].
  - exact (Hbad ps ps1 w ps2 Hcv E1 E2).
  - apply (IH Hin (acc ++ w) ps2 r ps'); [|exact H].
    apply build_subplan_extends with (subplans := True) in E1; auto.
    apply buildCommand_extends with (encode_bytes32_array := encode_bytes32_array)
                                    (subplans := True) in E2.
    destruct E1 as (_ & H1 & _). destruct E2 as (_ & H2 & _). congruence.
Qed.

Lemma consumed_fails_at (c : Command) :
  is_state_replacing (type c) = true ->
  dict_get key_eqb cv (key c) <> None ->
  fails_at isDynamicType encode_bytes32_array cv rec c.
Proof.
  intros Ht Hk ps ps1 w ps2 Hcv E1 E2.
  apply build_subplan_extends with (subplans := True) in E1; auto.
  destruct E1 as (_ & H1 & _).
  apply buildCommand_inv in E2. destruct E2 as (cargs & ret & _ & E2 & _).
  rewrite return_slot_rejects in E2; [discriminate|exact Ht|].
  simpl. rewrite H1, Hcv. exact Hk.
Qed.

Lemma subplan_fails_at (c : Command) (q : nat) :
  type c = SUBPLAN -> find_subplan (args (call c)) = Some q ->
  (forall ps r ps', ps_commandVisibility ps = cv -> rec q ps <> Ok (r, ps')) ->
  fails_at isDynamicType encode_bytes32_array cv rec c.
Proof.
  intros Ht Hf Hq ps ps1 w ps2 Hcv E1 _.
  unfold build_subplan in E1. rewrite Ht, Hf in E1.
  destruct (rec q ps) as [[sub ps']|e|] eqn:E; try discriminate.
  exact (Hq ps sub ps' Hcv E).
Qed.
End Loop.

(** The encoder does not succeed on a planner under which it comes to a
    state-replacing command that the visibility map lists as consumed. *)
Lemma buildCommands_rejects (h : Heap) (self q : nat) (c : Command) :
  encoded_under h self q ->
  In c (commands h q) ->
  is_state_replacing (type c) = true ->
  dict_get key_eqb cv (key c) <> None ->
  forall fuel ps r ps',
  ps_commandVisibility ps = cv ->
  buildCommands isDynamicType encode_bytes32_array fuel h self ps <> Ok (r, ps').
Proof.
  intros Hu Hc Ht Hk.
  assert (Hext : forall fuel q0 ps r ps',
            buildCommands isDynamicType encode_bytes32_array fuel h q0 ps = Ok (r, ps') ->
            extends encode_bytes32_array True ps ps').
  { intros fuel. apply buildCommands_extends. auto. }
  induction Hu as [p|p q r (cs & Hcs & Hts & Hfs) Hu IH]; intros fuel ps r0 ps' Hcv;
    (destruct fuel as [|fuel]; [discriminate|]); simpl.
  - apply buildCommands_loop_rejects with (c := c); auto.
    + apply Hext.
    + apply consumed_fails_at; auto. apply Hext.
  - apply buildCommands_loop_rejects with (c := cs); auto.
    + apply Hext.
    + apply subplan_fails_at with (q := q); auto.
Qed.
End BuildRejects.

Lemma preplan_walk_error (h : Heap) (fuel self : nat) (st : PreState) (e : Error) :
  fst (preplan fuel h self st) = Err e -> walk_error e.
Proof.
  intros H. apply preplan_err in H. unfold walk_error.
  destruct H as [->|(p & c & _ & [[-> _]|[[-> _]|[-> _]]])]; auto.
Qed.

Lemma buildCommandArgs_loop_error isDynamicType (l : list Arg) rsm lsm st (e : Error) :
  buildCommandArgs_loop isDynamicType l rsm lsm st = Err e ->
  e = KeyError \/ e = UnknownArgumentType.
Proof.
  induction l as [|a r IH]; simpl; [discriminate|].
  destruct a as [p|p v|p k| |q];
    try destruct (dict_get key_eqb rsm k); try destruct (dict_get bytes_eqb lsm v);
    try (intros H; injection H as <-; auto; fail);
    destruct (buildCommandArgs_loop isDynamicType r rsm lsm st);
    try discriminate; auto.
Qed.

Lemma buildCommandArgs_error isDynamicType (c : Command) rsm lsm st (e : Error) :
  buildCommandArgs isDynamicType c rsm lsm st = Err e ->
  e = KeyError \/ e = UnknownArgumentType \/ e = CallWithValueNeedsValue.
Proof.
  unfold buildCommandArgs.
  destruct (inargs c) as [l|e0|] eqn:Ei.
  - intros Ea. apply buildCommandArgs_loop_error in Ea. destruct Ea as [->| ->]; auto.
  - intros H. injection H as <-. unfold inargs in Ei.
    destruct (Z.land (flags (call c)) CALLTYPE_MASK =? CALL_WITH_VALUE)%Z;
      [destruct (callvalue (call c)) as [[? ?]|]|]; try discriminate.
    injection Ei as <-. auto.
  - discriminate.
Qed.

Lemma return_slot_error isDynamicType (c : Command) (ps : PlannerState) (e : Error) :
  return_slot isDynamicType c ps = Err e ->
  e = ReplaceStateAndUse /\ is_state_replacing (type c) = true /\
  dict_get key_eqb (ps_commandVisibility ps) (key c) <> None.
Proof.
  unfold return_slot.
  destruct (dict_get key_eqb (ps_commandVisibility ps) (key c)); [|discriminate].
  destruct (is_state_replacing (type c)).
  - intros H. injection H as <-. repeat split; congruence.
  - destruct (pop (freeSlots ps)) as [[s r]|]; discriminate.
Qed.

Lemma preplan_records_return (h : Heap) (fuel self q : nat) (c : Command)
    (st : PreState) (p : string) (k : CommandKey) :
  walked_under h self q ->
  In c (commands h q) -> In (ReturnValue p k) (args (call c)) ->
  fst (preplan fuel h self st) = Ok tt ->
  dict_get key_eqb (commandVisibility (snd (preplan fuel h self st))) k <> None.
Proof.
  intros Hw Hc Ha Hok.
  apply (dict_get_In key_eqb key_eqb_eq).
  revert Hok. apply preplan_records
    with (I := fun s => In k (map fst (commandVisibility s)))
         (a := ReturnValue p k) (q := q) (c := c); auto.
  - intros s c0 k0 Hs. simpl.
    apply (dict_set_keys_In key_eqb key_eqb_eq). left. exact Hs.
  - intros c0 s. simpl.
    apply (dict_set_keys_In key_eqb key_eqb_eq). right. reflexivity.
Qed.

(** ** Where the encoder stands *)

Section EncoderRun.
Variable isDynamicType : string -> bool.
Variable encode_bytes32_array : list bytes -> bytes.

Lemma buildCommands_loop_acc
    (rec : nat -> PlannerState -> res (list bytes * PlannerState))
    (l : list Command) : forall acc ps,
  buildCommands_loop isDynamicType encode_bytes32_array rec l acc ps
  = match buildCommands_loop isDynamicType encode_bytes32_array rec l [] ps with
    | Ok (out, ps') => Ok (acc ++ out, ps')
    | Err e => Err e
    | OutOfFuel => OutOfFuel
    end.
Proof.
  induction l as [|c rest IH]; intros acc ps; simpl.
  - rewrite app_nil_r. reflexivity.
  - destruct (build_subplan encode_bytes32_array rec c ps) as [ps1|e|]; auto.
    destruct (buildCommand isDynamicType c ps1) as [[w ps2]|e|]; auto.
    rewrite (IH (acc ++ w)), (IH w).
    destruct (buildCommands_loop isDynamicType encode_bytes32_array rec rest [] ps2)
      as [[out ps3]|e|]; auto.
    rewrite app_assoc. reflexivity.
Qed.

Lemma buildCommands_loop_app
    (rec : nat -> PlannerState -> res (list bytes * PlannerState))
    (l1 l2 : list Command) : forall acc ps,
  buildCommands_loop isDynamicType encode_bytes32_array rec (l1 ++ l2) acc ps
  = match buildCommands_loop isDynamicType encode_bytes32_array rec l1 acc ps with
    | Ok (out, ps1) =>
      buildCommands_loop isDynamicType encode_bytes32_array rec l2 out ps1
    | Err e => Err e
    | OutOfFuel => OutOfFuel
    end.
Proof.
  induction l1 as [|c rest IH]; intros acc ps; simpl; [reflexivity|].
  destruct (build_subplan encode_bytes32_array rec c ps) as [ps1|e|]; auto.
  destruct (buildCommand isDynamicType c ps1) as [[w ps2]|e|]; auto.
Qed.

(** [plan], once the walk has succeeded. *)
Lemma plan_encoder (h : Heap) (self : nat) (g : Globals) (st : PreState) :
  preplan (S (List.length h)) h self (plan_start g) = (Ok tt, st) ->
  fst (plan isDynamicType encode_bytes32_array h self g)
  = match buildCommands isDynamicType encode_bytes32_array (S (List.length h)) h self
            (encoder_start st) with
    | Ok (encodedCommands, ps') => Ok (encodedCommands, state ps')
    | Err e => Err e
    | OutOfFuel => OutOfFuel
    end.
Proof.
  intros Hw. unfold plan. fold (plan_start g). rewrite Hw. unfold encoder_start.
  destruct (prepopulate (literalVisibility st)) as [[st0 lsm] exps].
  match goal with
  | |- fst (match ?X with _ => _ end) = _ => destruct X as [[ec ps']|e|]
  end; reflexivity.
Qed.

(** What the encoder of a planner returns when the encoding of a command it
    has come to fails. *)
Lemma encoder_at_error (h : Heap) (fuel q : nat) (ps : PlannerState) (c : Command)
    (ps1 : PlannerState) (e : Error) :
  encoder_at isDynamicType encode_bytes32_array h fuel q ps c ps1 ->
  buildCommand isDynamicType c ps1 = Err e ->
  buildCommands isDynamicType encode_bytes32_array fuel h q ps = Err e.
Proof.
  intros Hat He.
  induction Hat as [fuel q ps l1 c l2 out ps1 ps2 Hl Hl1 Hs
                   |fuel q ps l1 s l2 out ps1 q' c ps2 Hl Hl1 Ht Hf _ IH];
    cbn [buildCommands]; rewrite Hl, buildCommands_loop_app, Hl1;
    cbn [buildCommands_loop].
  - rewrite Hs, He. reflexivity.
  - unfold build_subplan. rewrite Ht, Hf, (IH He). reflexivity.
Qed.

Lemma encoder_at_extends (h : Heap) (fuel q : nat) (ps : PlannerState) (c : Command)
    (ps1 : PlannerState) :
  encoder_at isDynamicType encode_bytes32_array h fuel q ps c ps1 ->
  extends encode_bytes32_array True ps ps1.
Proof.
  assert (Hrec : forall fuel q ps r ps',
            buildCommands isDynamicType encode_bytes32_array fuel h q ps = Ok (r, ps') ->
            extends encode_bytes32_array True ps ps').
  { intros f. apply buildCommands_extends. auto. }
  induction 1 as [fuel q ps l1 c l2 out ps1 ps2 Hl Hl1 Hs
                 |fuel q ps l1 s l2 out ps1 q' c ps2 Hl Hl1 Ht Hf _ IH].
  - eapply extends_trans.
    + eapply buildCommands_loop_extends; [apply Hrec|auto|exact Hl1].
    + eapply build_subplan_extends; [apply Hrec|auto|exact Hs].
  - eapply extends_trans; [|exact IH].
    eapply buildCommands_loop_extends; [apply Hrec|auto|exact Hl1].
Qed.

(** C9, as amended: when a RAWCALL or SUBPLAN command, in the planner or in a
    subplan that gets encoded, has its return value passed to another
    command as a [ReturnValue] argument, [plan] returns no output: it fails.
    When the walk accepts the planners and the encoder comes to the command
    and resolves its arguments, the error is "Return value of .. cannot be
    used to replace state and in another function"; another error is one
    raised before: by the walk, by the encoder on what precedes the command,
    or for the arguments of the command. *)
Theorem plan_rejects_consumed_state_replacing
    (h : Heap) (self qc qk : nat) (g : Globals) (c consumer : Command) (p : string) :
  encoded_under h self qc -> In c (commands h qc) ->
  is_state_replacing (type c) = true ->
  walked_under h self qk -> In consumer (commands h qk) ->
  In (ReturnValue p (key c)) (args (call consumer)) ->
  (exists e, fst (plan isDynamicType encode_bytes32_array h self g) = Err e) /\
  (forall st ps cargs,
     preplan (S (List.length h)) h self (plan_start g) = (Ok tt, st) ->
     encoder_at isDynamicType encode_bytes32_array h (S (List.length h)) self
       (encoder_start st) c ps ->
     buildCommandArgs isDynamicType c (returnSlotMap ps) (literalSlotMap ps) (state ps)
       = Ok cargs ->
     fst (plan isDynamicType encode_bytes32_array h self g) = Err ReplaceStateAndUse).
Proof.
  intros Hu Hc Ht Hw Hk Ha.
  pose proof (preplan_records_return h (S (List.length h)) self qk consumer
                (plan_start g) p (key c) Hw Hk Ha) as Hcv.
  split.
  - pose proof (plan_terminates isDynamicType encode_bytes32_array h self g) as Hterm.
    destruct (preplan (S (List.length h)) h self (plan_start g)) as [r st] eqn:Ew.
    destruct r as [[]|e|].
    + rewrite (plan_encoder h self g st Ew) in *.
      specialize (Hcv eq_refl). cbn [snd] in Hcv.
      pose proof (buildCommands_rejects isDynamicType encode_bytes32_array
                    (commandVisibility st) h self qc c Hu Hc Ht Hcv
                    (S (List.length h)) (encoder_start st)) as Hrej.
      destruct (buildCommands isDynamicType encode_bytes32_array
                  (S (List.length h)) h self (encoder_start st))
        as [[ec ps']|e|] eqn:Eb.
      * exfalso. apply (Hrej ec ps'); [|reflexivity].
        unfold encoder_start.
        destruct (prepopulate (literalVisibility st)) as [[st0 lsm] exps].
        reflexivity.
      * exists e. reflexivity.
      * congruence.
    + exists e. unfold plan. fold (plan_start g). rewrite Ew. reflexivity.
    + exfalso. apply Hterm. unfold plan. fold (plan_start g). rewrite Ew. reflexivity.
  - intros st ps cargs Ew Hat Hargs.
    rewrite (plan_encoder h self g st Ew).
    rewrite Ew in Hcv. specialize (Hcv eq_refl). cbn [snd] in Hcv.
    assert (Hb : buildCommand isDynamicType c ps = Err ReplaceStateAndUse).
    { unfold buildCommand. rewrite Hargs.
      rewrite return_slot_rejects; [reflexivity|exact Ht|].
      cbn [ps_commandVisibility].
      destruct (encoder_at_extends _ _ _ _ _ _ Hat) as (_ & Hcv' & _).
      rewrite Hcv'. unfold encoder_start.
      destruct (prepopulate (literalVisibility st)) as [[st0 lsm] exps].
      exact Hcv. }
    rewrite (encoder_at_error _ _ _ _ _ _ _ Hat Hb). reflexivity.
Qed.
End EncoderRun.

(** A call of [add], a [replaceState] command and a consumer of its return
    value: the walk accepts the planner, the encoder encodes the first
    command and comes to the second. *)
Lemma plan_rejects_consumed_state_replacing_witness :
  fst (plan sample_isDynamicType sample_encode_bytes32_array
         consumed_replace_state_second 0 fresh_globals) = Err ReplaceStateAndUse.
Proof.
  destruct (plan_rejects_consumed_state_replacing sample_isDynamicType
              sample_encode_bytes32_array consumed_replace_state_second 0 0 0
              fresh_globals replace_state
              {| call := library_call 2 use_state
                           [ReturnValue "bytes[]" (key replace_state)];
                 type := CALL |} "bytes[]") as [_ H].
  - apply encoded_here.
  - right. left. reflexivity.
  - reflexivity.
  - apply walked_here.
  - right. right. left. reflexivity.
  - left. reflexivity.
  - eapply (H (snd (preplan 2 consumed_replace_state_second 0
                      (plan_start fresh_globals)))).
    + reflexivity.
    + eapply encoder_at_here
        with (l1 := [{| call := library_call 3 math_add [lit 1; lit 2]; type := CALL |}])
             (l2 := [{| call := library_call 2 use_state
                                  [ReturnValue "bytes[]" (key replace_state)];
                        type := CALL |}]).
      * reflexivity.
      * vm_compute. reflexivity.
      * reflexivity.
    + vm_compute. reflexivity.
Defined.

(** C9, as stated, fails: the return value of this RAWCALL command is passed
    to another command, and [plan] raises "Return value from 'useState' is
    not visible here". *)
Lemma plan_consumed_state_replacing_other_error :
  In replace_state (commands consumed_before_replace_state 0) /\
  type replace_state = RAWCALL /\
  (exists consumer,
     In consumer (commands consumed_before_replace_state 0) /\
     In (ReturnValue "bytes[]" (key replace_state)) (args (call consumer))) /\
  fst (plan sample_isDynamicType sample_encode_bytes32_array
         consumed_before_replace_state 0 fresh_globals) = Err ReturnNotVisible /\
  ReturnNotVisible <> ReplaceStateAndUse.
Proof.
  split; [right; left; reflexivity|]. split; [reflexivity|]. split.
  - eexists. split; [left; reflexivity|]. left. reflexivity.
  - split; [reflexivity|discriminate].
Qed.

(** ** Visibility of return values across subplans *)

Lemma set_mem_key (k : CommandKey) (s : list CommandKey) :
  set_mem key_eqb k s = true <-> In k s.
Proof.
  unfold set_mem. rewrite existsb_exists. split.
  - intros (y & Hy & E). apply key_eqb_eq in E. subst. exact Hy.
  - intros H. exists k. split; auto. apply key_eqb_eq. reflexivity.
Qed.

Section SeenFacts.
Variable rec : nat -> PreState -> res unit * PreState.

(** The arguments of a call without declared output leave [seen] as it is. *)
Lemma preplan_args_seen_readonly (c : Command) (l : list Arg) :
  outputs (fragment (call c)) = [] ->
  forall st, seen (snd (preplan_args rec c l st)) = seen st.
Proof.
  intros Ho. induction l as [|a r IH]; intros st; simpl; auto.
  destruct a as [p|p v|p k| |q]; simpl; auto.
  - rewrite IH. reflexivity.
  - destruct (set_mem key_eqb k (seen st)); simpl; auto. rewrite IH. reflexivity.
  - destruct (rec q st) as [r0 s1]. rewrite Ho.
    destruct r0; simpl; auto. rewrite IH. reflexivity.
Qed.

Lemma preplan_command_seen_readonly (c : Command) (st st' : PreState) :
  outputs (fragment (call c)) = [] ->
  preplan_command rec c st = (Ok tt, st') ->
  seen st' = key c :: seen st.
Proof.
  intros Ho. unfold preplan_command.
  destruct (inargs c) as [l|e|]; try discriminate.
  pose proof (preplan_args_seen_readonly c l Ho st) as Hs.
  destruct (preplan_args rec c l st) as [r s1].
  destruct r as [[]|e|]; try discriminate.
  intros H. injection H as <-. simpl in *. rewrite Hs. reflexivity.
Qed.

(** Plain arguments are walked without error and without change of [seen]. *)
Lemma preplan_args_plain (c : Command) (pre l : list Arg) :
  forallb plain pre = true ->
  forall st, exists st1,
    preplan_args rec c (pre ++ l) st = preplan_args rec c l st1 /\
    seen st1 = seen st.
Proof.
  induction pre as [|a r IH]; intros Hp st; simpl in *.
  - exists st. auto.
  - apply andb_true_iff in Hp. destruct Hp as [Ha Hr].
    destruct a as [p|p v|p k| |q]; try discriminate; simpl.
    + destruct (IH Hr {| commandVisibility := commandVisibility st;
                         literalVisibility :=
                           dict_set bytes_eqb (literalVisibility st) v (key c);
                         seen := seen st; planners := planners st |})
        as (st1 & H1 & H2).
      exists st1. auto.
    + apply IH. exact Hr.
Qed.

End SeenFacts.

(** Within one walk [seen] only grows, whatever the outcome. *)
Lemma preplan_seen_incl (h : Heap) (fuel self : nat) (st : PreState) :
  incl (seen st) (seen (snd (preplan fuel h self st))).
Proof.
  apply preplan_inv with (I := fun s => incl (seen st) (seen s)); simpl; auto.
  - intros s s0 k H0 Hs. split; [exact H0|]. apply incl_tl. exact Hs.
  - apply incl_refl.
Qed.

Lemma preplan_commands_seen_incl (h : Heap) (fuel : nat) (l : list Command)
    (st : PreState) :
  incl (seen st) (seen (snd (preplan_commands (preplan fuel h) l st))).
Proof.
  apply preplan_commands_inv with (I := fun s => incl (seen st) (seen s));
    simpl; auto.
  - intros s s0 k H0 Hs. split; [exact H0|]. apply incl_tl. exact Hs.
  - intros q s Hs. eapply incl_tran; [exact Hs|apply preplan_seen_incl].
  - apply incl_refl.
Qed.

(** After the successful walk of a planner its commands are in [seen]. *)
Lemma preplan_commands_seen (h : Heap) (fuel : nat) (l : list Command) (c : Command) :
  forall st st', In c l ->
  preplan_commands (preplan fuel h) l st = (Ok tt, st') -> In (key c) (seen st').
Proof.
  induction l as [|c0 rest IH]; intros st st' Hin Hok; [contradiction|].
  simpl in Hok.
  destruct (preplan_command (preplan fuel h) c0 st) as [r s1] eqn:Ec.
  destruct r as [[]|e|]; try discriminate.
  destruct Hin as [->|Hin]; [|eauto].
  pose proof (preplan_commands_seen_incl h fuel rest s1) as Hm.
  rewrite Hok in Hm. simpl in Hm. apply Hm.
  unfold preplan_command in Ec.
  destruct (inargs c) as [la|e|]; try discriminate.
  destruct (preplan_args (preplan fuel h) c la st) as [r s2].
  destruct r as [[]|e|]; try discriminate.
  injection Ec as <-. left. reflexivity.
Qed.

Lemma preplan_seen (h : Heap) (fuel self : nat) (c : Command) (st st' : PreState) :
  In c (commands h self) ->
  preplan fuel h self st = (Ok tt, st') -> In (key c) (seen st').
Proof.
  destruct fuel as [|fuel]; intros Hin Hok; [discriminate|]. simpl in Hok.
  destruct (set_mem Nat.eqb self (planners st)); [discriminate|].
  eapply preplan_commands_seen; eauto.
Qed.

(** The arguments of a call that declares an output keep visible what the
    walk of its subplan has seen. *)
Lemma preplan_args_shared (h : Heap) (fuel : nat) (sub producer : Command) (q : nat)
    (l : list Arg) :
  outputs (fragment (call sub)) <> [] ->
  In producer (commands h q) ->
  forall st st', In (SubplanValue q) l ->
  preplan_args (preplan fuel h) sub l st = (Ok tt, st') ->
  In (key producer) (seen st').
Proof.
  intros Ho Hp. induction l as [|a r IH]; intros st st' Hin Hok; [contradiction|].
  assert (Hkeep : forall s, In (key producer) (seen s) ->
            In (key producer) (seen (snd (preplan_args (preplan fuel h) sub r s)))).
  { intros s Hs.
    apply preplan_args_inv with (I := fun s => In (key producer) (seen s));
      simpl; auto.
    intros q0 s0 Hs0. apply (preplan_seen_incl h fuel q0 s0). exact Hs0. }
  simpl in Hok.
  destruct a as [p|p v|p k| |q0]; try discriminate.
  - destruct Hin as [Hin|Hin]; [discriminate|]. eapply IH; eauto.
  - destruct Hin as [Hin|Hin]; [discriminate|].
    destruct (set_mem key_eqb k (seen st)); [|discriminate]. eapply IH; eauto.
  - destruct Hin as [Hin|Hin]; [discriminate|]. eapply IH; eauto.
  - destruct (preplan fuel h q0 st) as [r0 s1] eqn:Eq.
    destruct r0 as [[]|e|]; try discriminate.
    destruct (outputs (fragment (call sub))) as [|o os]; [congruence|].
    destruct Hin as [Hin|Hin].
    + injection Hin as ->.
      pose proof (preplan_seen h fuel q producer st s1 Hp Eq) as Hs.
      specialize (Hkeep s1 Hs). rewrite Hok in Hkeep. exact Hkeep.
    + eapply IH; eauto.
Qed.

Lemma preplan_ok_under (h : Heap) (fuel q : nat) (s s' : PreState) :
  preplan fuel h q s = (Ok tt, s') ->
  forall r, walked_under h q r -> In r (planners s') /\ ~ In r (planners s).
Proof.
  intros Hr.
  destruct (preplan_ok_closed h fuel q s s' Hr) as (Hn & Hs & Hclosed).
  assert (H : forall p r, walked_under h p r ->
              In p (planners s') -> ~ In p (planners s) ->
              In r (planners s') /\ ~ In r (planners s)).
  { induction 1 as [p|p p1 r Hc _ IH]; intros Hp Hnp; [auto|].
    destruct (Hclosed p Hp Hnp p1 Hc) as (Ha & Hb & _). apply IH; auto. }
  intros r Hu. apply (H q r Hu Hs Hn).
Qed.

(** A command that was walked has entered the planners from its subplan
    down, none of which was entered before. *)
Lemma preplan_command_under (h : Heap) (fuel : nat) (c : Command) (q : nat)
    (st st' : PreState) :
  In (SubplanValue q) (args (call c)) ->
  preplan_command (preplan fuel h) c st = (Ok tt, st') ->
  forall r, walked_under h q r -> In r (planners st') /\ ~ In r (planners st).
Proof.
  intros Hin Hok.
  assert (H : preplan_commands (preplan fuel h) [c] st = (Ok tt, st')).
  { simpl. rewrite Hok. reflexivity. }
  apply preplan_commands_ok
    with (I := fun s => incl (planners st) (planners s))
         (E := fun q s => forall r, walked_under h q r ->
                 In r (planners s) /\ ~ In r (planners st)) in H.
  - destruct H as [_ H]. apply (H c q); auto. left. reflexivity.
  - intros s s' E Hs. rewrite E. exact Hs.
  - intros q0 s s' Hi Hs r Hr. destruct (Hs r Hr) as [H1 H2]. split; auto.
  - intros q0 s. apply preplan_planners_incl.
  - intros q0 s s' Hi Hs. split.
    + eapply incl_tran; [exact Hi|].
      pose proof (preplan_planners_incl h fuel q0 s) as Hm. rewrite Hs in Hm. exact Hm.
    + intros r Hr. destruct (preplan_ok_under h fuel q0 s s' Hs r Hr) as [H1 H2].
      split; [exact H1|]. intros H3. apply H2. apply Hi. exact H3.
  - apply incl_refl.
Qed.

Section Hidden.
Variable h : Heap.
Variable q : nat.
Variable k : CommandKey.
(** The command [k] is a command of the planners from [q] down only. *)
Hypothesis only_below : forall r c,
  In c (commands h r) -> key c = k -> walked_under h q r.

Lemma hidden_own (s : PreState) (r : nat) (c : Command) :
  hidden h q k s -> ~ In r (planners s) -> In c (commands h r) -> key c <> k.
Proof.
  intros [_ Hp] Hr Hc Hk. apply Hr, Hp. eapply only_below; eauto.
Qed.

Section Loop.
Variable rec : nat -> PreState -> res unit * PreState.
Hypothesis rec_hidden : forall r s s',
  hidden h q k s -> rec r s = (Ok tt, s') -> hidden h q k s'.

Lemma preplan_args_hidden (c : Command) (l : list Arg) : forall s s',
  hidden h q k s -> preplan_args rec c l s = (Ok tt, s') -> hidden h q k s'.
Proof.
  induction l as [|a r IH]; intros s s' Hs H; simpl in H.
  - injection H as <-. exact Hs.
  - destruct a as [p|p v|p k0| |q0].
    + discriminate.
    + eapply IH; [|exact H]. exact Hs.
    + destruct (set_mem key_eqb k0 (seen s)); [|discriminate].
      eapply IH; [|exact H]. exact Hs.
    + eapply IH; eauto.
    + destruct (rec q0 s) as [r0 s1] eqn:Er.
      destruct r0 as [[]|e|]; try discriminate.
      pose proof (rec_hidden q0 s s1 Hs Er) as [Hv1 Hp1].
      eapply IH; [|exact H].
      destruct (outputs (fragment (call c))).
      * split; [exact (proj1 Hs)|exact Hp1].
      * split; assumption.
Qed.

Lemma preplan_commands_hidden (l : list Command) : forall s s',
  hidden h q k s -> (forall c, In c l -> key c <> k) ->
  preplan_commands rec l s = (Ok tt, s') -> hidden h q k s'.
Proof.
  induction l as [|c rest IH]; intros s s' Hs Hl H; simpl in H.
  - injection H as <-. exact Hs.
  - unfold preplan_command in H.
    destruct (inargs c) as [la|e|]; try discriminate.
    destruct (preplan_args rec c la s) as [r0 s1] eqn:Ea.
    destruct r0 as [[]|e|]; try discriminate.
    destruct (preplan_args_hidden c la s s1 Hs Ea) as [Hv1 Hp1].
    eapply IH; [| |exact H].
    + split; [|exact Hp1]. unfold visible in *. simpl. rewrite Hv1.
      destruct (key_eqb k (key c)) eqn:E; [|reflexivity].
      apply key_eqb_eq in E. exfalso. apply (Hl c); [left; reflexivity|auto].
    + intros c' Hc'. apply Hl. right. exact Hc'.
Qed.
End Loop.

Lemma preplan_hidden (fuel : nat) : forall r s s',
  hidden h q k s -> preplan fuel h r s = (Ok tt, s') -> hidden h q k s'.
Proof.
  induction fuel as [|fuel IH]; intros r s s' Hs H; [discriminate|].
  simpl in H. destruct (set_mem Nat.eqb r (planners s)) eqn:Em; [discriminate|].
  apply set_mem_nat_false in Em.
  eapply preplan_commands_hidden; [exact IH| | |exact H].
  - destruct Hs as [Hv Hp]. split; [exact Hv|].
    intros r0 Hr0. right. apply Hp. exact Hr0.
  - intros c Hc. eapply hidden_own; eauto.
Qed.

(** From a state in which the return value is hidden, the walk that comes to
    a reference to it finds it hidden, and raises. *)
Lemma comes_to_hidden (fuel : nat) (l : list Command) (s : PreState) (c : Command)
    (p : string) (s' : PreState) :
  comes_to h fuel l s c (ReturnValue p k) s' ->
  hidden h q k s -> (forall c0, In c0 l -> key c0 <> k) ->
  hidden h q k s' /\
  fst (preplan_commands (preplan fuel h) l s) = Err ReturnNotVisible.
Proof.
  intros H. remember (ReturnValue p k) as a eqn:Ea.
  induction H as [fuel l1 c l2 pre a post s s1 s2 Hl1 Hi Hpre
                 |fuel l1 c0 l2 pre q0 post s s1 s2 c a s3 Hl1 Hi Hpre Hm _ IH];
    intros Hs Hown.
  - assert (H1 : hidden h q k s1).
    { eapply preplan_commands_hidden; [apply preplan_hidden|exact Hs| |exact Hl1].
      intros c0 Hc0. apply Hown. apply in_or_app. left. exact Hc0. }
    assert (H2 : hidden h q k s2).
    { eapply preplan_args_hidden; [apply preplan_hidden|exact H1|exact Hpre]. }
    split; [exact H2|].
    rewrite preplan_commands_app, Hl1. cbn [preplan_commands].
    unfold preplan_command. rewrite Hi, preplan_args_app, Hpre. subst a.
    simpl. destruct H2 as [Hv _]. unfold visible in Hv. rewrite Hv. reflexivity.
  - assert (H1 : hidden h q k s1).
    { eapply preplan_commands_hidden; [apply preplan_hidden|exact Hs| |exact Hl1].
      intros c1 Hc1. apply Hown. apply in_or_app. left. exact Hc1. }
    assert (H2 : hidden h q k s2).
    { eapply preplan_args_hidden; [apply preplan_hidden|exact H1|exact Hpre]. }
    apply set_mem_nat_false in Hm.
    destruct (IH Ea) as [H3 He].
    + destruct H2 as [Hv Hp]. split; [exact Hv|].
      intros r Hr. right. apply Hp. exact Hr.
    + intros c1 Hc1. eapply hidden_own; eauto.
    + split; [exact H3|].
      rewrite preplan_commands_app, Hl1. cbn [preplan_commands].
      unfold preplan_command. rewrite Hi, preplan_args_app, Hpre.
      cbn [preplan_args].
      change (preplan (S fuel) h q0 s2)
        with (if set_mem Nat.eqb q0 (planners s2)
              then (Err PlannerContainsItself, s2)
              else preplan_commands (preplan fuel h) (commands h q0) (enter q0 s2)).
      apply set_mem_nat_false in Hm. rewrite Hm.
      destruct (preplan_commands (preplan fuel h) (commands h q0) (enter q0 s2))
        as [r0 s4].
      simpl in He. subst r0. reflexivity.
Qed.
End Hidden.

Lemma preplan_args_seen_mono (h : Heap) (fuel : nat) (c : Command) (l : list Arg)
    (st : PreState) :
  incl (seen st) (seen (snd (preplan_args (preplan fuel h) c l st))).
Proof.
  apply preplan_args_inv with (I := fun s => incl (seen st) (seen s)); simpl; auto.
  - intros s s0 k H0 Hs. split; [exact H0|]. apply incl_tl. exact Hs.
  - intros q s Hs. eapply incl_tran; [exact Hs|apply preplan_seen_incl].
  - apply incl_refl.
Qed.

(** What is visible stays visible on the way to an argument. *)
Lemma comes_to_seen (h : Heap) (fuel : nat) (l : list Command) (s : PreState)
    (c : Command) (a : Arg) (s' : PreState) :
  comes_to h fuel l s c a s' -> incl (seen s) (seen s').
Proof.
  induction 1 as [fuel l1 c l2 pre a post s s1 s2 Hl1 Hi Hpre
                 |fuel l1 c0 l2 pre q0 post s s1 s2 c a s3 Hl1 Hi Hpre Hm _ IH].
  - pose proof (preplan_commands_seen_incl h fuel l1 s) as H1.
    pose proof (preplan_args_seen_mono h fuel c pre s1) as H2.
    rewrite Hl1 in H1. rewrite Hpre in H2. eapply incl_tran; eauto.
  - pose proof (preplan_commands_seen_incl h (S fuel) l1 s) as H1.
    pose proof (preplan_args_seen_mono h (S fuel) c0 pre s1) as H2.
    rewrite Hl1 in H1. rewrite Hpre in H2. simpl in H1, H2.
    eapply incl_tran; [exact H1|]. eapply incl_tran; [exact H2|exact IH].
Qed.

Lemma comes_to_visible (h : Heap) (fuel : nat) (l : list Command) (s : PreState)
    (c : Command) (p : string) (k : CommandKey) (s' : PreState) :
  comes_to h fuel l s c (ReturnValue p k) s' ->
  visible k s = true ->
  visible k s' = true /\
  fst (preplan_args (preplan fuel h) c [ReturnValue p k] s') = Ok tt.
Proof.
  intros H Hv.
  assert (Hv' : visible k s' = true).
  { unfold visible in *. apply set_mem_key. apply set_mem_key in Hv.
    eapply comes_to_seen; eauto. }
  split; [exact Hv'|]. simpl. unfold visible in Hv'. rewrite Hv'. reflexivity.
Qed.

Section ScopeHiding.
Variable isDynamicType : string -> bool.
Variable encode_bytes32_array : list bytes -> bytes.

End ScopeHiding.



(** The three cases of C5 on [plan]: with a read-only subplan the reference
    after the subplan is rejected and the one inside it accepted; with a
    subplan that returns the state the reference after it is accepted. *)
Lemma plan_scope_hiding_examples :
  fst (plan sample_isDynamicType sample_encode_bytes32_array
         (subplan_then_use execute_readonly) 0 fresh_globals) = Err ReturnNotVisible /\
  is_ok (fst (plan sample_isDynamicType sample_encode_bytes32_array
                (subplan_alone execute_readonly) 0 fresh_globals)) = true /\
  is_ok (fst (plan sample_isDynamicType sample_encode_bytes32_array
                (subplan_then_use execute) 0 fresh_globals)) = true /\
  is_ok (fst (plan sample_isDynamicType sample_encode_bytes32_array
                (subplan_then_late_use execute) 0 fresh_globals)) = true.
Proof.
  repeat split; vm_compute; reflexivity.
Qed.

(** C1 on an example: the first call of [plan] returns its result, the
    second raises. *)
Lemma plan_twice_example :
  let h := [[ {| call := library_call 1 math_add [lit 1; lit 2]; type := CALL |} ]] in
  let first := plan sample_isDynamicType sample_encode_bytes32_array h 0 fresh_globals in
  is_ok (fst first) = true /\
  fst (plan sample_isDynamicType sample_encode_bytes32_array h 0 (snd first))
    = Err PlannerContainsItself.
Proof.
  split; vm_compute; reflexivity.
Qed.

(** * Further properties of the planner *)

(** ** Termination and size of the output *)

(** X1: [plan] ends on every heap of planners, also one with cycles, and from
    every content of the default sets: it returns a result or raises. *)
Theorem plan_always_terminates isDynamicType encode_bytes32_array
    (h : Heap) (self : nat) (g : Globals) :
  (exists out, fst (plan isDynamicType encode_bytes32_array h self g) = Ok out) \/
  (exists e, fst (plan isDynamicType encode_bytes32_array h self g) = Err e).
Proof.
  pose proof (plan_terminates isDynamicType encode_bytes32_array h self g) as H.
  destruct (fst (plan isDynamicType encode_bytes32_array h self g)) as [out|e|].
  - left. exists out. reflexivity.
  - right. exists e. reflexivity.
  - congruence.
Qed.

Lemma land_lor_same (f m : Z) : Z.land (Z.lor f m) m = m.
Proof.
  apply Z.bits_inj'. intros n Hn.
  rewrite Z.land_spec, Z.lor_spec.
  destruct (Z.testbit f n), (Z.testbit m n); reflexivity.
Qed.

Lemma buildCommandArgs_loop_length isDynamicType (l : list Arg) rsm lsm st :
  forall cargs,
  buildCommandArgs_loop isDynamicType l rsm lsm st = Ok cargs ->
  List.length cargs = List.length l.
Proof.
  induction l as [|a r IH]; intros cargs H; simpl in H.
  - injection H as <-. reflexivity.
  - match type of H with
    | match ?X with _ => _ end = _ => destruct X as [s|e|]
    end; try discriminate.
    destruct (buildCommandArgs_loop isDynamicType r rsm lsm st) as [r'|e|];
      try discriminate.
    injection H as <-. simpl. f_equal. apply IH. reflexivity.
Qed.

Lemma encode_command_length (c : Command) (flags' : Z) (cargs : list Z) (ret : Z)
    (words : list bytes) :
  encode_command c flags' cargs ret = Ok words ->
  List.length words
  = if (Z.land flags' EXTENDED_COMMAND =? EXTENDED_COMMAND)%Z then 2 else 1.
Proof.
  unfold encode_command.
  destruct (Z.land flags' EXTENDED_COMMAND =? EXTENDED_COMMAND)%Z.
  - destruct (hexConcat_word c flags' (repeat 255%Z 6) ret); try discriminate.
    simpl. destruct (hexConcat_ints (padArray cargs 32 255%Z)); try discriminate.
    simpl. intros H. injection H as <-. reflexivity.
  - destruct (hexConcat_word c flags' (padArray cargs 6 255%Z) ret); try discriminate.
    simpl. intros H. injection H as <-. reflexivity.
Qed.

Lemma buildCommand_word_count isDynamicType (c : Command) (ps ps' : PlannerState)
    (words : list bytes) :
  buildCommand isDynamicType c ps = Ok (words, ps') ->
  List.length words = if is_extended c then 2 else 1.
Proof.
  intros H.
  destruct (buildCommandArgs isDynamicType c (returnSlotMap ps) (literalSlotMap ps)
              (state ps)) as [cargs|e|] eqn:Ea;
    try (unfold buildCommand in H; rewrite Ea in H; discriminate).
  destruct (buildCommand_words isDynamicType c ps ps' cargs words Ea H) as [ret He].
  apply encode_command_length in He. rewrite He.
  unfold buildCommandArgs in Ea. unfold is_extended.
  destruct (inargs c) as [l|e|]; try discriminate.
  apply buildCommandArgs_loop_length in Ea. rewrite Ea.
  destruct (6 <? List.length l)%nat; simpl orb.
  - rewrite land_lor_same, Z.eqb_refl. reflexivity.
  - destruct (Z.land (flags (call c)) EXTENDED_COMMAND =? EXTENDED_COMMAND)%Z;
      reflexivity.
Qed.

Lemma buildCommands_loop_word_count isDynamicType encode_bytes32_array
    (rec : nat -> PlannerState -> res (list bytes * PlannerState)) (l : list Command) :
  forall acc ps r ps',
  buildCommands_loop isDynamicType encode_bytes32_array rec l acc ps = Ok (r, ps') ->
  List.length r
  = List.length acc + List.length l + List.length (filter is_extended l).
Proof.
  induction l as [|c rest IH]; intros acc ps r ps' H; simpl in H.
  - injection H as <- _. simpl. lia.
  - destruct (build_subplan encode_bytes32_array rec c ps) as [ps1|e|];
      try discriminate.
    destruct (buildCommand isDynamicType c ps1) as [[w ps2]|e|] eqn:E;
      try discriminate.
    apply buildCommand_word_count in E. apply IH in H.
    rewrite H, length_app, E. simpl.
    destruct (is_extended c); simpl; lia.
Qed.



(** ** A subplanner is used once *)

Lemma preplan_args_entered (h : Heap) (fuel : nat) (c : Command) (q : nat)
    (l : list Arg) : forall st,
  In (SubplanValue q) l -> In q (planners st) ->
  fst (preplan_args (preplan fuel h) c l st) <> Ok tt.
Proof.
  induction l as [|a r IH]; intros st Hin Hq; [contradiction|].
  simpl. destruct a as [p|p v|p k| |q0]; simpl; try discriminate.
  - destruct Hin as [Hin|Hin]; [discriminate|]. apply IH; auto.
  - destruct Hin as [Hin|Hin]; [discriminate|].
    destruct (set_mem key_eqb k (seen st)); simpl; [|discriminate]. apply IH; auto.
  - destruct Hin as [Hin|Hin]; [discriminate|]. apply IH; auto.
  - destruct Hin as [Hin|Hin].
    + injection Hin as ->.
      destruct fuel as [|fuel]; simpl; [discriminate|].
      apply set_mem_nat in Hq. rewrite Hq. simpl. discriminate.
    + pose proof (preplan_planners_incl h fuel q0 st) as Hm.
      destruct (preplan fuel h q0 st) as [r0 s1]. simpl in Hm.
      destruct r0 as [[]|e|]; simpl; try discriminate.
      apply IH; auto. apply Hm in Hq.
      destruct (outputs (fragment (call c))); exact Hq.
Qed.

Lemma preplan_command_enters (h : Heap) (fuel : nat) (c : Command) (q : nat)
    (st st' : PreState) :
  In (SubplanValue q) (args (call c)) ->
  preplan_command (preplan fuel h) c st = (Ok tt, st') ->
  In q (planners st').
Proof.
  intros Hin Hok.
  assert (H : preplan_commands (preplan fuel h) [c] st = (Ok tt, st')).
  { simpl. rewrite Hok. reflexivity. }
  apply preplan_commands_ok
    with (I := fun _ => True) (E := fun q s => In q (planners s)) in H.
  - destruct H as [_ H]. apply (H c q); auto. left. reflexivity.
  - intros s s' _ _. exact I.
  - intros q0 s s' Hi Hs. apply Hi. exact Hs.
  - intros q0 s. apply preplan_planners_incl.
  - intros q0 s s' _ Hs. split; [exact I|].
    destruct fuel as [|fuel]; [discriminate|].
    pose proof (preplan_adds_self h fuel q0 s) as Ha. rewrite Hs in Ha. exact Ha.
  - exact I.
Qed.

(** X3: a planner that two commands of the planned planner take as their
    subplan makes [plan] fail in the visibility walk: the walk enters a
    planner once, and the second command finds it entered. *)
Theorem plan_rejects_subplan_used_twice isDynamicType encode_bytes32_array
    (h : Heap) (self q : nat) (g : Globals) (c1 c2 : Command)
    (l1 l2 l3 : list Command) :
  commands h self = l1 ++ c1 :: l2 ++ c2 :: l3 ->
  In (SubplanValue q) (args (call c1)) ->
  In (SubplanValue q) (args (call c2)) ->
  exists e,
    fst (plan isDynamicType encode_bytes32_array h self g) = Err e /\ walk_error e.
Proof.
  intros Hc H1 H2.
  assert (Hnot : forall st,
            fst (preplan_commands (preplan (List.length h) h) (commands h self) st)
            <> Ok tt).
  { intros st. rewrite Hc, preplan_commands_app.
    destruct (preplan_commands (preplan (List.length h) h) l1 st) as [r s1].
    destruct r as [[]|e|]; simpl; try discriminate.
    change (preplan_commands (preplan (List.length h) h) (c1 :: l2 ++ c2 :: l3) s1)
      with (match preplan_command (preplan (List.length h) h) c1 s1 with
            | (Ok _, s2) =>
              preplan_commands (preplan (List.length h) h) (l2 ++ c2 :: l3) s2
            | other => other
            end).
    destruct (preplan_command (preplan (List.length h) h) c1 s1) as [r s2] eqn:E1.
    destruct r as [[]|e|]; simpl; try discriminate.
    apply preplan_command_enters with (q := q) in E1; [|exact H1].
    rewrite preplan_commands_app.
    pose proof (preplan_commands_mono (preplan (List.length h) h)
                  (preplan_planners_incl h (List.length h)) l2 s2) as Hm.
    destruct (preplan_commands (preplan (List.length h) h) l2 s2) as [r s3].
    destruct r as [[]|e|]; simpl; try discriminate.
    simpl in Hm. apply Hm in E1.
    unfold preplan_command.
    destruct (inargs c2) as [la|e|] eqn:Ei; simpl; try discriminate.
    pose proof (preplan_args_entered h (List.length h) c2 q la s3
                  (inargs_args c2 la _ Ei H2) E1) as Hn.
    destruct (preplan_args (preplan (List.length h) h) c2 la s3) as [r s4].
    destruct r as [[]|e|]; simpl in *; try discriminate; congruence. }
  pose proof (plan_terminates isDynamicType encode_bytes32_array h self g) as Ht.
  pose proof (preplan_walk_error h (S (List.length h)) self (plan_start g)) as Hw.
  unfold plan in *. fold (plan_start g) in *.
  assert (Hp : fst (preplan (S (List.length h)) h self (plan_start g)) <> Ok tt).
  { simpl. destruct (set_mem Nat.eqb self (default_planners g)); simpl;
      [discriminate|apply Hnot]. }
  destruct (preplan (S (List.length h)) h self (plan_start g)) as [r st].
  destruct r as [[]|e|]; cbn [fst] in *.
  - congruence.
  - exists e. split; [reflexivity|]. apply Hw. reflexivity.
  - congruence.
Qed.

(** One subplanner, passed to two [addSubplan] commands. *)
Lemma plan_rejects_subplan_used_twice_witness :
  exists e,
    fst (plan sample_isDynamicType sample_encode_bytes32_array
           [[subplan_of execute; subplan_of execute]; [sum_producer]] 0 fresh_globals)
    = Err e /\ walk_error e.
Proof.
  apply (plan_rejects_subplan_used_twice sample_isDynamicType
           sample_encode_bytes32_array
           [[subplan_of execute; subplan_of execute]; [sum_producer]] 0 1 fresh_globals
           (subplan_of execute) (subplan_of execute) [] [] []).
  - reflexivity.
  - left. reflexivity.
  - left. reflexivity.
Defined.

(** ** The order of the literals in the state *)

Lemma dict_mem_keys {V} (d : list (bytes * V)) (k : bytes) :
  dict_mem bytes_eqb d k = existsb (bytes_eqb k) (map fst d).
Proof.
  unfold dict_mem. induction d as [|[k0 v0] r IH]; simpl; [reflexivity|].
  destruct (bytes_eqb k k0); simpl; [reflexivity|exact IH].
Qed.

(** The walk of plain arguments succeeds and records their literals. *)
Lemma preplan_args_plain_literals (rec : nat -> PreState -> res unit * PreState)
    (c : Command) (l : list Arg) :
  forallb plain l = true ->
  forall st, exists st1,
    preplan_args rec c l st = (Ok tt, st1) /\
    map fst (literalVisibility st1)
    = first_occurrences_from (map fst (literalVisibility st)) (literal_bytes l).
Proof.
  induction l as [|a r IH]; intros Hp st; simpl in *.
  - exists st. auto.
  - apply andb_true_iff in Hp. destruct Hp as [Ha Hr].
    destruct a as [p|p v|p k| |q]; try discriminate; simpl.
    + destruct (IH Hr {| commandVisibility := commandVisibility st;
                         literalVisibility :=
                           dict_set bytes_eqb (literalVisibility st) v (key c);
                         seen := seen st; planners := planners st |})
        as (st1 & H1 & H2).
      exists st1. split; [exact H1|]. rewrite H2. simpl.
      rewrite dict_set_keys, dict_mem_keys.
      destruct (existsb (bytes_eqb v) (map fst (literalVisibility st))); reflexivity.
    + apply IH. exact Hr.
Qed.

(** The literals that the walk has recorded stay where they are. *)
Lemma preplan_commands_literal_prefix (h : Heap) (fuel : nat) (l : list Command)
    (st : PreState) (K : list bytes) :
  (exists t, map fst (literalVisibility st) = K ++ t) ->
  exists t, map fst (literalVisibility
                       (snd (preplan_commands (preplan fuel h) l st))) = K ++ t.
Proof.
  assert (Hset : forall s v k,
            (exists t, map fst (literalVisibility s) = K ++ t) ->
            exists t, map fst (dict_set bytes_eqb (literalVisibility s) v k) = K ++ t).
  { intros s v k [t Ht]. rewrite dict_set_keys.
    destruct (dict_mem bytes_eqb (literalVisibility s) v).
    - exists t. exact Ht.
    - exists (t ++ [v]). rewrite Ht, app_assoc. reflexivity. }
  apply preplan_commands_inv
    with (I := fun s => exists t, map fst (literalVisibility s) = K ++ t);
    simpl; auto.
  intros q s Hs.
  apply preplan_inv
    with (I := fun s => exists t, map fst (literalVisibility s) = K ++ t);
    simpl; auto.
Qed.

(** X5: when the arguments of the first command of the planner (its call
    value first, if it sends one) are literals and state placeholders, the
    planned state begins with the distinct byte strings of these literals,
    in the order in which they are passed. *)
Theorem plan_state_begins_with_first_literals isDynamicType encode_bytes32_array
    (h : Heap) (self : nat) (g g' : Globals) (cmds st : list bytes)
    (c : Command) (rest : list Command) (l : list Arg) :
  plan isDynamicType encode_bytes32_array h self g = (Ok (cmds, st), g') ->
  commands h self = c :: rest ->
  inargs c = Ok l ->
  forallb plain l = true ->
  exists tail, st = first_occurrences (literal_bytes l) ++ tail.
Proof.
  intros Hplan Hc Hi Hp. unfold plan in Hplan. fold (plan_start g) in Hplan.
  assert (Hk : fst (preplan (S (List.length h)) h self (plan_start g)) = Ok tt ->
               exists t, map fst (literalVisibility
                            (snd (preplan (S (List.length h)) h self (plan_start g))))
                         = first_occurrences (literal_bytes l) ++ t).
  { simpl. destruct (set_mem Nat.eqb self (default_planners g)); [discriminate|].
    rewrite Hc. cbn [preplan_commands]. unfold preplan_command. rewrite Hi.
    destruct (preplan_args_plain_literals (preplan (List.length h) h) c l Hp
                {| commandVisibility := []; literalVisibility := [];
                   seen := default_seen g; planners := self :: default_planners g |})
      as (st1 & -> & Hkeys).
    intros _. apply preplan_commands_literal_prefix.
    exists []. simpl. rewrite Hkeys, app_nil_r. reflexivity. }
  destruct (preplan (S (List.length h)) h self (plan_start g)) as [r pst].
  destruct r as [[]|e|]; try discriminate.
  destruct (Hk eq_refl) as [t Ht]. cbn [snd] in Ht.
  pose proof (prepopulate_spec (literalVisibility pst)) as Hpp.
  destruct (prepopulate (literalVisibility pst)) as [[st0 lsm] exps].
  destruct Hpp as [_ Hst0].
  match type of Hplan with
  | match ?X with _ => _ end = _ => destruct X as [[ec ps']|e|] eqn:Eb
  end; try discriminate.
  injection Hplan as _ <- _.
  apply buildCommands_extends with (subplans := True) in Eb; [|auto].
  destruct Eb as (_ & _ & extra & Hst & _). simpl in Hst.
  exists (t ++ extra). rewrite Hst, Hst0, Ht, app_assoc. reflexivity.
Qed.

(** [planner.add(math.add(3, 4).withValue(1))] of [test_weiroll_with_value]:
    the state is the value, then 3, then 4. *)
Lemma plan_state_begins_with_first_literals_witness :
  exists tail,
    snd (match fst (plan sample_isDynamicType sample_encode_bytes32_array
                      [[value_call]] 0 fresh_globals) with
         | Ok out => out
         | _ => ([], [])
         end)
    = [uint256 1; uint256 3; uint256 4] ++ tail.
Proof.
  destruct (plan sample_isDynamicType sample_encode_bytes32_array
              [[value_call]] 0 fresh_globals) as [[[cmds st]|e|] g'] eqn:E;
    try (vm_compute in E; discriminate E).
  apply (plan_state_begins_with_first_literals _ _ _ _ _ _ _ _ value_call []
           (LiteralValue "uint" (uint256 1) :: [lit 3; lit 4]) E);
    reflexivity.
Defined.

(** ** What an earlier call of [plan] leaves behind *)

Lemma buildCommandArgs_loop_missing_return isDynamicType (pre post : list Arg)
    (p : string) (k : CommandKey) rsm lsm st :
  forallb plain pre = true ->
  dict_get key_eqb rsm k = None ->
  buildCommandArgs_loop isDynamicType (pre ++ ReturnValue p k :: post) rsm lsm st
  = Err KeyError.
Proof.
  intros Hp Hk. induction pre as [|a r IH]; simpl in *.
  - rewrite Hk. reflexivity.
  - apply andb_true_iff in Hp. destruct Hp as [Ha Hr]. specialize (IH Hr).
    destruct a as [p0|p0 v|p0 k0| |q]; try discriminate.
    + destruct (dict_get bytes_eqb lsm v); [|reflexivity]. rewrite IH. reflexivity.
    + rewrite IH. reflexivity.
Qed.

(** X6: once [plan] has succeeded on a planner, its commands stay in the
    default [seen] set of [_preplan].  A later [plan] on another planner
    whose single call passes the return value of one of these commands is
    therefore not stopped by the visibility check ("Return value from ..
    is not visible here"): the walk accepts the reference, and the encoder
    then fails with a [KeyError] when it looks up the return slot. *)
Theorem plan_accepts_reference_to_planned_command isDynamicType encode_bytes32_array
    (h : Heap) (a b : nat) (g g1 : Globals) (out : list bytes * list bytes)
    (c consumer : Command) (pre post : list Arg) (p : string) :
  plan isDynamicType encode_bytes32_array h a g = (Ok out, g1) ->
  In c (commands h a) ->
  set_mem Nat.eqb b (default_planners g1) = false ->
  commands h b = [consumer] ->
  type consumer = CALL ->
  inargs consumer = Ok (pre ++ ReturnValue p (key c) :: post) ->
  forallb plain pre = true -> forallb plain post = true ->
  fst (plan isDynamicType encode_bytes32_array h b g1) = Err KeyError.
Proof.
  intros Hplan Hc Hb Hcb Ht Hi Hpre Hpost.
  assert (Hseen : visible (key c) (plan_start g1) = true).
  { pose proof (plan_globals isDynamicType encode_bytes32_array h a g) as Hg.
    rewrite Hplan in Hg. cbn [snd] in Hg.
    unfold plan in Hplan. fold (plan_start g) in Hplan.
    destruct (preplan (S (List.length h)) h a (plan_start g)) as [r st] eqn:Ep.
    destruct r as [[]|e|]; try discriminate.
    rewrite Hg. unfold visible. cbn [snd seen plan_start default_seen].
    apply set_mem_key. eapply preplan_seen; eauto. }
  unfold plan. fold (plan_start g1).
  change (preplan (S (List.length h)) h b (plan_start g1))
    with (if set_mem Nat.eqb b (planners (plan_start g1))
          then (Err PlannerContainsItself, plan_start g1)
          else preplan_commands (preplan (List.length h) h) (commands h b)
                 (enter b (plan_start g1))).
  cbn [planners plan_start]. rewrite Hb, Hcb. cbn [preplan_commands].
  unfold preplan_command. rewrite Hi.
  destruct (preplan_args_plain (preplan (List.length h) h) consumer pre
              (ReturnValue p (key c) :: post) Hpre (enter b (plan_start g1)))
    as (st1 & -> & Hs1).
  cbn [preplan_args]. unfold visible in Hseen. simpl in Hs1, Hseen.
  rewrite Hs1, Hseen.
  match goal with
  | |- context [preplan_args ?rec consumer post ?s] =>
    destruct (preplan_args_plain_literals rec consumer post Hpost s) as (st2 & -> & _)
  end.
  destruct (prepopulate (literalVisibility _)) as [[st0 lsm] exps].
  cbn [buildCommands commands]. rewrite Hcb. cbn [buildCommands_loop].
  unfold build_subplan. rewrite Ht.
  unfold buildCommand, buildCommandArgs. rewrite Hi. cbn [returnSlotMap].
  rewrite buildCommandArgs_loop_missing_return; auto.
Qed.

(** The planners of [test_weiroll_return_values_must_be_defined], with the
    subplanner planned first. *)
Lemma plan_accepts_reference_to_planned_command_witness :
  let h := [[sum_producer]; [sum_consumer 21]] in
  let g1 := snd (plan sample_isDynamicType sample_encode_bytes32_array h 0 fresh_globals) in
  fst (plan sample_isDynamicType sample_encode_bytes32_array h 1 fresh_globals)
    = Err ReturnNotVisible /\
  fst (plan sample_isDynamicType sample_encode_bytes32_array h 1 g1) = Err KeyError.
Proof.
  intros h g1. split; [reflexivity|].
  apply (plan_accepts_reference_to_planned_command sample_isDynamicType
           sample_encode_bytes32_array h 0 1 fresh_globals g1
           (match fst (plan sample_isDynamicType sample_encode_bytes32_array h 0
                         fresh_globals) with
            | Ok o => o
            | _ => ([], [])
            end)
           sum_producer (sum_consumer 21) [] [lit 3] "uint256").
  - vm_compute. reflexivity.
  - left. reflexivity.
  - vm_compute. reflexivity.
  - reflexivity.
  - reflexivity.
  - reflexivity.
  - reflexivity.
  - reflexivity.
Defined.

(** ** The modifiers of a call *)

Lemma calltype_with_calltype (c : FunctionCall) (t : Z) :
  Z.land t CALLTYPE_MASK = t ->
  Z.land (with_calltype c t) CALLTYPE_MASK = t.
Proof.
  intros Ht. unfold with_calltype.
  rewrite Z.land_lor_distr_l, <- Z.land_assoc, Ht.
  change (Z.land (Z.lnot CALLTYPE_MASK) CALLTYPE_MASK) with 0%Z.
  rewrite Z.land_0_r. reflexivity.
Qed.

Lemma calltype_rawValue (c : FunctionCall) (new_id : nat) :
  calltype (rawValue c new_id) = calltype c.
Proof.
  unfold calltype, rawValue. cbn [flags].
  rewrite Z.land_lor_distr_l.
  change (Z.land TUPLE_RETURN CALLTYPE_MASK) with 0%Z.
  apply Z.lor_0_r.
Qed.

(** X7: a call made by [withValue] carries the encoded value, and the
    planner reads this value as the first argument of the call, before the
    arguments the call had: neither the walk nor the encoder can raise "Call
    with value must have a value parameter" on it. *)
Theorem withValue_value_is_first_argument (Raw : Type)
    (eth_abi_encode_single : string -> Raw -> option bytes)
    (self c : FunctionCall) (new_id : nat) (value : Raw) (t : CommandType) :
  withValue Raw eth_abi_encode_single self new_id value = Built c ->
  exists v, eth_abi_encode_single "uint"%string value = Some v /\
            inargs {| call := c; type := t |}
            = Ok (LiteralValue "uint" v :: args self).
Proof.
  unfold withValue. intros H.
  destruct (negb (calltype self =? FLAG_CALL)%Z
            && negb (calltype self =? CALL_WITH_VALUE)%Z); [discriminate|].
  destruct (eth_abi_encode_single "uint"%string value) as [v|]; [|discriminate].
  injection H as <-. exists v. split; [reflexivity|].
  unfold inargs. cbn [call flags callvalue args].
  rewrite calltype_with_calltype by reflexivity. reflexivity.
Qed.

Lemma withValue_value_is_first_argument_witness :
  exists c,
    withValue Z sample_eth_abi_encode_single
      (contract_call 1 math_add [lit 3; lit 4]) 2 1%Z = Built c /\
    inargs {| call := c; type := CALL |}
    = Ok [LiteralValue "uint" (uint256 1); lit 3; lit 4].
Proof.
  eexists. split; [reflexivity|].
  destruct (withValue_value_is_first_argument Z sample_eth_abi_encode_single
              (contract_call 1 math_add [lit 3; lit 4]) _ 2 1%Z CALL eq_refl)
    as (v & Hv & Hi).
  injection Hv as <-. exact Hi.
Defined.

(** X8: value and static exclude each other, whatever the order: a call
    made by [withValue] cannot be made static, and a call made by
    [staticcall] can neither send value nor be made static again. *)
Theorem withValue_and_staticcall_exclude (Raw : Type)
    (eth_abi_encode_single : string -> Raw -> option bytes)
    (self c : FunctionCall) (i j : nat) (value value' : Raw) :
  withValue Raw eth_abi_encode_single self i value = Built c \/
  staticcall self i = Built c ->
  staticcall c j = Raised OnlyCallMadeStatic /\
  (staticcall self i = Built c ->
   withValue Raw eth_abi_encode_single c j value' = Raised OnlyCallSendsValue).
Proof.
  intros H.
  assert (Hc : calltype c = CALL_WITH_VALUE \/ calltype c = STATICCALL).
  { destruct H as [H | H].
    - left. unfold withValue in H.
      destruct (negb (calltype self =? FLAG_CALL)%Z
                && negb (calltype self =? CALL_WITH_VALUE)%Z); [discriminate|].
      destruct (eth_abi_encode_single "uint"%string value); [|discriminate].
      injection H as <-. apply calltype_with_calltype. reflexivity.
    - right. unfold staticcall in H.
      destruct (negb (calltype self =? FLAG_CALL)%Z); [discriminate|].
      injection H as <-. apply calltype_with_calltype. reflexivity. }
  split.
  - unfold staticcall. destruct Hc as [-> | ->]; reflexivity.
  - intros Hs. unfold staticcall in Hs.
    destruct (negb (calltype self =? FLAG_CALL)%Z); [discriminate|].
    injection Hs as <-. unfold withValue.
    unfold calltype at 1 2. cbn [flags].
    rewrite calltype_with_calltype by reflexivity. reflexivity.
Qed.

Lemma withValue_and_staticcall_exclude_witness :
  (exists c,
     withValue Z sample_eth_abi_encode_single
       (contract_call 1 math_add [lit 1; lit 2]) 2 1%Z = Built c /\
     staticcall c 3 = Raised OnlyCallMadeStatic) /\
  (exists c,
     staticcall (contract_call 1 math_add [lit 1; lit 2]) 2 = Built c /\
     withValue Z sample_eth_abi_encode_single c 3 1%Z = Raised OnlyCallSendsValue).
Proof.
  split; eexists; (split; [reflexivity|]).
  - apply (withValue_and_staticcall_exclude Z sample_eth_abi_encode_single
             (contract_call 1 math_add [lit 1; lit 2]) _ 2 3 1%Z 1%Z).
    left. reflexivity.
  - apply (withValue_and_staticcall_exclude Z sample_eth_abi_encode_single
             (contract_call 1 math_add [lit 1; lit 2]) _ 2 3 1%Z 1%Z).
    + right. reflexivity.
    + reflexivity.
Defined.

(** X9: [rawValue] changes neither the call type nor the arguments that the
    planner reads, and [add] hands out a [bytes] return value for the call
    whatever outputs its function declares. *)
Theorem rawValue_add_returns_bytes (h : Heap) (self new_id : nat)
    (c : FunctionCall) (t : CommandType) :
  existsb isSubplanValue (args c) = false ->
  inargs {| call := rawValue c new_id; type := t |} = inargs {| call := c; type := t |} /\
  fst (add h self (rawValue c new_id))
  = Ok (Some (ReturnValue "bytes" (new_id, CALL))).
Proof.
  intros Hs. split.
  - unfold inargs. cbn [call].
    change (Z.land (flags (rawValue c new_id)) CALLTYPE_MASK)
      with (calltype (rawValue c new_id)).
    rewrite calltype_rawValue. reflexivity.
  - unfold add. cbn [args rawValue flags]. rewrite Hs.
    rewrite land_lor_same. reflexivity.
Qed.

Lemma rawValue_add_returns_bytes_witness :
  fst (add [[]] 0 (rawValue (library_call 1 two_outputs [StateValue]) 2))
  = Ok (Some (ReturnValue "bytes" (2, CALL))).
Proof.
  apply (rawValue_add_returns_bytes [[]] 0 2
           (library_call 1 two_outputs [StateValue]) CALL).
  reflexivity.
Defined.

(** ** [replaceState] *)

(** X10: [replaceState] accepts exactly the functions whose one output is
    [bytes[]], and then appends the call as a RAWCALL command.  On a function
    without outputs it does not raise its [ValueError] but an [IndexError],
    from reading [outputs[0]]; in every other case it raises the
    [ValueError], and a call that is refused leaves the planner as it was.
    The arguments of the call are not looked at. *)
Theorem replaceState_accepts_iff (h : Heap) (self : nat) (call : FunctionCall) :
  (fst (replaceState h self call) = Built tt <->
   outputs (fragment call) = ["bytes[]"%string]) /\
  (fst (replaceState h self call) = Raised IndexError <->
   outputs (fragment call) = []) /\
  snd (replaceState h self call)
  = match fst (replaceState h self call) with
    | Built _ => heap_append h self {| call := call; type := RAWCALL |}
    | Raised _ => h
    end.
Proof.
  unfold replaceState.
  destruct (outputs (fragment call)) as [|o [|o' r]]; cbn [List.length Nat.eqb negb orb].
  - repeat split; intros; try discriminate; reflexivity.
  - destruct (String.eqb_spec o "bytes[]") as [-> | Hn]; cbn [negb fst snd].
    + repeat split; intros; try discriminate; reflexivity.
    + repeat split; intros H; try discriminate.
      injection H as ->. contradiction.
  - cbn [fst snd]. repeat split; intros; discriminate.
Qed.

(** X11: for a command appended by [replaceState] the encoder either writes
    the return slot 0xFE, which puts the result in the place of the state,
    and allocates nothing, or refuses the command: the first when no command
    passes its return value, the second, with "Return value of .. cannot be
    used to replace state and in another function", when one does. *)
Theorem replaceState_return_slot isDynamicType (h h' : Heap) (self : nat)
    (fc : FunctionCall) :
  self < List.length h ->
  replaceState h self fc = (Built tt, h') ->
  exists c,
    commands h' self = commands h self ++ [c] /\
    key c = (call_id fc, RAWCALL) /\
    forall ps,
      (dict_get key_eqb (ps_commandVisibility ps) (key c) = None ->
       return_slot isDynamicType c ps = Ok (0xFE%Z, ps)) /\
      (dict_get key_eqb (ps_commandVisibility ps) (key c) <> None ->
       return_slot isDynamicType c ps = Err ReplaceStateAndUse).
Proof.
  intros Hlt H. unfold replaceState in H.
  destruct (outputs (fragment fc)) as [|o [|o' r]] eqn:Eo;
    cbn [List.length Nat.eqb negb orb] in H; try discriminate.
  destruct (String.eqb o "bytes[]"); cbn [negb] in H; [|discriminate].
  injection H as <-.
  exists {| call := fc; type := RAWCALL |}. split; [|split].
  - apply commands_heap_append. exact Hlt.
  - reflexivity.
  - intros ps. unfold return_slot.
    destruct (dict_get key_eqb (ps_commandVisibility ps)
                (key {| call := fc; type := RAWCALL |})) as [e|].
    + split; [discriminate|]. intros _. reflexivity.
    + split; [|congruence]. intros _.
      cbn [type call is_state_replacing andb]. rewrite Eo. reflexivity.
Qed.

(** [replaceState] of a call of [useState], without and with a consumer of
    its return value. *)
Lemma replaceState_return_slot_witness :
  exists c,
    commands (snd (replaceState [[]] 0 (library_call 1 use_state [StateValue]))) 0 = [c] /\
    return_slot sample_isDynamicType c one_literal_state = Ok (0xFE%Z, one_literal_state) /\
    return_slot sample_isDynamicType c consumed_replaceState_state
      = Err ReplaceStateAndUse.
Proof.
  destruct (replaceState_return_slot sample_isDynamicType [[]]
              (snd (replaceState [[]] 0 (library_call 1 use_state [StateValue])))
              0 (library_call 1 use_state [StateValue]))
    as (c & Hc & Hk & Hr).
  - simpl. lia.
  - reflexivity.
  - exists c. split; [exact Hc|]. split.
    + apply (proj1 (Hr one_literal_state)). rewrite Hk. reflexivity.
    + apply (proj2 (Hr consumed_replaceState_state)). rewrite Hk. discriminate.
Defined.

(** ** Calls made through a [WeirollContract] *)

(** X12: a function without inputs cannot be called through a
    [WeirollContract]: [simple_type_strings] gives its fragment no
    [simple_inputs], and [encode_args] asserts that there are some.  Called
    without arguments the function raises an [AssertionError]; called with
    arguments, the [ValueError] of the argument count. *)
Theorem buildCall_without_inputs_raises (isDynamicType : string -> bool) (Raw : Type)
    (eth_abi_encode_single : string -> Raw -> option bytes)
    (py_iter : PyArg Raw -> option (list (PyArg Raw)))
    (contract : WeirollContract) (f : FunctionFragment) (fr : Fragment)
    (new_id : nat) (pyargs : list (PyArg Raw)) :
  FunctionFragment_init isDynamicType f = Built fr ->
  inputs f = [] ->
  buildCall Raw eth_abi_encode_single py_iter contract fr new_id pyargs
  = Raised (match pyargs with [] => AssertionError | _ :: _ => ArgumentCount end).
Proof.
  unfold FunctionFragment_init. intros Hf Hi. rewrite Hi in Hf. cbn in Hf.
  injection Hf as <-. unfold buildCall, encode_args. cbn [abi simple_sizes simple_inputs].
  rewrite Hi. destruct pyargs; reflexivity.
Qed.

Lemma buildCall_without_inputs_raises_witness :
  FunctionFragment_init sample_isDynamicType get_value = Built get_value_fragment /\
  buildCall Z sample_eth_abi_encode_single sample_py_iter math_contract
    get_value_fragment 1 [] = Raised AssertionError.
Proof.
  split; [reflexivity|].
  apply (buildCall_without_inputs_raises sample_isDynamicType Z
           sample_eth_abi_encode_single sample_py_iter math_contract
           get_value get_value_fragment 1 [] eq_refl eq_refl).
Defined.

Lemma encode_each_typed (Raw : Type)
    (eth_abi_encode_single : string -> Raw -> option bytes)
    (params : list string) (pyargs : list (PyArg Raw)) :
  forall i l,
  encode_each Raw eth_abi_encode_single params i pyargs = Built l ->
  List.length l = List.length pyargs /\
  forall n a, nth_error l n = Some a ->
    (exists p, nth_error pyargs n = Some (PyPlanner p) /\ a = SubplanValue p) \/
    nth_error params (i + n) = Some (arg_param a).
Proof.
  induction pyargs as [|arg rest IH]; intros i l H; cbn [encode_each] in H.
  - injection H as <-. split; [reflexivity|]. intros [|n] a Hn; discriminate.
  - destruct (nth_error params i) as [param|] eqn:Ep; [|discriminate].
    destruct (encodeArg Raw eth_abi_encode_single arg param) as [a0|e] eqn:Ea;
      [|discriminate].
    destruct (encode_each Raw eth_abi_encode_single params (S i) rest) as [l0|e] eqn:El;
      [|discriminate].
    injection H as <-. destruct (IH _ _ El) as [Hlen Hty].
    split; [simpl; rewrite Hlen; reflexivity|].
    intros [|n] a Hn; cbn [nth_error] in *.
    + injection Hn as <-. rewrite Nat.add_0_r. unfold encodeArg in Ea.
      destruct arg as [v|p|v].
      * destruct (String.eqb_spec (arg_param v) param) as [E | E]; cbn [negb] in Ea;
          [|discriminate].
        injection Ea as <-. right. rewrite Ep, E. reflexivity.
      * injection Ea as <-. left. exists p. split; reflexivity.
      * destruct (eth_abi_encode_single param v); [|discriminate].
        injection Ea as <-. right. exact Ep.
    + destruct (Hty n a Hn) as [Hp | Hp]; [left; exact Hp|right].
      rewrite <- Nat.add_succ_comm. exact Hp.
Qed.

(** X13: a call that a [WeirollContract] makes has the address and the flags
    of the contract and no call value, and every argument of it has the type
    [simple_inputs] gives for its position, except where a planner was
    passed: a planner becomes a [SubplanValue] whatever type the position
    has. *)
Theorem buildCall_arguments_typed (Raw : Type)
    (eth_abi_encode_single : string -> Raw -> option bytes)
    (py_iter : PyArg Raw -> option (list (PyArg Raw)))
    (contract : WeirollContract) (fr : Fragment)
    (new_id : nat) (pyargs : list (PyArg Raw)) (c : FunctionCall) :
  buildCall Raw eth_abi_encode_single py_iter contract fr new_id pyargs = Built c ->
  address c = contract_address contract /\ flags c = commandFlags contract /\
  callvalue c = None /\ fragment c = abi fr /\
  exists params, simple_inputs fr = Some params /\
    forall n a, nth_error (args c) n = Some a ->
      (exists p, a = SubplanValue p) \/ nth_error params n = Some (arg_param a).
Proof.
  unfold buildCall, encode_args. intros H.
  destruct (negb (List.length pyargs =? List.length (inputs (abi fr)))%nat);
    [discriminate|].
  destruct (simple_args Raw py_iter (simple_sizes fr) pyargs) as [args'|e];
    [|discriminate].
  destruct (simple_inputs fr) as [params|]; [|discriminate].
  destruct (encode_each Raw eth_abi_encode_single params 0 args') as [l|e] eqn:El;
    [|discriminate].
  injection H as <-. cbn. repeat split.
  exists params. split; [reflexivity|].
  intros n a Hn. destruct (encode_each_typed _ _ _ _ _ _ El) as [_ Hty].
  destruct (Hty n a Hn) as [(p & _ & ->) | Hp]; [left; eexists; reflexivity|right].
  exact Hp.
Qed.

Lemma buildCall_arguments_typed_witness :
  FunctionFragment_init sample_isDynamicType math_add = Built math_add_fragment /\
  exists c,
    buildCall Z sample_eth_abi_encode_single sample_py_iter math_contract
      math_add_fragment 1 [PyRaw 1%Z; PyRaw 2%Z] = Built c /\
    args c = [lit 1; lit 2] /\ flags c = commandFlags math_contract.
Proof.
  split; [reflexivity|].
  eexists. split; [reflexivity|]. split; [reflexivity|].
  apply (buildCall_arguments_typed Z sample_eth_abi_encode_single sample_py_iter
           math_contract math_add_fragment 1 [PyRaw 1%Z; PyRaw 2%Z] _ eq_refl).
Defined.

(** ** [simple_type_strings] *)

Lemma simple_type_step_size isDynamicType (i : string) (types : list string) (size : nat) :
  simple_type_step isDynamicType i = Built (types, size) -> List.length types = size.
Proof.
  unfold simple_type_step.
  destruct (endswith i "]" && negb (endswith i "[]")).
  - destruct (match_fixed_array i) as [[base digits]|]; [|discriminate].
    intros H. injection H as <- <-. apply repeat_length.
  - destruct (startswith i "(" && endswith i ")" && negb (isDynamicType i));
      intros H; injection H as <- <-; reflexivity.
Qed.

Lemma simple_type_loop_sizes isDynamicType (inputs : list string) :
  forall si ss si' ss',
  simple_type_loop isDynamicType inputs si ss = Built (si', ss') ->
  exists types sizes,
    si' = si ++ types /\ ss' = ss ++ sizes /\
    List.length sizes = List.length inputs /\ list_sum sizes = List.length types.
Proof.
  induction inputs as [|i r IH]; intros si ss si' ss' H; cbn [simple_type_loop] in H.
  - injection H as <- <-. exists [], []. rewrite !app_nil_r. auto.
  - destruct (simple_type_step isDynamicType i) as [[types size]|e] eqn:Es;
      [|discriminate].
    apply simple_type_step_size in Es.
    destruct (IH _ _ _ _ H) as (ts & sz & -> & -> & Hl & Hs).
    exists (types ++ ts), (size :: sz).
    rewrite <- !app_assoc. repeat split; auto.
    + simpl. rewrite Hl. reflexivity.
    + simpl. rewrite length_app, Hs, Es. reflexivity.
Qed.

Lemma list_sum_ones (l : list nat) :
  forallb (Nat.eqb 1) l = true -> list_sum l = List.length l.
Proof.
  induction l as [|x r IH]; intros H; [reflexivity|].
  simpl in H. apply andb_true_iff in H. destruct H as [Hx Hr].
  destruct x as [|[|x]]; try discriminate. simpl. rewrite IH; auto.
Qed.

(** X14: how the two results of [simple_type_strings] fit the inputs and
    each other.  Without inputs both are [None].  Otherwise [simple_inputs] is
    a list, and either [simple_sizes] is [None] and [simple_inputs] has one
    type for each input, or [simple_sizes] has one size for each input, not
    all of them 1, and the sizes add up to the length of [simple_inputs]. *)
Theorem simple_type_strings_sizes isDynamicType (inputs : list string)
    (si : option (list string)) (ss : option (list nat)) :
  simple_type_strings isDynamicType inputs = Built (si, ss) ->
  match si, ss with
  | None, None => inputs = []
  | Some params, None => inputs <> [] /\ List.length params = List.length inputs
  | Some params, Some sizes =>
    inputs <> [] /\ List.length sizes = List.length inputs /\
    list_sum sizes = List.length params /\ forallb (Nat.eqb 1) sizes = false
  | None, Some _ => False
  end.
Proof.
  unfold simple_type_strings. destruct inputs as [|i r].
  - intros H. injection H as <- <-. reflexivity.
  - destruct (simple_type_loop isDynamicType (i :: r) [] []) as [[params sizes]|e] eqn:El;
      [|discriminate].
    destruct (simple_type_loop_sizes _ _ _ _ _ _ El) as (ts & sz & -> & -> & Hl & Hs).
    cbn [app] in *.
    destruct (forallb (Nat.eqb 1) sz) eqn:Ef; intros H; injection H as <- <-.
    + split; [discriminate|]. rewrite <- Hs, <- Hl. apply list_sum_ones.
      exact Ef.
    + repeat split; auto. discriminate.
Qed.

(** The inputs of Curve's [add_liquidity(uint256[3],uint256)]. *)
Lemma simple_type_strings_sizes_witness :
  simple_type_strings sample_isDynamicType ["uint256[3]"; "uint256"]%string
  = Built (Some (repeat "uint256"%string 4), Some [3; 1]) /\
  list_sum [3; 1] = List.length (repeat "uint256"%string 4).
Proof.
  split; [reflexivity|].
  destruct (simple_type_strings_sizes sample_isDynamicType
              ["uint256[3]"; "uint256"]%string
              (Some (repeat "uint256"%string 4)) (Some [3; 1]) eq_refl)
    as (_ & _ & H & _).
  exact H.
Defined.

(** ** What the visibility map can hold *)

Section PreplanInvariantOn.
(** A property of the walk state that is kept when the walk records an
    argument of the kind [good]; all the arguments of the planners are of
    this kind. *)
Variable h : Heap.
Variable I : PreState -> Prop.
Variable good : Arg -> Prop.
Hypothesis I_cv : forall st p k c, good (ReturnValue p k) ->
  I st -> I (set_commandVisibility (dict_set key_eqb (commandVisibility st) k c) st).
Hypothesis I_lv : forall st p v c, good (LiteralValue p v) ->
  I st -> I (set_literalVisibility (dict_set bytes_eqb (literalVisibility st) v c) st).
Hypothesis I_seen : forall st s, I st -> I (set_seen s st).
Hypothesis I_enter : forall st self, I st -> I (enter self st).
Hypothesis heap_good : forall p c l,
  In c (commands h p) -> inargs c = Ok l -> Forall good l.

Lemma preplan_args_inv_on (rec : nat -> PreState -> res unit * PreState)
    (c : Command) (l : list Arg) :
  (forall q st, I st -> I (snd (rec q st))) ->
  Forall good l ->
  forall st, I st -> I (snd (preplan_args rec c l st)).
Proof.
  intros Hrec Hl. induction Hl as [|a r Ha Hr IH]; intros st Hst; simpl; auto.
  destruct a as [p|p v|p k| |q]; simpl; auto.
  - apply IH. apply (I_lv st p v (key c) Ha Hst).
  - destruct (set_mem key_eqb k (seen st)); simpl; auto.
    apply IH. apply (I_cv st p k (key c) Ha Hst).
  - pose proof (Hrec q _ Hst) as Hq.
    destruct (rec q st) as [r0 st']. simpl in Hq.
    assert (Hst'' : I match outputs (fragment (call c)) with
                      | [] => set_seen (seen st) st'
                      | _ :: _ => st'
                      end)
      by (destruct (outputs (fragment (call c))); auto).
    destruct r0; simpl; auto.
Qed.

Lemma preplan_commands_inv_on (rec : nat -> PreState -> res unit * PreState)
    (l : list Command) :
  (forall q st, I st -> I (snd (rec q st))) ->
  (forall c la, In c l -> inargs c = Ok la -> Forall good la) ->
  forall st, I st -> I (snd (preplan_commands rec l st)).
Proof.
  intros Hrec. induction l as [|c rest IH]; intros Hl st Hst; simpl; auto.
  unfold preplan_command.
  destruct (inargs c) as [la|e|] eqn:Ei; simpl; auto.
  pose proof (preplan_args_inv_on rec c la Hrec (Hl c la (or_introl eq_refl) Ei) st Hst)
    as Ha.
  destruct (preplan_args rec c la st) as [[[]|e|] st']; simpl in *; auto.
  apply IH; auto.
  intros c' la' Hc'. apply Hl. right. exact Hc'.
Qed.

Lemma preplan_inv_on (fuel : nat) : forall self st,
  I st -> I (snd (preplan fuel h self st)).
Proof.
  induction fuel as [|fuel IH]; intros self st Hst; simpl; auto.
  destruct (set_mem Nat.eqb self (planners st)); simpl; auto.
  apply preplan_commands_inv_on; auto.
  - intros c la. apply heap_good.
  - apply (I_enter st self Hst).
Qed.
End PreplanInvariantOn.

Lemma buildCommand_replace_error isDynamicType (c : Command) (ps : PlannerState) :
  buildCommand isDynamicType c ps = Err ReplaceStateAndUse ->
  dict_get key_eqb (ps_commandVisibility ps) (key c) <> None /\
  is_state_replacing (type c) = true.
Proof.
  intros H. apply buildCommand_err_inv in H.
  destruct H as [H|(cargs & _ & [H|(ret & ps' & _ & _ & H)])]; [| |discriminate].
  - apply buildCommandArgs_error in H. destruct H as [H|[H|H]]; discriminate.
  - apply return_slot_error in H. destruct H as (_ & Ht & Hk).
    split; [exact Hk|exact Ht].
Qed.

Lemma buildCommands_never_replace_error isDynamicType encode_bytes32_array
    (h : Heap) (cv : list (CommandKey * CommandKey)) (fuel : nat) :
  (forall k, dict_get key_eqb cv k <> None -> snd k = CALL) ->
  forall self ps, ps_commandVisibility ps = cv ->
  buildCommands isDynamicType encode_bytes32_array fuel h self ps
  <> Err ReplaceStateAndUse.
Proof.
  intros Hcv. induction fuel as [|fuel IH]; intros self ps Hps; [discriminate|].
  simpl. generalize (@nil bytes) as acc. revert ps Hps.
  induction (commands h self) as [|c rest IHl]; intros ps Hps acc; simpl;
    [discriminate|].
  destruct (build_subplan encode_bytes32_array
              (buildCommands isDynamicType encode_bytes32_array fuel h) c ps)
    as [ps1|e1|] eqn:E1; try discriminate.
  - assert (Hps1 : ps_commandVisibility ps1 = cv).
    { assert (E : extends encode_bytes32_array True ps ps1)
        by (eapply build_subplan_extends;
            [intros q ps0 r ps0' Hq; eapply buildCommands_extends; [|exact Hq];
             intros; exact Logic.I
            |intros; exact Logic.I
            |exact E1]).
      destruct E as (_ & Ecv & _). congruence. }
    destruct (buildCommand isDynamicType c ps1) as [[w ps2]|e2|] eqn:E2;
      try discriminate.
    + apply IHl.
      assert (E : extends encode_bytes32_array True ps1 ps2)
        by (eapply buildCommand_extends; exact E2).
      destruct E as (_ & Ecv & _). congruence.
    + intros H. injection H as ->.
      apply buildCommand_replace_error in E2. destruct E2 as [Hk Hr].
      rewrite Hps1 in Hk. apply Hcv in Hk. unfold key in Hk. simpl in Hk.
      rewrite Hk in Hr. discriminate.
  - intros H. injection H as ->. unfold build_subplan in E1.
    destruct (type c); try discriminate.
    destruct (find_subplan (args (call c))) as [q|]; [|discriminate].
    destruct (buildCommands isDynamicType encode_bytes32_array fuel h q ps)
      as [[sub ps']|e2|] eqn:Eq; try discriminate.
    + destruct (forallb fits_bytes32 sub); discriminate.
    + injection E1 as ->. exact (IH q ps Hps Eq).
Qed.

(** X15: [add] is the only method that hands out return values, and it
    hands them out for CALL commands.  When the return values that the
    commands of the planners pass all refer to CALL commands, [plan] never
    raises "Return value of .. cannot be used to replace state and in another
    function", whatever the planners hold besides. *)
Theorem plan_never_replace_error isDynamicType encode_bytes32_array
    (h : Heap) (self : nat) (g : Globals) :
  (forall p c q k, In c (commands h p) ->
     In (ReturnValue q k) (args (call c)) -> snd k = CALL) ->
  fst (plan isDynamicType encode_bytes32_array h self g) <> Err ReplaceStateAndUse.
Proof.
  intros Hh. unfold plan. fold (plan_start g).
  assert (Hcv : forall k,
            dict_get key_eqb
              (commandVisibility (snd (preplan (S (List.length h)) h self (plan_start g))))
              k <> None -> snd k = CALL).
  { apply (preplan_inv_on h
             (fun st => forall k, dict_get key_eqb (commandVisibility st) k <> None ->
                                  snd k = CALL)
             (fun a => match a with ReturnValue _ k => snd k = CALL | _ => True end)).
    - intros st p k c Hk Hst k'. simpl.
      rewrite (dict_get_set key_eqb key_eqb_eq).
      destruct (key_eqb k' k) eqn:E; [|apply Hst].
      apply key_eqb_eq in E. subst. auto.
    - intros st p v c _ Hst. exact Hst.
    - intros st s Hst. exact Hst.
    - intros st q Hst. exact Hst.
    - intros p c l Hc Hi. apply Forall_forall. intros a Ha.
      destruct a as [p0|p0 v|p0 k| |q]; auto.
      apply (Hh p c p0 k Hc). eapply inargs_return; eauto.
    - simpl. intros k Hk. congruence. }
  pose proof (preplan_walk_error h (S (List.length h)) self (plan_start g)) as Hw.
  destruct (preplan (S (List.length h)) h self (plan_start g)) as [r st].
  cbn [fst snd] in Hcv, Hw.
  destruct r as [[]|e|].
  - destruct (prepopulate (literalVisibility st)) as [[st0 lsm] exps].
    match goal with
    | |- fst (match ?X with _ => _ end) <> _ => destruct X as [[? ?]| |] eqn:Eb
    end; cbn [fst]; try discriminate.
    intros H. injection H as ->.
    eapply buildCommands_never_replace_error in Eb; eauto.
  - cbn [fst]. intros H. injection H as ->.
    destruct (Hw _ eq_refl) as [H | [H | [H | H]]]; discriminate.
  - discriminate.
Qed.

Lemma plan_never_replace_error_witness :
  fst (plan sample_isDynamicType sample_encode_bytes32_array
         [[sum_producer; sum_consumer 21; replace_state]] 0 fresh_globals)
  <> Err ReplaceStateAndUse.
Proof.
  apply (plan_never_replace_error sample_isDynamicType sample_encode_bytes32_array
           [[sum_producer; sum_consumer 21; replace_state]] 0 fresh_globals).
  intros p c q k Hc Ha.
  destruct p as [|[|p]]; simpl in Hc; [|contradiction|destruct p; contradiction].
  repeat (destruct Hc as [<- | Hc];
          [simpl in Ha;
           repeat (destruct Ha as [Ha | Ha];
                   [try discriminate; try (injection Ha as <- <-; reflexivity)|]);
           contradiction|]).
  contradiction.
Defined.

(** ** The walk and the encoder, side by side *)

Section WalkSeen.
Variable rec : nat -> PreState -> res unit * PreState.
Hypothesis rec_seen : forall q st, incl (seen st) (seen (snd (rec q st))).

Lemma preplan_args_seen_incl (c : Command) (l : list Arg) (st : PreState) :
  incl (seen st) (seen (snd (preplan_args rec c l st))).
Proof.
  apply preplan_args_inv with (I := fun s => incl (seen st) (seen s)); simpl; auto.
  - intros s s0 k H0 Hs. split; [exact H0|]. apply incl_tl. exact Hs.
  - intros q s Hs. eapply incl_tran; [exact Hs|apply rec_seen].
  - apply incl_refl.
Qed.

(** After a successful walk of the arguments, every return value among them
    is visible. *)
Lemma preplan_args_returns_seen (c : Command) (l : list Arg) : forall st s1,
  preplan_args rec c l st = (Ok tt, s1) ->
  forall p k, In (ReturnValue p k) l -> In k (seen s1).
Proof.
  induction l as [|a r IH]; intros st s1 H p k Hin; [contradiction|].
  cbn [preplan_args] in H.
  destruct a as [p0|p0 v|p0 k0| |q].
  - discriminate.
  - destruct Hin as [Hin | Hin]; [discriminate|]. eapply IH; eauto.
  - destruct (set_mem key_eqb k0 (seen st)) eqn:Em; [|discriminate].
    destruct Hin as [Hin | Hin]; [|eapply IH; eauto].
    injection Hin as _ ->. apply set_mem_key in Em.
    match type of H with
    | preplan_args rec c r ?s = _ =>
      pose proof (preplan_args_seen_incl c r s) as Hi
    end.
    rewrite H in Hi. apply Hi. exact Em.
  - destruct Hin as [Hin | Hin]; [discriminate|]. eapply IH; eauto.
  - destruct Hin as [Hin | Hin]; [discriminate|].
    destruct (rec q st) as [r0 s'].
    destruct r0 as [[]|e|]; try discriminate. eapply IH; eauto.
Qed.

(** Without subplan arguments the walk of the arguments leaves [seen] as it
    is. *)
Lemma preplan_args_nosub_seen (c : Command) (l : list Arg) : forall st s1,
  count_subplan l = 0 ->
  preplan_args rec c l st = (Ok tt, s1) -> seen s1 = seen st.
Proof.
  unfold count_subplan.
  induction l as [|a r IH]; intros st s1 Hn H; cbn [preplan_args] in H.
  - injection H as <-. reflexivity.
  - destruct a as [p0|p0 v|p0 k0| |q]; simpl in Hn; try discriminate.
    + apply (IH _ _ Hn) in H. exact H.
    + destruct (set_mem key_eqb k0 (seen st)); [|discriminate].
      apply (IH _ _ Hn) in H. exact H.
    + apply (IH _ _ Hn) in H. exact H.
Qed.

(** With one subplan argument, the walk of the arguments walks this subplan,
    from a state with the same [seen], and makes nothing visible but what the
    subplan has made visible. *)
Lemma preplan_args_onesub_seen (c : Command) (l : list Arg) : forall st s1,
  count_subplan l = 1 ->
  preplan_args rec c l st = (Ok tt, s1) ->
  exists q st_a st_b,
    find_subplan l = Some q /\ In (SubplanValue q) l /\ seen st_a = seen st /\
    rec q st_a = (Ok tt, st_b) /\ incl (seen s1) (seen st_b).
Proof.
  unfold count_subplan.
  induction l as [|a r IH]; intros st s1 Hn H; cbn [preplan_args] in H;
    [discriminate|].
  destruct a as [p0|p0 v|p0 k0| |q]; simpl in Hn; try discriminate.
  - destruct (IH _ _ Hn H) as (q & sa & sb & Hf & Hi & Hs & Hr & Hincl).
    exists q, sa, sb. simpl. auto.
  - destruct (set_mem key_eqb k0 (seen st)); [|discriminate].
    destruct (IH _ _ Hn H) as (q & sa & sb & Hf & Hi & Hs & Hr & Hincl).
    exists q, sa, sb. simpl. auto.
  - destruct (IH _ _ Hn H) as (q & sa & sb & Hf & Hi & Hs & Hr & Hincl).
    exists q, sa, sb. simpl. auto.
  - pose proof (rec_seen q st) as Hm.
    destruct (rec q st) as [r0 s'] eqn:Er.
    destruct r0 as [[]|e|]; try discriminate.
    exists q, st, s'. simpl in Hm. simpl. repeat split; auto.
    injection Hn as Hn. apply preplan_args_nosub_seen in H; [|exact Hn].
    rewrite H. destruct (outputs (fragment (call c))); simpl.
    + exact Hm.
    + apply incl_refl.
Qed.
End WalkSeen.

Lemma buildCommandArgs_loop_no_KeyError isDynamicType (l : list Arg) rsm lsm st :
  (forall p k, In (ReturnValue p k) l -> dict_get key_eqb rsm k <> None) ->
  (forall p b, In (LiteralValue p b) l -> dict_get bytes_eqb lsm b <> None) ->
  no_lookup_error (fun _ => True) (buildCommandArgs_loop isDynamicType l rsm lsm st).
Proof.
  induction l as [|a r IH]; intros Hr Hl; cbn [buildCommandArgs_loop]; [exact I|].
  assert (IH' : no_lookup_error (fun _ => True)
                  (buildCommandArgs_loop isDynamicType r rsm lsm st)).
  { apply IH; intros; [eapply Hr|eapply Hl]; right; eauto. }
  destruct a as [p0|p0 v|p0 k0| |q].
  - simpl. split; discriminate.
  - destruct (dict_get bytes_eqb lsm v) eqn:E.
    + destruct (buildCommandArgs_loop isDynamicType r rsm lsm st); simpl in *; auto.
    + exfalso. apply (Hl p0 v); [left; reflexivity|exact E].
  - destruct (dict_get key_eqb rsm k0) eqn:E.
    + destruct (buildCommandArgs_loop isDynamicType r rsm lsm st); simpl in *; auto.
    + exfalso. apply (Hr p0 k0); [left; reflexivity|exact E].
  - destruct (buildCommandArgs_loop isDynamicType r rsm lsm st); simpl in *; auto.
  - destruct (buildCommandArgs_loop isDynamicType r rsm lsm st); simpl in *; auto.
Qed.

(** The encoder on a command whose return values and literals it can
    resolve: no lookup fails, the slots it has stay, and the command gets
    one if it has a consumer. *)
Lemma buildCommand_no_lookup_error isDynamicType (c : Command) (ps : PlannerState)
    (la : list Arg) :
  inargs c = Ok la ->
  (forall p k, In (ReturnValue p k) la ->
     dict_get key_eqb (returnSlotMap ps) k <> None) ->
  (forall p b, In (LiteralValue p b) la ->
     dict_get bytes_eqb (literalSlotMap ps) b <> None) ->
  no_lookup_error
    (fun r =>
       ps_commandVisibility (snd r) = ps_commandVisibility ps /\
       literalSlotMap (snd r) = literalSlotMap ps /\
       (forall k, dict_get key_eqb (returnSlotMap ps) k <> None ->
                  dict_get key_eqb (returnSlotMap (snd r)) k <> None) /\
       (dict_get key_eqb (ps_commandVisibility ps) (key c) <> None ->
        dict_get key_eqb (returnSlotMap (snd r)) (key c) <> None))
    (buildCommand isDynamicType c ps).
Proof.
  intros Hi Hr Hl.
  pose proof (buildCommandArgs_loop_no_KeyError isDynamicType la
                (returnSlotMap ps) (literalSlotMap ps) (state ps) Hr Hl) as Ha.
  destruct (buildCommand isDynamicType c ps) as [[w ps2]|e|] eqn:E; simpl; auto.
  - apply buildCommand_inv in E. destruct E as (cargs & ret & _ & E & _).
    unfold return_slot in E.
    cbn [with_expired ps_commandVisibility freeSlots state returnSlotMap
         literalSlotMap stateExpirations] in E.
    destruct (dict_get key_eqb (ps_commandVisibility ps) (key c)) as [ec|] eqn:Ec.
    + destruct (is_state_replacing (type c)); [discriminate|].
      destruct (pop (freeSlots ps ++ expirations (stateExpirations ps) (key c)))
        as [[s r]|]; injection E as _ <-; simpl; repeat split; auto.
      * intros k Hk. rewrite (dict_get_set key_eqb key_eqb_eq).
        destruct (key_eqb k (key c)); [discriminate|exact Hk].
      * intros _. rewrite (dict_get_set key_eqb key_eqb_eq).
        rewrite (proj2 (key_eqb_eq _ _) eq_refl). discriminate.
      * intros k Hk. rewrite (dict_get_set key_eqb key_eqb_eq).
        destruct (key_eqb k (key c)); [discriminate|exact Hk].
      * intros _. rewrite (dict_get_set key_eqb key_eqb_eq).
        rewrite (proj2 (key_eqb_eq _ _) eq_refl). discriminate.
    + injection E as _ <-. simpl. repeat split; auto.
  - apply buildCommand_err_inv in E.
    destruct E as [E|(cargs & _ & [E|(ret & ps' & _ & _ & ->)])].
    + unfold buildCommandArgs in E. rewrite Hi in E. rewrite E in Ha. exact Ha.
    + apply return_slot_error in E. destruct E as (-> & _). split; discriminate.
    + split; discriminate.
Qed.

Lemma no_lookup_error_impl {A} (P Q : A -> Prop) (r : res A) :
  (forall a, P a -> Q a) -> no_lookup_error P r -> no_lookup_error Q r.
Proof. intros H. destruct r; simpl; auto. Qed.

Lemma inargs_subplans (c : Command) (la : list Arg) :
  inargs c = Ok la ->
  count_subplan la = count_subplan (args (call c)) /\
  find_subplan la = find_subplan (args (call c)) /\
  forall q, In (SubplanValue q) la -> In (SubplanValue q) (args (call c)).
Proof.
  unfold inargs.
  destruct (Z.land (flags (call c)) CALLTYPE_MASK =? CALL_WITH_VALUE)%Z;
    [destruct (callvalue (call c)) as [[p v]|]; [|discriminate]|];
    intros H; injection H as <-; repeat split; auto.
  intros q [Hq | Hq]; [discriminate|exact Hq].
Qed.

Section Lockstep.
Variable isDynamicType : string -> bool.
Variable encode_bytes32_array : list bytes -> bytes.
Variable cv : list (CommandKey * CommandKey).
Variable lsm : list (bytes * Z).
(** The recursive calls of the walk and of the encoder, and the planners
    [P] on which the second follows the first. *)
Variable rec_w : nat -> PreState -> res unit * PreState.
Variable rec_e : nat -> PlannerState -> res (list bytes * PlannerState).
Variable P : nat -> Prop.
Hypothesis rec_seen : forall q st, incl (seen st) (seen (snd (rec_w q st))).
Hypothesis rec_lockstep : forall q st st' ps,
  P q -> rec_w q st = (Ok tt, st') -> resolves cv lsm st ps ->
  no_lookup_error (fun r => resolves cv lsm st' (snd r)) (rec_e q ps).

Lemma command_lockstep (c : Command) (st st1 : PreState) (ps : PlannerState) :
  recorded cv lsm c -> subplans_in_place c ->
  (forall q, In (SubplanValue q) (args (call c)) -> P q) ->
  preplan_command rec_w c st = (Ok tt, st1) ->
  resolves cv lsm st ps ->
  no_lookup_error
    (fun ps1 =>
       no_lookup_error (fun r => resolves cv lsm st1 (snd r))
         (buildCommand isDynamicType c ps1))
    (build_subplan encode_bytes32_array rec_e c ps).
Proof.
  intros [Hrec_r Hrec_l] Hplace HP Hw (Hcv & Hlsm & Hres).
  unfold preplan_command in Hw.
  destruct (inargs c) as [la|e|] eqn:Ei; try discriminate.
  destruct (preplan_args rec_w c la st) as [r s1] eqn:Ea.
  destruct r as [[]|e|]; try discriminate. injection Hw as <-.
  destruct (inargs_subplans c la Ei) as (Hcount & Hfind & Hin).
  pose proof (preplan_args_returns_seen rec_w rec_seen c la st s1 Ea) as Hret.
  (* what is left to do once the subplan, if any, is built *)
  assert (Hstep : forall ps1,
            ps_commandVisibility ps1 = cv -> literalSlotMap ps1 = lsm ->
            (forall k, In k (seen s1) -> dict_get key_eqb cv k <> None ->
                       dict_get key_eqb (returnSlotMap ps1) k <> None) ->
            no_lookup_error
              (fun r => resolves cv lsm (set_seen (key c :: seen s1) s1) (snd r))
              (buildCommand isDynamicType c ps1)).
  { intros ps1 Hcv1 Hlsm1 Hres1.
    eapply no_lookup_error_impl;
      [|apply (buildCommand_no_lookup_error isDynamicType c ps1 la Ei)].
    - intros [w ps2] (H1 & H2 & H3 & H4). cbn [snd] in *.
      split; [congruence|]. split; [congruence|].
      intros k [<- | Hk] Hk'.
      + apply H4. rewrite Hcv1. exact Hk'.
      + apply H3. apply Hres1; assumption.
    - intros p k Hk. apply Hres1; [eapply Hret; eauto|].
      eapply Hrec_r. eapply inargs_return; eauto.
    - intros p b Hb. rewrite Hlsm1. eapply Hrec_l; eauto. }
  unfold subplans_in_place in Hplace. rewrite <- Hcount in Hplace.
  unfold build_subplan.
  destruct (type c).
  - simpl. apply Hstep; auto.
    apply (preplan_args_nosub_seen rec_w c la st s1 Hplace) in Ea.
    rewrite Ea. exact Hres.
  - simpl. apply Hstep; auto.
    apply (preplan_args_nosub_seen rec_w c la st s1 Hplace) in Ea.
    rewrite Ea. exact Hres.
  - destruct (preplan_args_onesub_seen rec_w rec_seen c la st s1 Hplace Ea)
      as (q & st_a & st_b & Hf & Hq & Hsa & Hr & Hincl).
    rewrite <- Hfind, Hf.
    assert (Hres_a : resolves cv lsm st_a ps).
    { split; [exact Hcv|]. split; [exact Hlsm|]. rewrite Hsa. exact Hres. }
    pose proof (rec_lockstep q st_a st_b ps (HP q (Hin q Hq)) Hr Hres_a) as Hsub.
    destruct (rec_e q ps) as [[sub ps']|e|]; simpl in Hsub; simpl; auto.
    destruct Hsub as (Hcv' & Hlsm' & Hres').
    destruct (forallb fits_bytes32 sub); simpl; [|split; discriminate].
    apply Hstep; auto.
Qed.

Lemma commands_lockstep (l : list Command) : forall st st' ps acc,
  (forall c, In c l ->
     recorded cv lsm c /\ subplans_in_place c /\
     forall q, In (SubplanValue q) (args (call c)) -> P q) ->
  preplan_commands rec_w l st = (Ok tt, st') ->
  resolves cv lsm st ps ->
  no_lookup_error (fun r => resolves cv lsm st' (snd r))
    (buildCommands_loop isDynamicType encode_bytes32_array rec_e l acc ps).
Proof.
  induction l as [|c rest IH]; intros st st' ps acc Hl Hw Hres;
    cbn [preplan_commands buildCommands_loop] in *.
  - injection Hw as <-. exact Hres.
  - destruct (preplan_command rec_w c st) as [r st1] eqn:Ec.
    destruct r as [[]|e|]; try discriminate.
    destruct (Hl c (or_introl eq_refl)) as (H1 & H2 & H3).
    pose proof (command_lockstep c st st1 ps H1 H2 H3 Ec Hres) as Hc.
    destruct (build_subplan encode_bytes32_array rec_e c ps) as [ps1|e|];
      simpl in Hc; simpl; auto.
    destruct (buildCommand isDynamicType c ps1) as [[w ps2]|e|];
      simpl in Hc; simpl; auto.
    eapply IH; eauto. intros c' Hc'. apply Hl. right. exact Hc'.
Qed.
End Lockstep.

(** On planners with their subplan arguments in place, the encoder follows
    a successful walk: where the walk has made a consumed command visible,
    the encoder has given it a return slot. *)
Lemma preplan_buildCommands_lockstep isDynamicType encode_bytes32_array
    (h : Heap) (cv : list (CommandKey * CommandKey)) (lsm : list (bytes * Z)) :
  (forall p c, In c (commands h p) -> subplans_in_place c) ->
  forall fuel fuel' self st st' ps,
  recorded_under h cv lsm self ->
  preplan fuel h self st = (Ok tt, st') ->
  resolves cv lsm st ps ->
  no_lookup_error (fun r => resolves cv lsm st' (snd r))
    (buildCommands isDynamicType encode_bytes32_array fuel' h self ps).
Proof.
  intros Hwf. induction fuel as [|fuel IH]; intros fuel' self st st' ps Hrec Hw Hres;
    [discriminate|].
  destruct fuel' as [|fuel']; [exact I|].
  cbn [preplan buildCommands] in *.
  destruct (set_mem Nat.eqb self (planners st)); [discriminate|].
  eapply commands_lockstep with (rec_w := preplan fuel h)
                                (P := recorded_under h cv lsm).
  - intros q s. apply preplan_seen_incl.
  - intros q s s' ps0 Hq Hs Hr. eapply IH; eauto.
  - intros c Hc. split; [|split].
    + apply (Hrec self (walked_here h self) c Hc).
    + apply (Hwf self c Hc).
    + intros q Hq r Hr. apply Hrec.
      eapply walked_below; [exists c; split; eauto|exact Hr].
  - exact Hw.
  - destruct Hres as (H1 & H2 & H3). repeat split; auto.
Qed.

Section LiteralRecorded.
Variable b : bytes.

Lemma literal_kept_cv (st : PreState) (c k : CommandKey) :
  In b (map fst (literalVisibility st)) ->
  In b (map fst (literalVisibility
                   (set_commandVisibility
                      (dict_set key_eqb (commandVisibility st) c k) st))).
Proof. intros H. exact H. Qed.

Lemma literal_kept_lv (st : PreState) (v : bytes) (k : CommandKey) :
  In b (map fst (literalVisibility st)) ->
  In b (map fst (literalVisibility
                   (set_literalVisibility
                      (dict_set bytes_eqb (literalVisibility st) v k) st))).
Proof.
  intros H. simpl. apply (dict_set_keys_In bytes_eqb bytes_eqb_eq). left. exact H.
Qed.

Lemma literal_kept_walk (h : Heap) (fuel q : nat) (st : PreState) :
  In b (map fst (literalVisibility st)) ->
  In b (map fst (literalVisibility (snd (preplan fuel h q st)))).
Proof.
  apply preplan_inv with (I := fun s => In b (map fst (literalVisibility s))).
  - apply literal_kept_cv.
  - apply literal_kept_lv.
  - intros s s0 k _ H. split; exact H.
  - intros s p H. exact H.
Qed.

Lemma preplan_commands_records_inargs_literal
    (rec : nat -> PreState -> res unit * PreState) (l : list Command)
    (c : Command) (la : list Arg) (p : string) :
  (forall q st, In b (map fst (literalVisibility st)) ->
                In b (map fst (literalVisibility (snd (rec q st))))) ->
  In c l -> inargs c = Ok la -> In (LiteralValue p b) la ->
  forall st,
  fst (preplan_commands rec l st) = Ok tt ->
  In b (map fst (literalVisibility (snd (preplan_commands rec l st)))).
Proof.
  intros Hrec Hc Hi Hb.
  induction l as [|c0 rest IH]; intros st Hok; [contradiction|].
  cbn [preplan_commands] in *.
  destruct Hc as [-> | Hc].
  - unfold preplan_command in *. rewrite Hi in *.
    pose proof (preplan_args_records
                  (fun s => In b (map fst (literalVisibility s)))
                  literal_kept_cv literal_kept_lv (fun s _ H => H)
                  rec Hrec (LiteralValue p b)) as Hr.
    specialize (Hr (fun c0 s0 =>
                      dict_set_keys_In bytes_eqb bytes_eqb_eq
                        (literalVisibility s0) b b (key c0) (or_intror eq_refl))
                   c la st Hb).
    destruct (preplan_args rec c la st) as [r s1].
    destruct r as [[]|e|]; try discriminate. cbn [fst snd] in Hr.
    apply preplan_commands_inv
      with (I := fun s => In b (map fst (literalVisibility s))).
    + apply literal_kept_cv.
    + apply literal_kept_lv.
    + intros s s0 k _ H. split; exact H.
    + exact Hrec.
    + apply Hr. reflexivity.
  - destruct (preplan_command rec c0 st) as [r s1].
    destruct r as [[]|e|]; try discriminate. apply IH; assumption.
Qed.

(** A successful walk has recorded the literals of every command it came
    to, the call value among them. *)
Lemma preplan_records_inargs_literal (h : Heap) (self q : nat) (c : Command)
    (la : list Arg) (p : string) :
  walked_under h self q ->
  In c (commands h q) -> inargs c = Ok la -> In (LiteralValue p b) la ->
  forall fuel st,
  fst (preplan fuel h self st) = Ok tt ->
  In b (map fst (literalVisibility (snd (preplan fuel h self st)))).
Proof.
  intros Hw Hc Hi Hb.
  induction Hw as [p0|p0 q r (c1 & Hc1 & Ha1) Hw IH]; intros fuel st Hok;
    (destruct fuel as [|fuel]; [discriminate|]); cbn [preplan] in *;
    (destruct (set_mem Nat.eqb p0 (planners st)); [discriminate|]).
  - eapply preplan_commands_records_inargs_literal; eauto.
    intros q0 s. apply literal_kept_walk.
  - apply preplan_commands_records
      with (I := fun s => In b (map fst (literalVisibility s)))
           (a := SubplanValue q) (c := c1).
    + apply literal_kept_cv.
    + apply literal_kept_lv.
    + intros s s0 H. exact H.
    + intros q0 s. apply literal_kept_walk.
    + intros c0 s s' Hs. specialize (IH Hc fuel s). rewrite Hs in IH.
      apply IH. reflexivity.
    + exact Hc1.
    + exact Ha1.
    + exact Hok.
Qed.
End LiteralRecorded.

(** X16: where the subplan arguments of all planners are in place (one in
    every SUBPLAN command, none in a command of another type, which is what
    [addSubplan] and [add] accept) and the default [seen] set is empty, the
    lookups of the encoder never fail: [plan] raises neither a [KeyError]
    (a return value or a literal without slot) nor a [StopIteration] (a
    SUBPLAN command without subplan). *)
Theorem plan_lookups_never_fail isDynamicType encode_bytes32_array
    (h : Heap) (self : nat) (g : Globals) :
  (forall p c, In c (commands h p) -> subplans_in_place c) ->
  default_seen g = [] ->
  fst (plan isDynamicType encode_bytes32_array h self g) <> Err KeyError /\
  fst (plan isDynamicType encode_bytes32_array h self g) <> Err StopIteration.
Proof.
  intros Hwf Hg.
  assert (H : no_lookup_error (fun _ => True)
                (fst (plan isDynamicType encode_bytes32_array h self g))).
  { unfold plan. fold (plan_start g).
    pose proof (preplan_walk_error h (S (List.length h)) self (plan_start g)) as Hwe.
    destruct (preplan (S (List.length h)) h self (plan_start g)) as [r st] eqn:Ep.
    destruct r as [[]|e|]; cbn [fst] in *.
    - pose proof (prepopulate_spec (literalVisibility st)) as Hpp.
      destruct (prepopulate (literalVisibility st)) as [[st0 lsm] exps].
      destruct Hpp as [[_ Hs2] Hst0].
      assert (Hrec : recorded_under h (commandVisibility st) lsm self).
      { intros r Hr c Hc. split.
        - intros p k Hk.
          pose proof (preplan_records_return h (S (List.length h)) self r c
                        (plan_start g) p k Hr Hc Hk) as Hk'.
          rewrite Ep in Hk'. apply Hk'. reflexivity.
        - intros l p b Hi Hb. apply Hs2. rewrite Hst0.
          pose proof (preplan_records_inargs_literal b h self r c l p Hr Hc Hi Hb
                        (S (List.length h)) (plan_start g)) as Hb'.
          rewrite Ep in Hb'. apply Hb'. reflexivity. }
      match goal with
      | |- no_lookup_error _ (fst (match buildCommands _ _ _ _ _ ?ps0 with _ => _ end)) =>
        pose proof (preplan_buildCommands_lockstep isDynamicType encode_bytes32_array
                      h (commandVisibility st) lsm Hwf
                      (S (List.length h)) (S (List.length h)) self
                      (plan_start g) st ps0 Hrec Ep) as Hlock
      end.
      match type of Hlock with
      | ?A -> _ => assert (Hres : A)
      end.
      { split; [reflexivity|]. split; [reflexivity|].
        intros k Hk. simpl in Hk. rewrite Hg in Hk. contradiction. }
      specialize (Hlock Hres).
      match goal with
      | |- no_lookup_error _ (fst (match ?X with _ => _ end)) =>
        destruct X as [[? ?]|e|]
      end; simpl in *; auto.
    - destruct (Hwe e eq_refl) as [-> | [-> | [-> | ->]]]; split; discriminate.
    - exact I. }
  destruct (fst (plan isDynamicType encode_bytes32_array h self g)) as [out|e|];
    simpl in H.
  - split; discriminate.
  - destruct H as [H1 H2]. split; congruence.
  - split; discriminate.
Qed.

(** The planners of [test_weiroll_return_values_must_be_defined], with the
    return value of the subplan used by the parent planner. *)
Lemma plan_lookups_never_fail_witness :
  fst (plan sample_isDynamicType sample_encode_bytes32_array
         (subplan_then_use execute) 0 fresh_globals) <> Err KeyError /\
  fst (plan sample_isDynamicType sample_encode_bytes32_array
         (subplan_then_use execute) 0 fresh_globals) <> Err StopIteration.
Proof.
  apply (plan_lookups_never_fail sample_isDynamicType sample_encode_bytes32_array
           (subplan_then_use execute) 0 fresh_globals); [|reflexivity].
  intros p c Hc.
  destruct p as [|[|p]]; simpl in Hc;
    [| |destruct p; contradiction];
    repeat (destruct Hc as [<- | Hc]; [reflexivity|]); contradiction.
Defined.

(** ** Slots point into the state *)

Lemma pop_rest_In (l r : list Z) (x y : Z) :
  pop l = Some (x, r) -> In y r -> In y l.
Proof.
  unfold pop. intros H Hy. apply in_rev.
  destruct (rev l) as [|z t]; [discriminate|].
  injection H as _ <-. right. apply in_rev in Hy. exact Hy.
Qed.

Lemma expirations_append_spec (d : list (CommandKey * list Z)) (k k' : CommandKey)
    (s : Z) :
  expirations (expirations_append d k s) k'
  = if key_eqb k' k then expirations d k ++ [s] else expirations d k'.
Proof.
  unfold expirations_append, expirations at 1.
  rewrite (dict_get_set key_eqb key_eqb_eq).
  destruct (key_eqb k' k); reflexivity.
Qed.

Lemma slot_in_mono (n m s : Z) : (n <= m)%Z -> slot_in n s -> slot_in m s.
Proof. intros Hle (slot & Hs & H). exists slot. split; [lia|exact H]. Qed.

Lemma slots_in_state_mono (n m : Z) (c : Command) (words : list bytes) :
  (n <= m)%Z -> slots_in_state n c words -> slots_in_state m c words.
Proof.
  intros Hle (f & cargs & ret & He & Ha & Hr). exists f, cargs, ret.
  split; [exact He|]. split.
  - eapply Forall_impl; [|exact Ha]. intros s [H | H]; [left; exact H|right].
    eapply slot_in_mono; eauto.
  - destruct Hr as [H | [H | H]]; [left; exact H|right; left; exact H|right; right].
    eapply slot_in_mono; eauto.
Qed.

Lemma buildCommandArgs_loop_slots isDynamicType (l : list Arg) rsm lsm (st : list bytes) :
  (forall k s, dict_get key_eqb rsm k = Some s -> (0 <= s < len st)%Z) ->
  (forall b s, dict_get bytes_eqb lsm b = Some s -> (0 <= s < len st)%Z) ->
  ((exists q, In (SubplanValue q) l) -> st <> []) ->
  forall cargs,
  buildCommandArgs_loop isDynamicType l rsm lsm st = Ok cargs ->
  Forall (arg_slot_ok (len st)) cargs.
Proof.
  intros Hr Hl. induction l as [|a r IH]; intros Hsub cargs H;
    cbn [buildCommandArgs_loop] in H.
  - injection H as <-. constructor.
  - assert (Hsub' : (exists q, In (SubplanValue q) r) -> st <> []).
    { intros (q & Hq). apply Hsub. exists q. right. exact Hq. }
    specialize (IH Hsub').
    match type of H with
    | match ?X with _ => _ end = _ => destruct X as [s|e|] eqn:Es
    end; try discriminate.
    destruct (buildCommandArgs_loop isDynamicType r rsm lsm st) as [rest|e|];
      try discriminate.
    injection H as <-. constructor; [|apply IH; reflexivity].
    assert (Hs : s = 0xFE%Z \/ (0 <= s < len st)%Z).
    { destruct a as [p0|p0 v|p0 k0| |q].
      - discriminate.
      - destruct (dict_get bytes_eqb lsm v) eqn:E; [|discriminate].
        injection Es as <-. right. eapply Hl; eauto.
      - destruct (dict_get key_eqb rsm k0) eqn:E; [|discriminate].
        injection Es as <-. right. eapply Hr; eauto.
      - injection Es as <-. left. reflexivity.
      - injection Es as <-. right.
        assert (st <> []) by (apply Hsub; exists q; left; reflexivity).
        unfold len. destruct st; [congruence|]. simpl List.length. lia. }
    destruct Hs as [-> | Hs].
    + left. destruct (isDynamicType (arg_param a)); reflexivity.
    + right. exists s. split; [exact Hs|].
      destruct (isDynamicType (arg_param a)); auto.
Qed.

Lemma return_slot_slots isDynamicType (c : Command) (ps ps' : PlannerState) (ret : Z) :
  slots_allocated ps ->
  return_slot isDynamicType c ps = Ok (ret, ps') ->
  slots_allocated ps' /\ ret_slot_ok (len (state ps')) ret /\
  (len (state ps) <= len (state ps'))%Z.
Proof.
  intros (Hr & Hl & Hf & He). unfold return_slot.
  destruct (dict_get key_eqb (ps_commandVisibility ps) (key c)) as [ec|].
  - destruct (is_state_replacing (type c)); [discriminate|].
    set (dyn := match outputs (fragment (call c)) with
                | [] => false
                | o :: _ => isDynamicType o
                end || negb (Z.land (flags (call c)) TUPLE_RETURN =? 0)%Z).
    destruct (pop (freeSlots ps)) as [[s r]|] eqn:Ep.
    + pose proof (Hf s (pop_In _ _ _ Ep)) as Hs.
      assert (E : (s =? len (state ps))%Z = false) by (apply Z.eqb_neq; lia).
      rewrite E. intros H. injection H as <- <-. cbn [state].
      split; [|split; [|lia]].
      * unfold slots_allocated.
        cbn [returnSlotMap literalSlotMap freeSlots stateExpirations state].
        split; [|split; [|split]].
        -- intros k s0. rewrite (dict_get_set key_eqb key_eqb_eq).
           destruct (key_eqb k (key c)); [|apply Hr].
           intros H. injection H as <-. exact Hs.
        -- exact Hl.
        -- intros s0 H0. apply Hf. eapply pop_rest_In; eauto.
        -- intros k s0. rewrite expirations_append_spec.
           destruct (key_eqb k ec); [|apply He].
           intros H. apply in_app_or in H. destruct H as [H | [<- | []]];
             [eapply He; eauto|exact Hs].
      * right. right. exists s. split; [exact Hs|]. destruct dyn; auto.
    + rewrite Z.eqb_refl. intros H. injection H as <- <-. cbn [state].
      assert (Hlen : len (state ps ++ [[]]) = (len (state ps) + 1)%Z).
      { unfold len. rewrite length_app. simpl. lia. }
      assert (Hpos : (0 <= len (state ps))%Z) by (unfold len; lia).
      split; [|split; [|lia]].
      * unfold slots_allocated.
        cbn [returnSlotMap literalSlotMap freeSlots stateExpirations state].
        rewrite Hlen. split; [|split; [|split]].
        -- intros k s0. rewrite (dict_get_set key_eqb key_eqb_eq).
           destruct (key_eqb k (key c)).
           ++ intros H. injection H as <-. lia.
           ++ intros H. apply Hr in H. lia.
        -- intros b s0 H. apply Hl in H. lia.
        -- intros s0 H. apply Hf in H. lia.
        -- intros k s0. rewrite expirations_append_spec.
           destruct (key_eqb k ec).
           ++ intros H. apply in_app_or in H. destruct H as [H | [<- | []]];
                [apply He in H; lia|lia].
           ++ intros H. apply He in H. lia.
      * right. right. exists (len (state ps)). rewrite Hlen. split; [lia|].
        destruct dyn; auto.
  - intros H. injection H as <- <-. split; [|split; [|lia]].
    + split; [|split; [|split]]; assumption.
    + destruct (is_state_replacing (type c)
                && (List.length (outputs (fragment (call c))) =? 1)%nat);
        [right; left|left]; reflexivity.
Qed.

Lemma buildCommand_slots isDynamicType (c : Command) (ps ps' : PlannerState)
    (words : list bytes) :
  slots_allocated ps ->
  buildCommand isDynamicType c ps = Ok (words, ps') ->
  slots_allocated ps' /\ (len (state ps) <= len (state ps'))%Z /\
  (((exists q, In (SubplanValue q) (args (call c))) -> state ps <> []) ->
   slots_in_state (len (state ps')) c words).
Proof.
  intros Hps H. apply buildCommand_inv in H.
  destruct H as (cargs & ret & Ea & Er & Hw).
  unfold buildCommandArgs in Ea.
  destruct (inargs c) as [la|e|] eqn:Ei; try discriminate.
  assert (Hps1 : slots_allocated (with_expired c ps)).
  { destruct Hps as (Hr & Hl & Hf & He). unfold with_expired.
    split; [|split; [|split]]; cbn [returnSlotMap literalSlotMap freeSlots
                                    stateExpirations state]; auto.
    intros s Hs. apply in_app_or in Hs. destruct Hs as [Hs | Hs]; eauto. }
  destruct (return_slot_slots isDynamicType c _ ps' ret Hps1 Er) as (H2 & Hret & Hle).
  change (state (with_expired c ps)) with (state ps) in Hle.
  split; [exact H2|]. split; [exact Hle|].
  intros Hsub. eexists _, cargs, ret. split; [exact Hw|]. split; [|exact Hret].
  destruct Hps as (Hr & Hl & _ & _).
  eapply Forall_impl;
    [|eapply (buildCommandArgs_loop_slots isDynamicType la _ _ (state ps) Hr Hl);
      [|exact Ea]].
  - intros s [H | H]; [left; exact H|right]. eapply slot_in_mono; eauto.
  - intros (q & Hq). apply Hsub. exists q.
    destruct (inargs_subplans c la Ei) as (_ & _ & Hin). auto.
Qed.

Section SlotsLoop.
Variable isDynamicType : string -> bool.
Variable encode_bytes32_array : list bytes -> bytes.
Variable rec : nat -> PlannerState -> res (list bytes * PlannerState).
Hypothesis rec_slots : forall q ps r ps',
  rec q ps = Ok (r, ps') -> slots_allocated ps ->
  slots_allocated ps' /\ (len (state ps) <= len (state ps'))%Z.

Lemma build_subplan_slots (c : Command) (ps ps1 : PlannerState) :
  slots_allocated ps ->
  build_subplan encode_bytes32_array rec c ps = Ok ps1 ->
  slots_allocated ps1 /\ (len (state ps) <= len (state ps1))%Z /\
  (type c = SUBPLAN -> state ps1 <> []).
Proof.
  intros Hps. unfold build_subplan.
  destruct (type c).
  - intros H. injection H as <-. split; [exact Hps|]. split; [lia|discriminate].
  - intros H. injection H as <-. split; [exact Hps|]. split; [lia|discriminate].
  - destruct (find_subplan (args (call c))) as [q|]; [|discriminate].
    destruct (rec q ps) as [[sub ps']|e|] eqn:Eq; try discriminate.
    destruct (forallb fits_bytes32 sub); [|discriminate].
    generalize (skipn 32 (encode_bytes32_array sub)). intros entry.
    intros H. injection H as <-.
    destruct (rec_slots q ps sub ps' Eq Hps) as ((Hr & Hl & Hf & He) & Hle).
    cbn [state].
    assert (Hlen : len (state ps' ++ [entry]) = (len (state ps') + 1)%Z).
    { unfold len. rewrite length_app. simpl. lia. }
    assert (Hpos : (0 <= len (state ps'))%Z) by (unfold len; lia).
    split; [|split].
    + unfold slots_allocated.
      cbn [returnSlotMap literalSlotMap freeSlots stateExpirations state].
      rewrite Hlen. split; [|split; [|split]].
      * intros k s H. apply Hr in H. lia.
      * intros b s H. apply Hl in H. lia.
      * intros s H. apply in_app_or in H. destruct H as [H | [<- | []]];
          [apply Hf in H; lia|lia].
      * intros k s H. apply He in H. lia.
    + rewrite Hlen. lia.
    + intros _ H. apply app_eq_nil in H. destruct H as [_ H]. discriminate.
Qed.

Lemma buildCommands_loop_slots (l : list Command) : forall acc ps out ps',
  slots_allocated ps ->
  buildCommands_loop isDynamicType encode_bytes32_array rec l acc ps = Ok (out, ps') ->
  slots_allocated ps' /\ (len (state ps) <= len (state ps'))%Z /\
  ((forall c q, In c l -> In (SubplanValue q) (args (call c)) -> type c = SUBPLAN) ->
   exists wss, out = acc ++ List.concat wss /\
               Forall2 (slots_in_state (len (state ps'))) l wss).
Proof.
  induction l as [|c rest IH]; intros acc ps out ps' Hps H;
    cbn [buildCommands_loop] in H.
  - injection H as <- <-. split; [exact Hps|]. split; [lia|].
    intros _. exists []. simpl. rewrite app_nil_r. split; [reflexivity|constructor].
  - destruct (build_subplan encode_bytes32_array rec c ps) as [ps1|e|] eqn:E1;
      try discriminate.
    destruct (build_subplan_slots c ps ps1 Hps E1) as (Hps1 & Hle1 & Hne).
    destruct (buildCommand isDynamicType c ps1) as [[w ps2]|e|] eqn:E2;
      try discriminate.
    destruct (buildCommand_slots isDynamicType c ps1 ps2 w Hps1 E2)
      as (Hps2 & Hle2 & Hw).
    destruct (IH _ _ _ _ Hps2 H) as (Hps' & Hle' & Hrest).
    split; [exact Hps'|]. split; [lia|].
    intros Hsub.
    destruct Hrest as (wss & -> & Hwss).
    { intros c' q Hc'. apply Hsub. right. exact Hc'. }
    exists (w :: wss). simpl. rewrite <- app_assoc. split; [reflexivity|].
    constructor; [|exact Hwss].
    eapply slots_in_state_mono; [exact Hle'|]. apply Hw.
    intros (q & Hq). apply Hne. eapply Hsub; [left; reflexivity|exact Hq].
Qed.
End SlotsLoop.

Lemma buildCommands_slots isDynamicType encode_bytes32_array (h : Heap) (fuel : nat) :
  forall self ps out ps',
  slots_allocated ps ->
  buildCommands isDynamicType encode_bytes32_array fuel h self ps = Ok (out, ps') ->
  slots_allocated ps' /\ (len (state ps) <= len (state ps'))%Z /\
  ((forall c q, In c (commands h self) -> In (SubplanValue q) (args (call c)) ->
                type c = SUBPLAN) ->
   exists wss, out = List.concat wss /\
               Forall2 (slots_in_state (len (state ps'))) (commands h self) wss).
Proof.
  induction fuel as [|fuel IH]; intros self ps out ps' Hps H; [discriminate|].
  cbn [buildCommands] in H.
  apply buildCommands_loop_slots in H; [exact H| |exact Hps].
  intros q ps0 r ps0' Hq Hps0.
  destruct (IH q ps0 r ps0' Hps0 Hq) as (H1 & H2 & _). split; assumption.
Qed.

Lemma prepopulate_expirations (lv : list (bytes * CommandKey)) : forall st lsm exps,
  (forall k s, In s (expirations exps k) -> (0 <= s < len st)%Z) ->
  let '(st', _, exps') := fold_left prepopulate_step lv (st, lsm, exps) in
  forall k s, In s (expirations exps' k) -> (0 <= s < len st')%Z.
Proof.
  induction lv as [|[literal lastCommand] r IH]; intros st lsm exps He; simpl.
  - exact He.
  - apply IH. intros k s. rewrite expirations_append_spec.
    assert (Hlen : len (st ++ [literal]) = (len st + 1)%Z).
    { unfold len. rewrite length_app. simpl. lia. }
    assert (Hpos : (0 <= len st)%Z) by (unfold len; lia).
    rewrite Hlen. destruct (key_eqb k lastCommand).
    + intros H. apply in_app_or in H. destruct H as [H | [<- | []]];
        [apply He in H; lia|lia].
    + intros H. apply He in H. lia.
Qed.

(** X17: the slots of the commands that [plan] returns point into the state
    it returns.  The command list is made of the words of the commands of
    the planner, in order; every argument slot in them is 0xFE (the state
    itself) or the index of an entry of the returned state, and every return
    slot is 0xFF (none), 0xFE or such an index, each with or without the
    mark 0x80.  Subplan arguments are taken to stand in SUBPLAN commands
    only: another command would read the slot before the state as its
    subplan. *)
Theorem plan_slots_in_state isDynamicType encode_bytes32_array
    (h : Heap) (self : nat) (g g' : Globals) (cmds st : list bytes) :
  (forall c q, In c (commands h self) -> In (SubplanValue q) (args (call c)) ->
               type c = SUBPLAN) ->
  plan isDynamicType encode_bytes32_array h self g = (Ok (cmds, st), g') ->
  exists wss,
    cmds = List.concat wss /\
    Forall2 (slots_in_state (len st)) (commands h self) wss.
Proof.
  intros Hsub. unfold plan.
  destruct (preplan (S (List.length h)) h self _) as [r pst].
  destruct r as [[]|e|]; try discriminate.
  pose proof (prepopulate_spec (literalVisibility pst)) as Hpp.
  pose proof (prepopulate_expirations (literalVisibility pst) [] [] []) as Hexp.
  unfold prepopulate in *.
  destruct (fold_left prepopulate_step (literalVisibility pst) ([], [], []))
    as [[st0 lsm] exps].
  destruct Hpp as [[Hs1 _] _].
  match goal with
  | |- match buildCommands _ _ _ _ _ ?p with _ => _ end = _ -> _ =>
    set (ps0 := p); destruct (buildCommands isDynamicType encode_bytes32_array
                                (S (List.length h)) h self ps0)
                      as [[out ps']|e|] eqn:Eb
  end; try discriminate.
  intros H. injection H as <- <- _.
  apply buildCommands_slots in Eb.
  - destruct Eb as (_ & _ & Hw). apply Hw. exact Hsub.
  - unfold ps0. split; [|split; [|split]];
      cbn [returnSlotMap literalSlotMap freeSlots stateExpirations state].
    + intros k s H. discriminate.
    + intros b s H. destruct (Hs1 b s H) as [H0 Hn]. split; [exact H0|].
      assert (Z.to_nat s < List.length st0)
        by (apply nth_error_Some; congruence).
      unfold len. lia.
    + intros s [].
    + apply Hexp. intros k s [].
Qed.

Lemma plan_slots_in_state_witness :
  exists wss,
    fst (planned (fst (plan sample_isDynamicType sample_encode_bytes32_array
                         (subplan_then_use execute) 0 fresh_globals)))
    = List.concat wss /\
    Forall2
      (slots_in_state
         (len (snd (planned (fst (plan sample_isDynamicType sample_encode_bytes32_array
                                    (subplan_then_use execute) 0 fresh_globals))))))
      (commands (subplan_then_use execute) 0) wss.
Proof.
  apply (plan_slots_in_state sample_isDynamicType sample_encode_bytes32_array
           (subplan_then_use execute) 0 fresh_globals
           (snd (plan sample_isDynamicType sample_encode_bytes32_array
                   (subplan_then_use execute) 0 fresh_globals))).
  - intros c q Hc Hq. simpl in Hc.
    repeat (destruct Hc as [<- | Hc];
            [try reflexivity;
             simpl in Hq; repeat (destruct Hq as [Hq | Hq]; [discriminate|]);
             contradiction|]).
    contradiction.
  - vm_compute. reflexivity.
Defined.

(** ** What [add] and [addSubplan] accept *)

Lemma existsb_false_filter {A} (f : A -> bool) (l : list A) :
  existsb f l = false -> filter f l = [].
Proof.
  induction l as [|x r IH]; simpl; [reflexivity|].
  destruct (f x); simpl; [discriminate|exact IH].
Qed.

(** X18: the commands that [add] and [addSubplan] accept have their subplan
    arguments in place: a call that [add] takes without raising has no
    [SubplanValue] argument, and a call that [addSubplan] takes has exactly
    one.  ([replaceState] does not look at the arguments.) *)
Theorem accepted_commands_have_subplans_in_place (h : Heap) (self : nat)
    (fc : FunctionCall) (t : CommandType) (r : option Arg) :
  (fst (add h self fc) = Ok r /\ t = CALL) \/
  (fst (addSubplan h self fc) = Ok tt /\ t = SUBPLAN) ->
  subplans_in_place {| call := fc; type := t |}.
Proof.
  unfold subplans_in_place, count_subplan. cbn [call type].
  intros [[H ->] | [H ->]].
  - unfold add in H.
    destruct (existsb isSubplanValue (args fc)) eqn:E; [discriminate|].
    rewrite (existsb_false_filter _ _ E). reflexivity.
  - unfold addSubplan in H.
    pose proof (addSubplan_scan_spec (args fc) false false) as Hs.
    destruct (addSubplan_scan (args fc) false false) as [[a b]|e|];
      try discriminate.
    destruct Hs as (H1 & _ & -> & _). unfold count_subplan in *. simpl in *.
    destruct (List.length (filter isSubplanValue (args fc))) as [|[|n]];
      [discriminate|reflexivity|lia].
Qed.

Lemma accepted_commands_have_subplans_in_place_witness :
  subplans_in_place (subplan_of execute) /\ subplans_in_place sum_producer.
Proof.
  split.
  - apply (accepted_commands_have_subplans_in_place [[]] 0
             (library_call 10 execute [SubplanValue 1; StateValue]) SUBPLAN None).
    right. split; reflexivity.
  - apply (accepted_commands_have_subplans_in_place [[]] 0
             (library_call 20 math_add [lit 1; lit 2]) CALL
             (Some (ReturnValue "uint256" (20, CALL)))).
    left. split; reflexivity.
Defined.

(** X19: when the return value of a call made by [rawValue] is used, the
    encoder marks its return slot with 0x80, the mark of a value of dynamic
    type, whatever the outputs of the function are. *)
Theorem rawValue_return_slot_is_marked isDynamicType (fc : FunctionCall)
    (new_id : nat) (ps ps' : PlannerState) (ret : Z) :
  dict_get key_eqb (ps_commandVisibility ps) (new_id, CALL) <> None ->
  return_slot isDynamicType {| call := rawValue fc new_id; type := CALL |} ps
  = Ok (ret, ps') ->
  Z.land ret 0x80 = 0x80%Z.
Proof.
  intros Hcv. unfold return_slot, rawValue, key. cbn [call type call_id].
  destruct (dict_get key_eqb (ps_commandVisibility ps) (new_id, CALL));
    [|congruence].
  cbn [is_state_replacing fragment flags].
  rewrite land_lor_same. change (TUPLE_RETURN =? 0)%Z with false.
  cbn [negb]. rewrite orb_true_r.
  destruct (pop (freeSlots ps)) as [[s r]|]; intros H; injection H as <- _;
    apply land_lor_same.
Qed.

Lemma rawValue_return_slot_is_marked_witness :
  match return_slot sample_isDynamicType
          {| call := rawValue (library_call 1 two_outputs [StateValue]) 2;
             type := CALL |} consumed_call_state with
  | Ok (ret, _) => Z.land ret 0x80 = 0x80%Z
  | _ => False
  end.
Proof.
  destruct (return_slot sample_isDynamicType
              {| call := rawValue (library_call 1 two_outputs [StateValue]) 2;
                 type := CALL |} consumed_call_state)
    as [[ret ps']|e|] eqn:E.
  - apply (rawValue_return_slot_is_marked sample_isDynamicType
             (library_call 1 two_outputs [StateValue]) 2 consumed_call_state ps' ret);
      [discriminate|exact E].
  - vm_compute in E. discriminate E.
  - vm_compute in E. discriminate E.
Defined.

(** ** [simple_args] *)

Lemma simple_args_loop_raises (Raw : Type)
    (py_iter : PyArg Raw -> option (list (PyArg Raw)))
    (sizes : list nat) (pyargs : list (PyArg Raw)) :
  forall i simplified e,
  i + List.length sizes <= List.length pyargs ->
  simple_args_loop Raw py_iter sizes i pyargs simplified = Raised e ->
  e = TypeError.
Proof.
  induction sizes as [|size r IH]; intros i simplified e Hlen H;
    cbn [simple_args_loop] in H; [discriminate|].
  simpl in Hlen.
  destruct (nth_error pyargs i) as [a|] eqn:En.
  - destruct (size =? 1)%nat.
    + eapply IH; [|exact H]. lia.
    + destruct (py_iter a) as [elements|].
      * eapply IH; [|exact H]. lia.
      * injection H as <-. reflexivity.
  - apply nth_error_None in En. lia.
Qed.

(** X20: [simple_args] never reads an argument that is not there.  On the
    sizes that [FunctionFragment.__init__] has computed and as many
    arguments as the function has inputs, which [encode_args] has checked
    before, the only error of [simple_args] is the [TypeError] of an
    argument that cannot be iterated over in the place of a fixed-size
    array or a tuple. *)
Theorem simple_args_raises_only_TypeError (isDynamicType : string -> bool) (Raw : Type)
    (py_iter : PyArg Raw -> option (list (PyArg Raw)))
    (f : FunctionFragment) (fr : Fragment) (pyargs : list (PyArg Raw))
    (e : CallError) :
  FunctionFragment_init isDynamicType f = Built fr ->
  List.length pyargs = List.length (inputs f) ->
  simple_args Raw py_iter (simple_sizes fr) pyargs = Raised e ->
  e = TypeError.
Proof.
  unfold FunctionFragment_init, simple_type_strings. intros Hf Hlen H.
  destruct (inputs f) as [|i r] eqn:Ei.
  - injection Hf as <-. discriminate.
  - destruct (simple_type_loop isDynamicType (i :: r) [] []) as [[params sizes]|e0] eqn:El;
      [|discriminate].
    destruct (simple_type_loop_sizes _ _ _ _ _ _ El) as (ts & sz & _ & -> & Hl & _).
    cbn [app] in *.
    destruct (forallb (Nat.eqb 1) sz); injection Hf as <-; cbn [simple_sizes] in H;
      [discriminate|].
    unfold simple_args in H. destruct sz as [|size sizes]; [discriminate|].
    eapply simple_args_loop_raises; [|exact H]. rewrite Hl, Hlen. simpl. lia.
Qed.

(** An integer passed in the place of the array. *)
Lemma simple_args_raises_only_TypeError_witness :
  match simple_args Z sample_py_iter (simple_sizes add_liquidity_fragment)
          [PyRaw 5%Z; PyRaw 0%Z] with
  | Raised e => e = TypeError
  | Built _ => False
  end.
Proof.
  destruct (simple_args Z sample_py_iter (simple_sizes add_liquidity_fragment)
              [PyRaw 5%Z; PyRaw 0%Z]) as [l|e] eqn:E.
  - vm_compute in E. discriminate E.
  - apply (simple_args_raises_only_TypeError sample_isDynamicType Z sample_py_iter
             add_liquidity add_liquidity_fragment [PyRaw 5%Z; PyRaw 0%Z] e);
      [reflexivity|reflexivity|exact E].
Defined.

(** ** More than 32 arguments *)

Lemma HexBytes_int_some (n : Z) : (0 <= n)%Z -> exists b, HexBytes_int n = Ok b.
Proof.
  intros H. unfold HexBytes_int.
  destruct (n <? 0)%Z eqn:E; [apply Z.ltb_lt in E; lia|]. eexists. reflexivity.
Qed.

Lemma hexConcat_ints_some (l : list Z) :
  Forall (fun n => (0 <= n)%Z) l -> exists bs, hexConcat_ints l = Ok bs.
Proof.
  induction 1 as [|n r Hn _ [bs IH]]; simpl; [eexists; reflexivity|].
  destruct (HexBytes_int_some n Hn) as [b ->]. simpl. rewrite IH. simpl.
  eexists. reflexivity.
Qed.

(** The extended form of a command without a negative flag or slot. *)
Lemma encode_command_extended_some (c : Command) (f : Z) (cargs : list Z) (ret : Z) :
  (0 <= f)%Z -> Forall (fun n => (0 <= n)%Z) cargs -> (0 <= ret)%Z ->
  Z.land f EXTENDED_COMMAND = EXTENDED_COMMAND ->
  exists header continuation,
    encode_command c f cargs ret = Ok [header; continuation] /\
    hexConcat_ints (padArray cargs 32 0xFF%Z) = Ok continuation.
Proof.
  intros Hf Hc Hr He. unfold encode_command. rewrite He, Z.eqb_refl.
  unfold hexConcat_word.
  destruct (HexBytes_int_some f Hf) as [bf ->].
  destruct (HexBytes_int_some ret Hr) as [br ->].
  destruct (hexConcat_ints_some (repeat 0xFF%Z 6)) as [b6 ->].
  { apply Forall_forall. intros x Hx. apply repeat_spec in Hx. subst. lia. }
  destruct (hexConcat_ints_some (padArray cargs 32 0xFF%Z)) as [bc Hbc].
  { unfold padArray. apply Forall_app. split; [exact Hc|].
    apply Forall_forall. intros x Hx. apply repeat_spec in Hx. subst. lia. }
  rewrite Hbc. simpl. eexists _, _. split; reflexivity.
Qed.

(** The walk of plain arguments: it succeeds, records the literals and
    leaves the consumers of return values as they are. *)
Lemma preplan_args_plain_walk (rec : nat -> PreState -> res unit * PreState)
    (c : Command) (l : list Arg) :
  forallb plain l = true ->
  forall st, exists st1,
    preplan_args rec c l st = (Ok tt, st1) /\
    commandVisibility st1 = commandVisibility st /\
    (forall b, In b (map fst (literalVisibility st)) ->
               In b (map fst (literalVisibility st1))) /\
    (forall p b, In (LiteralValue p b) l -> In b (map fst (literalVisibility st1))).
Proof.
  induction l as [|a r IH]; intros Hp st; simpl in *.
  - exists st. repeat split; auto. intros p b [].
  - apply andb_true_iff in Hp. destruct Hp as [Ha Hr].
    destruct a as [p|p v|p k| |q]; try discriminate.
    + destruct (IH Hr {| commandVisibility := commandVisibility st;
                         literalVisibility :=
                           dict_set bytes_eqb (literalVisibility st) v (key c);
                         seen := seen st; planners := planners st |})
        as (st1 & H1 & H2 & H3 & H4).
      exists st1. split; [exact H1|]. split; [exact H2|]. cbn [literalVisibility] in H3.
      split.
      * intros b Hb. apply H3.
        apply (dict_set_keys_In bytes_eqb bytes_eqb_eq). left. exact Hb.
      * intros p0 b [Hb|Hb]; [|eapply H4; exact Hb].
        injection Hb as _ <-. apply H3.
        apply (dict_set_keys_In bytes_eqb bytes_eqb_eq). right. reflexivity.
    + destruct (IH Hr st) as (st1 & H1 & H2 & H3 & H4).
      exists st1. split; [exact H1|]. split; [exact H2|]. split; [exact H3|].
      intros p0 b [Hb|Hb]; [discriminate|eapply H4; exact Hb].
Qed.

(** The slots of plain arguments, from a literal slot map that has them. *)
Lemma buildCommandArgs_loop_plain isDynamicType (l : list Arg) rsm lsm (st : list bytes) :
  forallb plain l = true ->
  (forall p b, In (LiteralValue p b) l ->
     exists s, dict_get bytes_eqb lsm b = Some s /\ (0 <= s)%Z) ->
  exists cargs,
    buildCommandArgs_loop isDynamicType l rsm lsm st = Ok cargs /\
    Forall (fun n => (0 <= n)%Z) cargs /\ List.length cargs = List.length l.
Proof.
  induction l as [|a r IH]; intros Hp Hl; simpl in *.
  - exists []. repeat split. constructor.
  - apply andb_true_iff in Hp. destruct Hp as [Ha Hr].
    destruct IH as (rest & -> & Hnn & Hlen); [exact Hr|intros; eapply Hl; eauto|].
    assert (Hm : forall s, (0 <= s)%Z ->
              (0 <= (if isDynamicType (arg_param a) then Z.lor s 128 else s))%Z).
    { intros s Hs. destruct (isDynamicType (arg_param a)); [|exact Hs].
      apply Z.lor_nonneg. lia. }
    destruct a as [p|p v|p k| |q]; try discriminate.
    + destruct (Hl p v (or_introl eq_refl)) as (s & -> & Hs).
      eexists. split; [reflexivity|]. split; [constructor; auto|simpl; lia].
    + eexists. split; [reflexivity|].
      split; [constructor; [apply Hm; lia|exact Hnn]|simpl; lia].
Qed.

(** X4: [plan] does not reject a command with more than 32 arguments and does
    not cut them.  A planner that is not planned yet and holds one command,
    not a SUBPLAN command, whose arguments, more than 32, are literals or
    the state, and whose flags are not negative, is planned to two words:
    the second is made of the slots of all the arguments, [padArray] adds
    nothing to them, and so it has a byte or more for each argument and is
    longer than the 32 bytes of a word. *)
Theorem continuation_word_not_truncated isDynamicType encode_bytes32_array
    (h : Heap) (self : nat) (g : Globals) (c : Command) (la : list Arg) :
  commands h self = [c] ->
  set_mem Nat.eqb self (default_planners g) = false ->
  type c <> SUBPLAN ->
  inargs c = Ok la ->
  forallb plain la = true ->
  32 < List.length la ->
  (0 <= flags (call c))%Z ->
  exists header continuation cargs st,
    fst (plan isDynamicType encode_bytes32_array h self g)
    = Ok ([header; continuation], st) /\
    buildCommandArgs isDynamicType c [] (plan_literalSlotMap h self g) st = Ok cargs /\
    List.length cargs = List.length la /\
    hexConcat_ints cargs = Ok continuation /\
    32 < List.length continuation.
Proof.
  intros Hc Hm Ht Hi Hp Hlen Hfl.
  destruct (preplan_args_plain_walk (preplan (List.length h) h) c la Hp
              (enter self (plan_start g))) as (st1 & Hw & Hcv & _ & Hlit).
  assert (Ew : preplan (S (List.length h)) h self (plan_start g)
               = (Ok tt, set_seen (key c :: seen st1) st1)).
  { change (preplan (S (List.length h)) h self (plan_start g))
      with (if set_mem Nat.eqb self (planners (plan_start g))
            then (Err PlannerContainsItself, plan_start g)
            else preplan_commands (preplan (List.length h) h) (commands h self)
                   (enter self (plan_start g))).
    cbn [planners plan_start]. rewrite Hm, Hc. cbn [preplan_commands].
    unfold preplan_command. rewrite Hi, Hw. reflexivity. }
  rewrite (plan_encoder isDynamicType encode_bytes32_array h self g _ Ew).
  unfold plan_literalSlotMap. rewrite Ew. cbn [snd].
  unfold encoder_start. cbn [literalVisibility commandVisibility set_seen].
  pose proof (prepopulate_spec (literalVisibility st1)) as Hpp.
  destruct (prepopulate (literalVisibility st1)) as [[st0 lsm] exps].
  destruct Hpp as [[Hs1 Hs2] Hst0]. cbn [fst snd].
  destruct (buildCommandArgs_loop_plain isDynamicType la [] lsm st0 Hp)
    as (cargs & Ha & Hnn & Hn).
  { intros p b Hb. pose proof (Hlit p b Hb) as Hin. rewrite <- Hst0 in Hin.
    destruct (dict_get bytes_eqb lsm b) as [s|] eqn:Es;
      [|exfalso; exact (Hs2 b Hin Es)].
    exists s. split; [reflexivity|]. apply (Hs1 b s Es). }
  assert (Hargs : forall st', buildCommandArgs isDynamicType c [] lsm st' = Ok cargs).
  { intros st'. unfold buildCommandArgs. rewrite Hi.
    clear -Ha Hp. revert cargs Ha.
    induction la as [|a r IH]; intros cargs Ha; simpl in *; [exact Ha|].
    apply andb_true_iff in Hp. destruct Hp as [Hpa Hr].
    destruct a as [p|p v|p k| |q]; try discriminate.
    - destruct (dict_get bytes_eqb lsm v); [|discriminate].
      destruct (buildCommandArgs_loop isDynamicType r [] lsm st0) as [rest|e|];
        try discriminate.
      rewrite (IH Hr rest eq_refl). exact Ha.
    - destruct (buildCommandArgs_loop isDynamicType r [] lsm st0) as [rest|e|];
        try discriminate.
      rewrite (IH Hr rest eq_refl). exact Ha. }
  set (ret := if is_state_replacing (type c)
                 && (List.length (outputs (fragment (call c))) =? 1)%nat
              then 0xFE%Z else 0xFF%Z).
  assert (Hret : (0 <= ret)%Z) by (unfold ret; destruct (_ && _); lia).
  assert (E6 : (6 <? List.length cargs)%nat = true) by (apply Nat.ltb_lt; lia).
  destruct (encode_command_extended_some c (written_flags c (List.length cargs))
              cargs ret) as (header & cont & Henc & Hcont); auto.
  { unfold written_flags. rewrite E6. apply Z.lor_nonneg. unfold EXTENDED_COMMAND. lia. }
  { unfold written_flags. rewrite E6. apply land_lor_same. }
  assert (Hpad : padArray cargs 32 0xFF%Z = cargs).
  { unfold padArray. replace (32 - List.length cargs) with 0 by lia.
    simpl. apply app_nil_r. }
  rewrite Hpad in Hcont.
  exists header, cont, cargs, st0.
  split; [|split; [apply Hargs|split; [exact Hn|split; [exact Hcont|]]]].
  - cbn [buildCommands buildCommands_loop]. rewrite Hc. cbn [buildCommands_loop].
    assert (Hsub : forall rec ps, build_subplan encode_bytes32_array rec c ps = Ok ps).
    { intros rec ps. unfold build_subplan. destruct (type c); congruence. }
    rewrite Hsub. unfold buildCommand. cbn [returnSlotMap literalSlotMap state].
    rewrite Hargs. unfold return_slot.
    cbn [ps_commandVisibility]. rewrite Hcv. cbn [commandVisibility enter plan_start dict_get].
    fold ret. unfold written_flags in Henc. rewrite Henc. reflexivity.
  - apply hexConcat_ints_ok in Hcont. lia.
Qed.

(** A planner of one call with 33 arguments. *)
Lemma continuation_word_not_truncated_witness :
  exists header continuation st,
    fst (plan sample_isDynamicType sample_encode_bytes32_array
           thirty_three_args_planner 0 fresh_globals)
    = Ok ([header; continuation], st) /\
    32 < List.length continuation.
Proof.
  destruct (continuation_word_not_truncated sample_isDynamicType
              sample_encode_bytes32_array thirty_three_args_planner 0 fresh_globals
              thirty_three_args (repeat (lit 1) 33))
    as (header & cont & cargs & st & Hp & _ & _ & _ & Hl).
  - reflexivity.
  - reflexivity.
  - discriminate.
  - reflexivity.
  - reflexivity.
  - simpl. lia.
  - unfold thirty_three_args, library_call, DELEGATECALL. simpl. lia.
  - exists header, cont, st. split; [exact Hp|exact Hl].
Defined.

(** The same call in a subplan: its second word does not fit a [bytes32],
    and the encoding of the subplan raises. *)
Lemma plan_long_word_in_subplan :
  fst (plan sample_isDynamicType sample_encode_bytes32_array
         thirty_three_args_in_subplan 0 fresh_globals) = Err ValueOutOfBounds.
Proof. vm_compute. reflexivity. Qed.

(** * The encoder, command by command *)

(** ** The words of a command *)

Lemma inargs_resolved (c : Command) (la : list Arg) :
  inargs c = Ok la -> la = resolved_arguments c.
Proof.
  unfold inargs, resolved_arguments.
  destruct (Z.land (flags (call c)) CALLTYPE_MASK =? CALL_WITH_VALUE)%Z.
  - destruct (callvalue (call c)) as [[p v]|]; [|discriminate].
    intros H. injection H as <-. reflexivity.
  - intros H. injection H as <-. reflexivity.
Qed.

Lemma buildCommandArgs_loop_arg_slot isDynamicType (l : list Arg) rsm lsm
    (st : list bytes) :
  (forall k s, dict_get key_eqb rsm k = Some s -> (0 <= s < len st)%Z) ->
  (forall b s, dict_get bytes_eqb lsm b = Some s -> (0 <= s < len st)%Z) ->
  forall cargs,
  buildCommandArgs_loop isDynamicType l rsm lsm st = Ok cargs ->
  Forall2 (arg_slot isDynamicType lsm (len st)) l cargs.
Proof.
  intros Hr Hl. induction l as [|a r IH]; intros cargs H;
    cbn [buildCommandArgs_loop] in H.
  - injection H as <-. constructor.
  - match type of H with
    | match ?X with _ => _ end = _ => destruct X as [s|e|] eqn:Es
    end; try discriminate.
    destruct (buildCommandArgs_loop isDynamicType r rsm lsm st) as [rest|e|];
      try discriminate.
    injection H as <-. constructor; [|apply IH; reflexivity].
    exists s. split; [reflexivity|].
    destruct a as [p0|p0 v|p0 k0| |q].
    + discriminate.
    + destruct (dict_get bytes_eqb lsm v) eqn:E; [|discriminate].
      injection Es as <-. split; [reflexivity|]. eapply Hl; eauto.
    + destruct (dict_get key_eqb rsm k0) eqn:E; [|discriminate].
      injection Es as <-. eapply Hr; eauto.
    + injection Es as <-. reflexivity.
    + injection Es as <-. reflexivity.
Qed.

(** What [buildCommand] returns, from a state whose slots are allocated. *)
Lemma buildCommand_encoded isDynamicType (c : Command) (ps ps' : PlannerState)
    (words : list bytes) :
  slots_allocated ps ->
  buildCommand isDynamicType c ps = Ok (words, ps') ->
  exists cargs ret,
    Forall2 (arg_slot isDynamicType (literalSlotMap ps) (len (state ps)))
      (resolved_arguments c) cargs /\
    ret_slot_ok (len (state ps')) ret /\
    encode_command c (written_flags c (List.length cargs)) cargs ret = Ok words /\
    slots_allocated ps' /\ (len (state ps) <= len (state ps'))%Z.
Proof.
  intros Hps H. apply buildCommand_inv in H.
  destruct H as (cargs & ret & Ea & Er & Hw).
  unfold buildCommandArgs in Ea.
  destruct (inargs c) as [la|e|] eqn:Ei; try discriminate.
  apply inargs_resolved in Ei. subst la.
  assert (Hps1 : slots_allocated (with_expired c ps)).
  { destruct Hps as (Hr & Hl & Hf & He). unfold with_expired.
    split; [|split; [|split]]; cbn [returnSlotMap literalSlotMap freeSlots
                                    stateExpirations state]; auto.
    intros s Hs. apply in_app_or in Hs. destruct Hs as [Hs | Hs]; eauto. }
  destruct (return_slot_slots isDynamicType c _ ps' ret Hps1 Er) as (H2 & Hret & Hle).
  change (state (with_expired c ps)) with (state ps) in Hle.
  exists cargs, ret.
  split; [|split; [exact Hret|split; [exact Hw|split; [exact H2|exact Hle]]]].
  destruct Hps as (Hr & Hl & _ & _).
  apply (buildCommandArgs_loop_arg_slot isDynamicType _ _ _ (state ps) Hr Hl).
  exact Ea.
Qed.

Lemma encoder_start_allocated (st : PreState) : slots_allocated (encoder_start st).
Proof.
  unfold encoder_start.
  pose proof (prepopulate_spec (literalVisibility st)) as Hpp.
  pose proof (prepopulate_expirations (literalVisibility st) [] [] []) as Hexp.
  unfold prepopulate in *.
  destruct (fold_left prepopulate_step (literalVisibility st) ([], [], []))
    as [[st0 lsm] exps].
  destruct Hpp as [[Hs1 _] _].
  split; [|split; [|split]];
    cbn [returnSlotMap literalSlotMap freeSlots stateExpirations state].
  - intros k s H. discriminate.
  - intros b s H. destruct (Hs1 b s H) as [H0 Hn]. split; [exact H0|].
    assert (Z.to_nat s < List.length st0)
      by (apply nth_error_Some; congruence).
    unfold len. lia.
  - intros s [].
  - apply Hexp. intros k s [].
Qed.

Section Emitted.
Variable isDynamicType : string -> bool.
Variable encode_bytes32_array : list bytes -> bytes.

Lemma encoder_at_allocated (h : Heap) (fuel q : nat) (ps : PlannerState) (c : Command)
    (ps1 : PlannerState) :
  encoder_at isDynamicType encode_bytes32_array h fuel q ps c ps1 ->
  slots_allocated ps -> slots_allocated ps1.
Proof.
  assert (Hrec : forall fuel q ps r ps',
            buildCommands isDynamicType encode_bytes32_array fuel h q ps = Ok (r, ps') ->
            slots_allocated ps ->
            slots_allocated ps' /\ (len (state ps) <= len (state ps'))%Z).
  { intros f q0 ps0 r ps' H Hps0.
    destruct (buildCommands_slots isDynamicType encode_bytes32_array h f q0 ps0 r ps'
                Hps0 H) as (H1 & H2 & _).
    split; assumption. }
  induction 1 as [fuel q ps l1 c l2 out ps1 ps2 Hl Hl1 Hs
                 |fuel q ps l1 s l2 out ps1 q' c ps2 Hl Hl1 Ht Hf _ IH]; intros Hps.
  - destruct (buildCommands_loop_slots isDynamicType encode_bytes32_array _
                (Hrec fuel) l1 [] ps out ps1 Hps Hl1) as (H1 & _).
    destruct (build_subplan_slots encode_bytes32_array _ (Hrec fuel) c ps1 ps2 H1 Hs)
      as (H2 & _).
    exact H2.
  - destruct (buildCommands_loop_slots isDynamicType encode_bytes32_array _
                (Hrec fuel) l1 [] ps out ps1 Hps Hl1) as (H1 & _).
    apply IH. exact H1.
Qed.

(** The command list a planner is encoded to is made of the words that
    [buildCommand] returns for its commands, in order. *)
Lemma buildCommands_loop_trace (h : Heap) (fuel q : nat) (ps0 : PlannerState)
    (l : list Command) : forall done acc ps out ps',
  commands h q = done ++ l ->
  buildCommands_loop isDynamicType encode_bytes32_array
    (buildCommands isDynamicType encode_bytes32_array fuel h) done [] ps0
  = Ok (acc, ps) ->
  buildCommands_loop isDynamicType encode_bytes32_array
    (buildCommands isDynamicType encode_bytes32_array fuel h) l acc ps
  = Ok (out, ps') ->
  exists wss,
    out = acc ++ List.concat wss /\
    Forall2 (fun c ws => exists ps1 ps2,
               encoder_at isDynamicType encode_bytes32_array h (S fuel) q ps0 c ps1 /\
               buildCommand isDynamicType c ps1 = Ok (ws, ps2) /\
               (len (state ps2) <= len (state ps'))%Z)
      l wss.
Proof.
  assert (Hrec : forall fuel q ps r ps',
            buildCommands isDynamicType encode_bytes32_array fuel h q ps = Ok (r, ps') ->
            extends encode_bytes32_array True ps ps').
  { intros f. apply buildCommands_extends. auto. }
  induction l as [|c rest IH]; intros done acc ps out ps' Hc Hdone H;
    cbn [buildCommands_loop] in H.
  - injection H as <- <-. exists []. simpl. rewrite app_nil_r.
    split; [reflexivity|constructor].
  - destruct (build_subplan encode_bytes32_array
                (buildCommands isDynamicType encode_bytes32_array fuel h) c ps)
      as [ps1|e|] eqn:E1; try discriminate.
    destruct (buildCommand isDynamicType c ps1) as [[w ps2]|e|] eqn:E2;
      try discriminate.
    destruct (IH (done ++ [c]) (acc ++ w) ps2 out ps') as (wss & -> & Hwss).
    + rewrite <- app_assoc. exact Hc.
    + rewrite buildCommands_loop_app, Hdone. cbn [buildCommands_loop].
      rewrite E1, E2. reflexivity.
    + exact H.
    + exists (w :: wss). simpl. rewrite <- app_assoc. split; [reflexivity|].
      constructor; [|exact Hwss].
      exists ps1, ps2. split; [|split; [exact E2|]].
      * eapply encoder_at_here; eauto.
      * assert (E : extends encode_bytes32_array True ps2 ps')
          by (eapply buildCommands_loop_extends; [apply Hrec|auto|exact H]).
        destruct E as (_ & _ & extra & Hst & _). unfold len.
        rewrite Hst, length_app. lia.
Qed.

Lemma plan_emits (h : Heap) (self : nat) (g g' : Globals) (cmds st : list bytes) :
  plan isDynamicType encode_bytes32_array h self g = (Ok (cmds, st), g') ->
  exists wss,
    cmds = List.concat wss /\
    Forall2 (fun c ws => exists ps ps',
               emitted isDynamicType encode_bytes32_array h self g c ps ws ps' /\
               (len (state ps') <= len st)%Z)
      (commands h self) wss.
Proof.
  intros H.
  assert (Hf : fst (plan isDynamicType encode_bytes32_array h self g) = Ok (cmds, st))
    by (rewrite H; reflexivity).
  destruct (preplan (S (List.length h)) h self (plan_start g)) as [r pst] eqn:Ew.
  destruct r as [[]|e|];
    try (unfold plan in H; fold (plan_start g) in H; rewrite Ew in H; discriminate).
  rewrite (plan_encoder isDynamicType encode_bytes32_array h self g pst Ew) in Hf.
  destruct (buildCommands isDynamicType encode_bytes32_array (S (List.length h)) h self
              (encoder_start pst)) as [[ec ps']|e|] eqn:Eb; try discriminate.
  injection Hf as <- <-. cbn [buildCommands] in Eb.
  destruct (buildCommands_loop_trace h (List.length h) self (encoder_start pst)
              (commands h self) [] [] (encoder_start pst) ec ps' eq_refl eq_refl Eb)
    as (wss & -> & Hwss).
  exists wss. split; [reflexivity|].
  eapply Forall2_impl; [|exact Hwss].
  intros c ws (ps1 & ps2 & Hat & Hb & Hle). exists ps1, ps2.
  split; [|exact Hle]. unfold emitted. rewrite Ew. auto.
Qed.
End Emitted.

Lemma marked_lt isDynamicType (a : Arg) (slot : Z) :
  (slot < 256)%Z -> (marked isDynamicType a slot < 256)%Z.
Proof.
  intros H. unfold marked. destruct (isDynamicType (arg_param a)); [|exact H].
  destruct (Z.lt_ge_cases slot 0) as [Hn|Hp].
  - assert (Z.lor slot 128 < 0)%Z by (apply Z.lor_neg; left; exact Hn). lia.
  - apply (lor_is_byte slot 128); unfold is_byte; lia.
Qed.

Lemma arg_slot_lt isDynamicType lsm (n : Z) (a : Arg) (s : Z) :
  (n <= 256)%Z -> arg_slot isDynamicType lsm n a s -> (s < 256)%Z.
Proof.
  intros Hn (slot & -> & H). apply marked_lt.
  destruct a as [p|p v|p k| |q]; [contradiction|lia|lia|lia|lia].
Qed.

Lemma ret_slot_is_byte (n ret : Z) : (n <= 256)%Z -> ret_slot_ok n ret -> is_byte ret.
Proof.
  intros Hn [->|[->|(slot & Hs & [->| ->])]]; try (unfold is_byte; lia).
  apply lor_is_byte; unfold is_byte; lia.
Qed.

Lemma land_extended_lor (f : Z) :
  is_byte f -> is_byte (Z.lor f EXTENDED_COMMAND).
Proof. intros H. apply lor_is_byte; [exact H|]. unfold is_byte, EXTENDED_COMMAND. lia. Qed.

Section Threshold.
Variable isDynamicType : string -> bool.
Variable encode_bytes32_array : list bytes -> bytes.

(** C8, as amended.  Of a command that [plan] encodes, whether of the planner
    or of a subplan, whose call has a selector of 4 bytes, an address of 20
    and flags of one byte without the EXTENDED_COMMAND bit, while the state
    has at most 256 entries: every argument, the call value first when the
    call is a call with value, gets its slot in one byte; with at most 6
    arguments the command is encoded as one word of 32 bytes, selector,
    flags, the slots padded to 6 with 0xFF, return slot, address; with 7 or
    more the EXTENDED_COMMAND flag is set and two words are written, a
    header of 32 bytes with six bytes 0xFF in the place of the slots, and
    the slots padded to 32 with 0xFF, which are 32 bytes when there are at
    most 32 slots.  And the command list [plan] returns is made of the words
    of the commands of the planner, in order. *)
Theorem extended_command_threshold (h : Heap) (self : nat) (g : Globals) :
  (forall c ps words ps',
     emitted isDynamicType encode_bytes32_array h self g c ps words ps' ->
     (len (state ps') <= 256)%Z ->
     is_byte (flags (call c)) ->
     Z.land (flags (call c)) EXTENDED_COMMAND = 0%Z ->
     List.length (signature (fragment (call c))) = 4 ->
     List.length (address (call c)) = 20 ->
     exists cargs ret,
       Forall2 (arg_slot isDynamicType (literalSlotMap ps) (len (state ps)))
         (resolved_arguments c) cargs /\
       Forall is_byte cargs /\ is_byte ret /\
       (List.length (resolved_arguments c) <= 6 ->
          words = [standard_word c (flags (call c)) cargs ret] /\
          List.length (standard_word c (flags (call c)) cargs ret) = 32) /\
       (7 <= List.length (resolved_arguments c) ->
          words = [header_word c (Z.lor (flags (call c)) EXTENDED_COMMAND) ret;
                   continuation_word cargs] /\
          List.length (header_word c (Z.lor (flags (call c)) EXTENDED_COMMAND) ret) = 32 /\
          List.length (continuation_word cargs) = Nat.max 32 (List.length cargs))) /\
  (forall g' cmds st,
     plan isDynamicType encode_bytes32_array h self g = (Ok (cmds, st), g') ->
     exists wss,
       cmds = List.concat wss /\
       Forall2 (fun c ws => exists ps ps',
                  emitted isDynamicType encode_bytes32_array h self g c ps ws ps' /\
                  (len (state ps') <= len st)%Z)
         (commands h self) wss).
Proof.
  split; [|intros g' cmds st; apply plan_emits].
  intros c ps words ps' (Hw & Hat & Hb) Hlen Hfl Hext Hsig Haddr.
  assert (Hps : slots_allocated ps).
  { eapply encoder_at_allocated; [exact Hat|apply encoder_start_allocated]. }
  destruct (buildCommand_encoded isDynamicType c ps ps' words Hps Hb)
    as (cargs & ret & Hargs & Hret & Henc & _ & Hle).
  destruct (encode_command_ok _ _ _ _ _ Henc) as (_ & Hnn & _).
  assert (Hbytes : Forall is_byte cargs).
  { clear Henc. induction Hargs as [|a s la cs Ha _ IH]; [constructor|].
    inversion Hnn as [|? ? H0 Hnn']; subst. constructor; [|apply IH; exact Hnn'].
    split; [exact H0|]. eapply arg_slot_lt; [|exact Ha]. lia. }
  assert (Hrb : is_byte ret) by (eapply ret_slot_is_byte; eauto).
  assert (Hn : List.length cargs = List.length (resolved_arguments c)).
  { symmetry. eapply Forall2_length. exact Hargs. }
  exists cargs, ret. split; [exact Hargs|]. split; [exact Hbytes|].
  split; [exact Hrb|]. unfold written_flags in Henc. rewrite Hn in Henc. split.
  - intros H6.
    assert (E : (6 <? List.length (resolved_arguments c))%nat = false)
      by (apply Nat.ltb_ge; exact H6).
    rewrite E in Henc.
    rewrite encode_command_standard in Henc; auto.
    + split; [congruence|]. unfold standard_word.
      rewrite !length_app, padArray_length by lia. simpl. lia.
    + rewrite Hext. unfold EXTENDED_COMMAND. discriminate.
  - intros H7.
    assert (E : (6 <? List.length (resolved_arguments c))%nat = true)
      by (apply Nat.ltb_lt; lia).
    rewrite E in Henc.
    rewrite encode_command_extended in Henc; auto.
    + split; [congruence|]. split.
      * unfold header_word. rewrite !length_app, repeat_length. simpl. lia.
      * unfold continuation_word, padArray. rewrite length_app, repeat_length. lia.
    + apply land_extended_lor. exact Hfl.
    + apply land_lor_same.
Qed.
End Threshold.

(** A call with seven arguments, all the literal 1, alone in its planner. *)
Lemma extended_command_threshold_witness :
  exists cargs ret words ps',
    emitted sample_isDynamicType sample_encode_bytes32_array seven_args_planner 0
      fresh_globals seven_args
      (encoder_start (snd (preplan 2 seven_args_planner 0 (plan_start fresh_globals))))
      words ps' /\
    words = [header_word seven_args (Z.lor DELEGATECALL EXTENDED_COMMAND) ret;
             continuation_word cargs] /\
    List.length (continuation_word cargs) = Nat.max 32 (List.length cargs).
Proof.
  destruct (buildCommand sample_isDynamicType seven_args
              (encoder_start (snd (preplan 2 seven_args_planner 0
                                     (plan_start fresh_globals)))))
    as [[words ps']|e|] eqn:E; try (vm_compute in E; discriminate E).
  assert (Hem : emitted sample_isDynamicType sample_encode_bytes32_array
                  seven_args_planner 0 fresh_globals seven_args
                  (encoder_start (snd (preplan 2 seven_args_planner 0
                                         (plan_start fresh_globals))))
                  words ps').
  { split; [reflexivity|]. split; [|exact E].
    eapply encoder_at_here with (l1 := []) (l2 := []); reflexivity. }
  destruct (proj1 (extended_command_threshold sample_isDynamicType
                     sample_encode_bytes32_array seven_args_planner 0 fresh_globals)
              seven_args _ words ps' Hem)
    as (cargs & ret & _ & _ & _ & _ & H7).
  - pose proof E as E2. vm_compute in E2. injection E2 as _ <-. vm_compute.
    discriminate.
  - unfold is_byte. simpl. unfold DELEGATECALL. lia.
  - reflexivity.
  - reflexivity.
  - reflexivity.
  - destruct H7 as (Hw & _ & Hlen); [simpl; lia|].
    exists cargs, ret, words, ps'. split; [exact Hem|]. split; [exact Hw|exact Hlen].
Defined.

(** C8, as stated, fails.  The first call has two arguments and is encoded
    in two words, because the flags of its contract carry EXTENDED_COMMAND;
    the last of the 43 calls of the second planner has six arguments, the
    slots 252 to 257, and is encoded in one word of 34 bytes, because the
    slots 256 and 257 take two bytes each. *)
Lemma encoding_outside_the_threshold :
  (List.length (resolved_arguments flagged_add) = 2 /\
   exists w1 w2 st,
     fst (plan sample_isDynamicType sample_encode_bytes32_array [[flagged_add]] 0
            fresh_globals) = Ok ([w1; w2], st)) /\
  (List.length (resolved_arguments (six_literals 42)) = 6 /\
   nth_error (commands many_literals 0) 42 = Some (six_literals 42) /\
   exists cmds st,
     fst (plan sample_isDynamicType sample_encode_bytes32_array many_literals 0
            fresh_globals) = Ok (cmds, st) /\
     List.length st = 258 /\ List.length cmds = 43 /\
     List.length (nth 42 cmds []) = 34).
Proof.
  split.
  - split; [reflexivity|]. eexists _, _, _. vm_compute. reflexivity.
  - split; [reflexivity|]. split; [reflexivity|].
    assert (H : (let r := fst (plan sample_isDynamicType sample_encode_bytes32_array
                                 many_literals 0 fresh_globals) in
                 (is_ok r, List.length (snd (planned r)), List.length (fst (planned r)),
                  List.length (nth 42 (fst (planned r)) [])))
                = (true, 258, 43, 34)) by (vm_compute; reflexivity).
    cbv zeta in H.
    destruct (fst (plan sample_isDynamicType sample_encode_bytes32_array many_literals 0
                     fresh_globals)) as [[cmds st]|e|]; try discriminate H.
    exists cmds, st. split; [reflexivity|]. cbn [planned fst snd] in H.
    injection H as H1 H2 H3. auto.
Qed.

(** ** The slot of a literal *)

Lemma Forall2_nth_error {A B} (R : A -> B -> Prop) (l : list A) (l' : list B) :
  Forall2 R l l' ->
  forall i a, nth_error l i = Some a ->
  exists a', nth_error l' i = Some a' /\ R a a'.
Proof.
  induction 1 as [|x y l l' Hxy _ IH]; intros i a Hi.
  - destruct i; discriminate.
  - destruct i as [|i]; simpl in *.
    + injection Hi as <-. exists y. auto.
    + apply IH. exact Hi.
Qed.

Section LiteralDedup.
Variable isDynamicType : string -> bool.
Variable encode_bytes32_array : list bytes -> bytes.

(** C4, as amended: when [plan] succeeds and a call of the planner, or of a
    planner below it, passes a literal with the encoded bytes [b], the state
    begins with the entries of the literals, [lits], without repetition, and
    [b] is the entry number [slot] of them and no other; after them come the
    entries that the encoder appends for return values and subplans.  So [b]
    is in the state exactly once, unless an appended entry has the same
    bytes.  Every command that [plan] encodes has, in the words it is
    encoded to, the slot [slot] for each of its arguments that is a literal
    with the bytes [b], under whatever type (with the mark 0x80 when the
    type is dynamic); and the command list [plan] returns is made of the
    words of the commands of the planner, in order. *)
Theorem literal_dedup (h : Heap) (self q : nat) (g g' : Globals)
    (cmds : list bytes) (st : list bytes) (c : Command) (p : string) (b : bytes) :
  plan isDynamicType encode_bytes32_array h self g = (Ok (cmds, st), g') ->
  walked_under h self q ->
  In c (commands h q) ->
  In (LiteralValue p b) (args (call c)) ->
  exists slot lits extra,
    st = lits ++ extra /\
    NoDup lits /\
    nth_error lits slot = Some b /\
    count_occ bytes_eq_dec lits b = 1 /\
    Forall (appended_entry encode_bytes32_array (has_subplans h)) extra /\
    (~ In b extra -> count_occ bytes_eq_dec st b = 1) /\
    (forall c' ps words ps',
       emitted isDynamicType encode_bytes32_array h self g c' ps words ps' ->
       exists cargs ret,
         encode_command c' (written_flags c' (List.length cargs)) cargs ret = Ok words /\
         List.length cargs = List.length (resolved_arguments c') /\
         forall i p',
           nth_error (resolved_arguments c') i = Some (LiteralValue p' b) ->
           nth_error cargs i
           = Some (marked isDynamicType (LiteralValue p' b) (Z.of_nat slot))) /\
    exists wss,
      cmds = List.concat wss /\
      Forall2 (fun c' ws => exists ps ps',
                 emitted isDynamicType encode_bytes32_array h self g c' ps ws ps' /\
                 (len (state ps') <= len st)%Z)
        (commands h self) wss.
Proof.
  intros Hplan Hw Hc Ha.
  pose proof (plan_emits isDynamicType encode_bytes32_array h self g g' cmds st Hplan)
    as Htrace.
  pose proof (preplan_records_literal h (S (List.length h)) self q c (plan_start g) p b
                Hw Hc Ha) as Hin.
  pose proof (preplan_literal_keys_NoDup h (S (List.length h)) self (plan_start g)
                (NoDup_nil _)) as Hnd.
  assert (Hf : fst (plan isDynamicType encode_bytes32_array h self g) = Ok (cmds, st))
    by (rewrite Hplan; reflexivity).
  unfold emitted in *.
  destruct (preplan (S (List.length h)) h self (plan_start g)) as [r pst] eqn:Ew.
  destruct r as [[]|e|];
    try (unfold plan in Hplan; fold (plan_start g) in Hplan; rewrite Ew in Hplan;
         discriminate).
  rewrite (plan_encoder isDynamicType encode_bytes32_array h self g pst Ew) in Hf.
  specialize (Hin eq_refl). cbn [fst snd] in *.
  pose proof (encoder_start_allocated pst) as Halloc.
  unfold encoder_start in *.
  pose proof (prepopulate_spec (literalVisibility pst)) as Hpp.
  destruct (prepopulate (literalVisibility pst)) as [[st0 lsm] exps].
  destruct Hpp as [[Hs1 Hs2] Hst0].
  match type of Hf with
  | match ?X with _ => _ end = _ => destruct X as [[ec ps']|e|] eqn:Eb
  end; try discriminate.
  injection Hf as _ <-.
  apply buildCommands_extends with (subplans := has_subplans h) in Eb;
    [|intros q0 c0 Hq Ht; exists q0, c0; split; assumption].
  destruct Eb as (_ & _ & extra & Hst & Hex).
  cbn [state] in Hst.
  rewrite <- Hst0 in Hin, Hnd.
  destruct (dict_get bytes_eqb lsm b) as [s|] eqn:Eslot;
    [|exfalso; exact (Hs2 b Hin Eslot)].
  destruct (Hs1 b s Eslot) as [Hpos Hnth].
  assert (H1 : count_occ bytes_eq_dec st0 b = 1).
  { pose proof (proj1 (NoDup_count_occ bytes_eq_dec st0) Hnd b).
    pose proof (proj1 (count_occ_In bytes_eq_dec st0 b) Hin). lia. }
  exists (Z.to_nat s), st0, extra.
  split; [exact Hst|]. split; [exact Hnd|]. split; [exact Hnth|].
  split; [exact H1|]. split; [exact Hex|]. split; [|split; [|exact Htrace]].
  - intros Hn. rewrite Hst, count_occ_app.
    assert (H2 : count_occ bytes_eq_dec extra b = 0)
      by (apply count_occ_not_In; exact Hn).
    lia.
  - intros c' ps words ps1 (_ & Hat & Hb).
    assert (Hps : slots_allocated ps)
      by (eapply encoder_at_allocated; [exact Hat|exact Halloc]).
    destruct (encoder_at_extends _ _ _ _ _ _ _ _ Hat) as (Hlsm & _).
    cbn [literalSlotMap] in Hlsm.
    destruct (buildCommand_encoded isDynamicType c' ps ps1 words Hps Hb)
      as (cargs & ret & Hargs & _ & Henc & _).
    exists cargs, ret. split; [exact Henc|].
    split; [symmetry; eapply Forall2_length; exact Hargs|].
    intros i p' Hi.
    destruct (Forall2_nth_error _ _ _ Hargs i _ Hi) as (s' & Hs' & slot' & -> & Hd & _).
    rewrite Hs', Hlsm in *. rewrite Eslot in Hd. injection Hd as <-.
    rewrite Z2Nat.id by exact Hpos. reflexivity.
Qed.
End LiteralDedup.

(** The bytes of the [uint256] 1, passed once as [uint256] and once as
    [bytes32]: they are in the state once, and the words of the two calls
    have their slot. *)
Lemma literal_dedup_witness :
  exists cmds st slot,
    fst (plan sample_isDynamicType sample_encode_bytes32_array same_bytes_two_types 0
           fresh_globals) = Ok (cmds, st) /\
    count_occ bytes_eq_dec st (uint256 1) = 1 /\
    nth_error st slot = Some (uint256 1) /\
    exists w1 w2 cargs1 ret1 cargs2 ret2,
      cmds = w1 ++ w2 /\
      encode_command {| call := library_call 1 math_add [lit 1; lit 2]; type := CALL |}
        (written_flags {| call := library_call 1 math_add [lit 1; lit 2]; type := CALL |}
           (List.length cargs1)) cargs1 ret1 = Ok w1 /\
      nth_error cargs1 0 = Some (Z.of_nat slot) /\
      encode_command {| call := library_call 2 log_bytes32
                                  [LiteralValue "bytes32" (uint256 1)];
                        type := CALL |}
        (written_flags {| call := library_call 2 log_bytes32
                                    [LiteralValue "bytes32" (uint256 1)];
                          type := CALL |} (List.length cargs2)) cargs2 ret2 = Ok w2 /\
      nth_error cargs2 0 = Some (Z.of_nat slot).
Proof.
  destruct (plan sample_isDynamicType sample_encode_bytes32_array same_bytes_two_types 0
              fresh_globals) as [[[cmds st]|e|] g'] eqn:E;
    try (vm_compute in E; discriminate E).
  destruct (literal_dedup sample_isDynamicType sample_encode_bytes32_array
              same_bytes_two_types 0 0 fresh_globals g' cmds st
              {| call := library_call 2 log_bytes32 [LiteralValue "bytes32" (uint256 1)];
                 type := CALL |} "bytes32" (uint256 1) E)
    as (slot & lits & extra & Hst & _ & Hnth & _ & Hex & Hcount & Hwords & wss & Hc & Hwss).
  - apply walked_here.
  - right. left. reflexivity.
  - left. reflexivity.
  - exists cmds, st, slot. split; [reflexivity|]. split; [|split].
    + apply Hcount. intros Hb. rewrite Forall_forall in Hex.
      destruct (Hex _ Hb) as [H|[(q & c & Hq & Ht) _]]; [discriminate|].
      destruct q as [|[|q]]; simpl in Hq.
      * destruct Hq as [<-|[<-|[]]]; discriminate Ht.
      * contradiction.
      * contradiction.
    + rewrite Hst. rewrite nth_error_app1; [exact Hnth|].
      apply nth_error_Some. congruence.
    + inversion Hwss as [|c1 w1 l1 ws1 (ps1 & ps1' & Hem1 & _) Hrest]; subst.
      inversion Hrest as [|c2 w2 l2 ws2 (ps2 & ps2' & Hem2 & _) Hnil]; subst.
      inversion Hnil; subst.
      destruct (Hwords _ _ _ _ Hem1) as (cargs1 & ret1 & He1 & _ & Hs1).
      destruct (Hwords _ _ _ _ Hem2) as (cargs2 & ret2 & He2 & _ & Hs2).
      exists w1, w2, cargs1, ret1, cargs2, ret2.
      split; [simpl; rewrite app_nil_r; reflexivity|].
      split; [exact He1|]. split; [exact (Hs1 0 "uint256"%string eq_refl)|].
      split; [exact He2|]. exact (Hs2 0 "bytes32"%string eq_refl).
Defined.

(** C4, as stated, fails: two calls pass a literal with the bytes of
    [subplan_word], and the planned state holds these bytes twice, once for
    the literal and once as the serialized subplan. *)
Lemma literal_equal_to_subplan_entry :
  exists cmds st,
    fst (plan sample_isDynamicType sample_encode_bytes32_array literal_like_subplan 0
           fresh_globals) = Ok (cmds, st) /\
    count_occ bytes_eq_dec st subplan_word = 2.
Proof.
  eexists _, _. split; [vm_compute; reflexivity|]. vm_compute. reflexivity.
Qed.
